(** * FAQPage schema validator

    A shallow embedding of [SchemaValidator] from
    [week_1/faq-generator/src/validators.py] and the properties of its
    validation report.

    The validator receives a decoded JSON document, that is an arbitrary
    Python value, and probes it with [in], [.get], [isinstance], [len] and
    string methods.  Every probe that Python answers with an exception is
    modelled as a computation in an error monad; the two public entry points
    wrap their body in [try ... except Exception], which is modelled by a
    state-and-error monad so that the handler sees the report as mutated up
    to the point of the failure. *)

From Stdlib Require Import String Ascii List Bool Arith ZArith Lia.
From Stdlib Require Import DecimalString.
Import ListNotations.
Local Open Scope string_scope.
Local Open Scope list_scope.

(** ** Python values

    The values a decoded JSON document is made of.  Numbers are the integer
    literals (floating-point literals are left out of the model).  A [dict]
    is the sequence of its items in insertion order, keys being strings;
    lookup takes the first item with the key, so a sequence with distinct
    keys denotes exactly one Python dict. *)

#[warnings="-register-all"]
Inductive value : Type :=
| VNone
| VBool (b : bool)
| VInt (n : Z)
| VStr (s : string)
| VList (l : list value)
| VDict (d : list (string * value)).

(** The exceptions the validator can provoke, with [str(e)] as CPython 3.12
    words it. *)

Inductive exn : Type :=
| TypeError (msg : string)
| AttributeError (ty attr : string)
| KeyError (key : string).

Definition str_exn (e : exn) : string :=
  match e with
  | TypeError msg => msg
  | AttributeError ty attr =>
      "'" ++ ty ++ "' object has no attribute '" ++ attr ++ "'"
  | KeyError key => "'" ++ key ++ "'"
  end.

Inductive result (A : Type) : Type :=
| Ok (a : A)
| Raise (e : exn).

Arguments Ok {A} a.
Arguments Raise {A} e.

Definition bind {A B : Type} (c : result A) (k : A -> result B) : result B :=
  match c with
  | Ok a => k a
  | Raise e => Raise e
  end.

Notation "x <- c ;; k" := (bind c (fun x => k))
  (at level 61, c at next level, right associativity).

(** A [for] loop over a list whose body updates an accumulator and may raise. *)

Fixpoint for_each {A S : Type} (l : list A) (body : A -> S -> result S) (s : S)
  : result S :=
  match l with
  | [] => Ok s
  | x :: l' => s' <- body x s ;; for_each l' body s'
  end.

(** A list comprehension [[f x for x in l]] whose element expression may raise. *)

Fixpoint map_result {A B : Type} (f : A -> result B) (l : list A)
  : result (list B) :=
  match l with
  | [] => Ok []
  | x :: l' => y <- f x ;; ys <- map_result f l' ;; Ok (y :: ys)
  end.

(** [enumerate(l)], counting from [start]. *)

Fixpoint enumerate_from {A : Type} (start : nat) (l : list A) : list (nat * A) :=
  match l with
  | [] => []
  | x :: l' => (start, x) :: enumerate_from (S start) l'
  end.

Definition enumerate {A : Type} (l : list A) : list (nat * A) :=
  enumerate_from 0 l.

(** ** Strings

    A string is its sequence of code points; the model covers the code
    points below 256, one [ascii] each.  [str.isspace] and [str.lower] are
    the Unicode ones restricted to that range. *)

Definition is_space (c : ascii) : bool :=
  existsb (Nat.eqb (nat_of_ascii c))
          [9; 10; 11; 12; 13; 28; 29; 30; 31; 32; 133; 160]%nat.

Definition lower_char (c : ascii) : ascii :=
  let n := nat_of_ascii c in
  if (((65 <=? n) && (n <=? 90)) || ((192 <=? n) && (n <=? 214))
      || ((216 <=? n) && (n <=? 222)))%nat
  then ascii_of_nat (n + 32)
  else c.

Fixpoint str_lower (s : string) : string :=
  match s with
  | EmptyString => EmptyString
  | String c s' => String (lower_char c) (str_lower s')
  end.

Fixpoint str_lstrip (s : string) : string :=
  match s with
  | EmptyString => EmptyString
  | String c s' => if is_space c then str_lstrip s' else s
  end.

Fixpoint str_rstrip (s : string) : string :=
  match s with
  | EmptyString => EmptyString
  | String c s' =>
      match str_rstrip s' with
      | EmptyString => if is_space c then EmptyString else String c EmptyString
      | r => String c r
      end
  end.

Definition str_strip (s : string) : string := str_rstrip (str_lstrip s).

(** [s.split()]: the maximal runs of non-whitespace, [cur] being the run
    under construction. *)

Fixpoint split_from (cur : string) (s : string) : list string :=
  match s with
  | EmptyString => if String.eqb cur "" then [] else [cur]
  | String c s' =>
      if is_space c
      then (if String.eqb cur "" then split_from "" s'
            else cur :: split_from "" s')
      else split_from (cur ++ String c "") s'
  end.

Definition str_split (s : string) : list string := split_from "" s.

Definition startswith (s pattern : string) : bool := String.prefix pattern s.

(** [sub in s] on two strings. *)

Fixpoint str_contains (sub s : string) : bool :=
  String.prefix sub s
  || match s with
     | EmptyString => false
     | String _ s' => str_contains sub s'
     end.

(** [str(n)] for a non-negative integer, as an f-string renders it. *)

Definition string_of_nat (n : nat) : string :=
  NilEmpty.string_of_uint (Nat.to_uint n).

(** ** Primitive operations on values *)

Definition type_name (v : value) : string :=
  match v with
  | VNone => "NoneType"
  | VBool _ => "bool"
  | VInt _ => "int"
  | VStr _ => "str"
  | VList _ => "list"
  | VDict _ => "dict"
  end.

Definition is_dict (v : value) : bool :=
  match v with VDict _ => true | _ => false end.

(** [v == s] and [v != s] for a string literal [s]. *)

Definition eq_str (v : value) (s : string) : bool :=
  match v with
  | VStr t => String.eqb t s
  | _ => false
  end.

Definition ne_str (v : value) (s : string) : bool := negb (eq_str v s).

Fixpoint lookup (key : string) (d : list (string * value)) : option value :=
  match d with
  | [] => None
  | (k, v) :: d' => if String.eqb k key then Some v else lookup key d'
  end.

Definition has_key (key : string) (d : list (string * value)) : bool :=
  match lookup key d with Some _ => true | None => false end.

(** [key in v] *)

Definition py_in (key : string) (v : value) : result bool :=
  match v with
  | VDict d => Ok (has_key key d)
  | VList l => Ok (existsb (fun x => eq_str x key) l)
  | VStr s => Ok (str_contains key s)
  | _ => Raise (TypeError ("argument of type '" ++ type_name v
                           ++ "' is not iterable"))
  end.

(** [v.get(key, default)] *)

Definition py_get (v : value) (key : string) (default : value) : result value :=
  match v with
  | VDict d =>
      Ok (match lookup key d with Some x => x | None => default end)
  | _ => Raise (AttributeError (type_name v) "get")
  end.

(** [v[key]] for a string [key] *)

Definition py_getitem (v : value) (key : string) : result value :=
  match v with
  | VDict d =>
      match lookup key d with
      | Some x => Ok x
      | None => Raise (KeyError key)
      end
  | VList _ =>
      Raise (TypeError "list indices must be integers or slices, not str")
  | VStr _ => Raise (TypeError "string indices must be integers, not 'str'")
  | _ => Raise (TypeError ("'" ++ type_name v
                           ++ "' object is not subscriptable"))
  end.

(** [len(v)] *)

Definition py_len (v : value) : result nat :=
  match v with
  | VList l => Ok (List.length l)
  | VStr s => Ok (String.length s)
  | VDict d => Ok (List.length d)
  | _ => Raise (TypeError ("object of type '" ++ type_name v
                           ++ "' has no len()"))
  end.

(** The elements [for x in v] visits: the items of a list, the characters
    of a string, the keys of a dict. *)

Definition py_iter (v : value) : result (list value) :=
  match v with
  | VList l => Ok l
  | VStr s => Ok (map (fun c => VStr (String c "")) (list_ascii_of_string s))
  | VDict d => Ok (map (fun kv => VStr (fst kv)) d)
  | _ => Raise (TypeError ("'" ++ type_name v ++ "' object is not iterable"))
  end.

(** Truth value of [v] in a condition *)

Definition truthy (v : value) : bool :=
  match v with
  | VNone => false
  | VBool b => b
  | VInt n => negb (Z.eqb n 0)
  | VStr s => negb (String.eqb s "")
  | VList l => match l with [] => false | _ => true end
  | VDict d => match d with [] => false | _ => true end
  end.

(** [v.lower()] and [v.split()], methods of [str] only *)

Definition py_lower (v : value) : result string :=
  match v with
  | VStr s => Ok (str_lower s)
  | _ => Raise (AttributeError (type_name v) "lower")
  end.

Definition py_split (v : value) : result (list string) :=
  match v with
  | VStr s => Ok (str_split s)
  | _ => Raise (AttributeError (type_name v) "split")
  end.

(** Equality of hashable values, as [set] uses it: [True == 1] and
    [False == 0]. *)

Definition hashable (v : value) : bool :=
  match v with
  | VList _ | VDict _ => false
  | _ => true
  end.

Definition py_eq (a b : value) : bool :=
  match a, b with
  | VNone, VNone => true
  | VBool x, VBool y => Bool.eqb x y
  | VBool x, VInt n | VInt n, VBool x => Z.eqb n (if x then 1 else 0)
  | VInt n, VInt m => Z.eqb n m
  | VStr s, VStr t => String.eqb s t
  | _, _ => false
  end.

(** [set(l)], built by inserting the elements of [l] in order into [acc];
    an unhashable element raises. *)

Fixpoint set_from (acc : list value) (l : list value) : result (list value) :=
  match l with
  | [] => Ok acc
  | x :: l' =>
      if hashable x
      then set_from (if existsb (py_eq x) acc then acc else acc ++ [x]) l'
      else Raise (TypeError ("unhashable type: '" ++ type_name x ++ "'"))
  end.

Definition py_set (l : list value) : result (list value) := set_from [] l.

(** ** The validation passes

    Each pass builds a fresh [results] dict and appends to its lists; the
    dict is threaded through the pass as a value.  When a pass raises, its
    local dict is lost with it. *)

(** [a and b], where evaluating [b] may raise *)

Definition and_then (a : bool) (b : result bool) : result bool :=
  if a then b else Ok false.

(** The prefix [f"Question {index}: ..."] of the per-entity messages *)

Definition question_msg (index : nat) (rest : string) : string :=
  "Question " ++ string_of_nat index ++ ": " ++ rest.

(** *** [_validate_question_entity] *)

Record entity_results : Type := mkEntity {
  e_issues : list string;
  e_warnings : list string
}.

Definition e_issue (r : entity_results) (msg : string) : entity_results :=
  mkEntity (e_issues r ++ [msg]) (e_warnings r).

Definition e_warning (r : entity_results) (msg : string) : entity_results :=
  mkEntity (e_issues r) (e_warnings r ++ [msg]).

Definition _validate_question_entity (entity : value) (index : nat)
  : result entity_results :=
  let results := mkEntity [] [] in
  (* Check required fields *)
  results <-
    for_each ["@type"; "name"; "acceptedAnswer"]
      (fun field results =>
         present <- py_in field entity ;;
         Ok (if negb present
             then e_issue results
                    (question_msg index
                       ("Missing required field '" ++ field ++ "'"))
             else results))
      results ;;
  (* Validate @type *)
  ty <- py_get entity "@type" VNone ;;
  let results :=
    if ne_str ty "Question"
    then e_issue results (question_msg index "@type must be 'Question'")
    else results in
  (* Validate name (question) *)
  has_name <- py_in "name" entity ;;
  results <-
    (if has_name then
       name <- py_getitem entity "name" ;;
       Ok (match name with
           | VStr s =>
               if String.eqb (str_strip s) ""
               then e_issue results
                      (question_msg index "'name' must be a non-empty string")
               else if Nat.ltb (String.length s) 10
               then e_warning results
                      (question_msg index "Question is very short")
               else if Nat.ltb 200 (String.length s)
               then e_warning results
                      (question_msg index "Question is very long")
               else results
           | _ => e_issue results
                    (question_msg index "'name' must be a non-empty string")
           end)
     else Ok results) ;;
  (* Validate acceptedAnswer *)
  has_answer <- py_in "acceptedAnswer" entity ;;
  if has_answer then
    answer <- py_getitem entity "acceptedAnswer" ;;
    if negb (is_dict answer)
    then Ok (e_issue results
               (question_msg index "acceptedAnswer must be a dictionary"))
    else
      aty <- py_get answer "@type" VNone ;;
      let results :=
        if ne_str aty "Answer"
        then e_issue results
               (question_msg index "acceptedAnswer @type must be 'Answer'")
        else results in
      has_text <- py_in "text" answer ;;
      if negb has_text
      then Ok (e_issue results
                 (question_msg index "acceptedAnswer missing 'text' field"))
      else
        text <- py_getitem answer "text" ;;
        Ok (match text with
            | VStr s =>
                if String.eqb (str_strip s) ""
                then e_issue results
                       (question_msg index "acceptedAnswer text must be non-empty")
                else if Nat.ltb (String.length s) 20
                then e_warning results
                       (question_msg index "Answer is very short")
                else if Nat.ltb 1000 (String.length s)
                then e_warning results
                       (question_msg index "Answer is very long")
                else results
            | _ => e_issue results
                     (question_msg index "acceptedAnswer text must be non-empty")
            end)
  else Ok results.

(** *** [_validate_structure] *)

Record structure_results : Type := mkStructure {
  s_valid : bool;
  s_issues : list string;
  s_warnings : list string
}.

(** [results['issues'].append(msg); results['valid'] = False] *)

Definition s_fail (r : structure_results) (msg : string) : structure_results :=
  mkStructure false (s_issues r ++ [msg]) (s_warnings r).

Definition s_warning (r : structure_results) (msg : string)
  : structure_results :=
  mkStructure (s_valid r) (s_issues r) (s_warnings r ++ [msg]).

(** The two [extend] calls that fold an entity's findings into the pass *)

Definition s_extend (r : structure_results) (er : entity_results)
  : structure_results :=
  mkStructure (s_valid r) (s_issues r ++ e_issues er)
              (s_warnings r ++ e_warnings er).

Definition _validate_structure (schema : value) : result structure_results :=
  let results := mkStructure true [] [] in
  (* Check required top-level fields *)
  results <-
    for_each ["@context"; "@type"; "mainEntity"]
      (fun field results =>
         present <- py_in field schema ;;
         Ok (if negb present
             then s_fail results ("Missing required field: " ++ field)
             else results))
      results ;;
  (* Validate @context *)
  has_context <- py_in "@context" schema ;;
  bad_context <-
    and_then has_context
      (c <- py_getitem schema "@context" ;; Ok (ne_str c "https://schema.org")) ;;
  let results :=
    if bad_context
    then s_warning results "@context should be 'https://schema.org'"
    else results in
  (* Validate @type *)
  has_type <- py_in "@type" schema ;;
  bad_type <-
    and_then has_type
      (t <- py_getitem schema "@type" ;; Ok (ne_str t "FAQPage")) ;;
  let results :=
    if bad_type then s_fail results "@type must be 'FAQPage'" else results in
  (* Validate mainEntity *)
  has_main <- py_in "mainEntity" schema ;;
  if has_main then
    main_entity <- py_getitem schema "mainEntity" ;;
    match main_entity with
    | VList l =>
        if Nat.eqb (List.length l) 0
        then Ok (s_fail results "mainEntity cannot be empty")
        else
          (* Validate each question entity *)
          for_each (enumerate l)
            (fun '(i, entity) results =>
               entity_results <- _validate_question_entity entity i ;;
               Ok (s_extend results entity_results))
            results
    | _ => Ok (s_fail results "mainEntity must be a list")
    end
  else Ok results.

(** *** [_validate_content] *)

Record content_results : Type := mkContent {
  c_issues : list string;
  c_warnings : list string;
  c_suggestions : list string
}.

Definition c_warning (r : content_results) (msg : string) : content_results :=
  mkContent (c_issues r) (c_warnings r ++ [msg]) (c_suggestions r).

Definition c_suggestion (r : content_results) (msg : string) : content_results :=
  mkContent (c_issues r) (c_warnings r) (c_suggestions r ++ [msg]).

(** [[entity.get('name', '') for entity in main_entity
      if isinstance(entity, dict)]], used by the content and the SEO pass *)

Definition question_names (main_entity : value) : result (list value) :=
  elements <- py_iter main_entity ;;
  map_result (fun entity => py_get entity "name" (VStr ""))
             (filter is_dict elements).

Definition nonempty {A : Type} (l : list A) : bool :=
  match l with [] => false | _ => true end.

(** The source compares [len(set(starters)) < len(starters) * 0.7] in
    binary floating point.  For a count [n] below 2^49 the rounded product
    lies within 0.06 of [7n/10], and an integer differs from [7n/10] by 0 or
    by at least 0.1, so the comparison with the integer [k] has the outcome
    of [10 * k < 7 * n]; the same holds for [* 0.5], which is exact.  The
    model states the comparisons on integers. *)

Definition below_fraction (k num den n : nat) : bool :=
  Nat.ltb (den * k) (num * n).

Definition _validate_content (schema : value) : result content_results :=
  let results := mkContent [] [] [] in
  main_entity <- py_get schema "mainEntity" (VList []) ;;
  (* Check for duplicate questions *)
  questions <- question_names main_entity ;;
  distinct <- py_set questions ;;
  let results :=
    if negb (Nat.eqb (List.length questions) (List.length distinct))
    then c_warning results "Duplicate questions found"
    else results in
  (* Check question diversity *)
  n <- py_len main_entity ;;
  results <-
    (if Nat.leb 3 n then
       elements <- py_iter main_entity ;;
       question_words <-
         for_each elements
           (fun entity question_words =>
              has_name <- and_then (is_dict entity) (py_in "name" entity) ;;
              if has_name then
                name <- py_getitem entity "name" ;;
                lowered <- py_lower name ;;
                Ok (question_words ++ str_split lowered)
              else Ok question_words)
           [] ;;
       (* Check for repetitive question starters *)
       tokens <- map_result py_split questions ;;
       let starters := map (hd "") (filter nonempty tokens) in
       distinct_starters <- py_set (map VStr starters) ;;
       Ok (if below_fraction (List.length distinct_starters) 7 10
                             (List.length starters)
           then c_suggestion results
                  "Consider varying question starters for better diversity"
           else results)
     else Ok results) ;;
  (* Check answer quality *)
  elements <- py_iter main_entity ;;
  for_each (enumerate elements)
    (fun '(i, entity) results =>
       has_answer <-
         and_then (is_dict entity) (py_in "acceptedAnswer" entity) ;;
       if has_answer then
         answer <- py_getitem entity "acceptedAnswer" ;;
         has_text <- and_then (is_dict answer) (py_in "text" answer) ;;
         if has_text then
           text <- py_getitem answer "text" ;;
           size <- py_len text ;;
           Ok (if Nat.ltb size 50
               then c_suggestion results
                      (question_msg (i + 1)
                         "Consider expanding the answer for better value")
               else results)
         else Ok results
       else Ok results)
    results.

(** *** [_validate_seo_practices] *)

Record seo_results : Type := mkSeo {
  o_warnings : list string;
  o_suggestions : list string
}.

Definition o_warning (r : seo_results) (msg : string) : seo_results :=
  mkSeo (o_warnings r ++ [msg]) (o_suggestions r).

Definition o_suggestion (r : seo_results) (msg : string) : seo_results :=
  mkSeo (o_warnings r) (o_suggestions r ++ [msg]).

Definition common_patterns : list string :=
  ["what"; "how"; "when"; "where"; "why"; "who"].

Definition _validate_seo_practices (schema : value) : result seo_results :=
  let results := mkSeo [] [] in
  (* Check for metadata *)
  has_name <- py_in "name" schema ;;
  let results :=
    if negb has_name
    then o_suggestion results "Consider adding a 'name' field for the FAQ page"
    else results in
  has_description <- py_in "description" schema ;;
  let results :=
    if negb has_description
    then o_suggestion results
           "Consider adding a 'description' field for better SEO"
    else results in
  (* Check question count *)
  main_entity <- py_get schema "mainEntity" (VList []) ;;
  n <- py_len main_entity ;;
  let results :=
    if Nat.ltb n 3
    then o_warning results
           "FAQ pages should have at least 3 questions for best SEO results"
    else if Nat.ltb 10 n
    then o_warning results
           "Consider limiting to 10 questions to avoid overwhelming users"
    else results in
  (* Check for keyword optimization *)
  questions <- question_names main_entity ;;
  if nonempty questions then
    (* Check for common question patterns *)
    pattern_count <-
      for_each questions
        (fun q count =>
           for_each common_patterns
             (fun pattern count =>
                lowered <- py_lower q ;;
                Ok (if startswith lowered pattern then S count else count))
             count)
        0%nat ;;
    Ok (if below_fraction pattern_count 1 2 (List.length questions)
        then o_suggestion results
               "Consider using more common question patterns (What, How, When, etc.)"
        else results)
  else Ok results.

(** ** The entry points

    Both wrap their body in [try ... except Exception as e].  The handler
    works on the [results] dict as the body left it, so the body is a
    computation over that dict which keeps it when it raises. *)

Definition stateful (S A : Type) : Type := S -> S * result A.

Definition st_ret {S A : Type} (a : A) : stateful S A := fun s => (s, Ok a).

Definition st_bind {S A B : Type} (c : stateful S A) (k : A -> stateful S B)
  : stateful S B :=
  fun s =>
    match c s with
    | (s', Ok a) => k a s'
    | (s', Raise e) => (s', Raise e)
    end.

Notation "x <~ c ;; k" := (st_bind c (fun x => k))
  (at level 61, c at next level, right associativity).
Notation "c ;;; k" := (st_bind c (fun _ => k))
  (at level 61, right associativity).

Definition lift {S A : Type} (c : result A) : stateful S A := fun s => (s, c).

Definition modify {S : Type} (f : S -> S) : stateful S unit :=
  fun s => (f s, Ok tt).

Definition get {S : Type} : stateful S S := fun s => (s, Ok s).

Definition when {S : Type} (b : bool) (c : stateful S unit) : stateful S unit :=
  if b then c else st_ret tt.

Fixpoint st_for_each {A S : Type} (l : list A) (body : A -> stateful S unit)
  : stateful S unit :=
  match l with
  | [] => st_ret tt
  | x :: l' => body x ;;; st_for_each l' body
  end.

Definition try_except {S A : Type} (body : stateful S A)
           (handler : exn -> stateful S A) : stateful S A :=
  fun s =>
    match body s with
    | (s', Ok a) => (s', Ok a)
    | (s', Raise e) => handler e s'
    end.

Definition run {S A : Type} (c : stateful S A) (s : S) : result A := snd (c s).

(** *** [validate_schema] *)

Record report : Type := mkReport {
  valid : bool;
  issues : list string;
  warnings : list string;
  suggestions : list string;
  google_validation : value
}.

(** [results.update(structure_results)]: the keys [valid], [issues] and
    [warnings] are replaced. *)

Definition update_structure (st : structure_results) (r : report) : report :=
  mkReport (s_valid st) (s_issues st) (s_warnings st) (suggestions r)
           (google_validation r).

Definition extend_issues (l : list string) (r : report) : report :=
  mkReport (valid r) (issues r ++ l) (warnings r) (suggestions r)
           (google_validation r).

Definition extend_warnings (l : list string) (r : report) : report :=
  mkReport (valid r) (issues r) (warnings r ++ l) (suggestions r)
           (google_validation r).

Definition extend_suggestions (l : list string) (r : report) : report :=
  mkReport (valid r) (issues r) (warnings r) (suggestions r ++ l)
           (google_validation r).

Definition set_valid (b : bool) (r : report) : report :=
  mkReport b (issues r) (warnings r) (suggestions r) (google_validation r).

Definition initial_report : report := mkReport true [] [] [] VNone.

(** The body of the [try] block *)

Definition validate_schema_body (schema : value) : stateful report report :=
  (* Basic structure validation *)
  structure_results <~ lift (_validate_structure schema) ;;
  modify (update_structure structure_results) ;;;
  (* Content validation *)
  content_results <~ lift (_validate_content schema) ;;
  modify (extend_issues (c_issues content_results)) ;;;
  modify (extend_warnings (c_warnings content_results)) ;;;
  modify (extend_suggestions (c_suggestions content_results)) ;;;
  (* SEO validation *)
  seo_results <~ lift (_validate_seo_practices schema) ;;
  modify (extend_warnings (o_warnings seo_results)) ;;;
  modify (extend_suggestions (o_suggestions seo_results)) ;;;
  (* Update overall validity *)
  results <~ get ;;
  when (nonempty (issues results)) (modify (set_valid false)) ;;;
  get.

(** The [except Exception as e] block *)

Definition validate_schema_handler (e : exn) : stateful report report :=
  modify (set_valid false) ;;;
  modify (extend_issues [("Validation error: " ++ str_exn e)%string]) ;;;
  get.

Definition validate_schema (schema : value) : result report :=
  run (try_except (validate_schema_body schema) validate_schema_handler)
      initial_report.

(** *** [validate_with_google] *)

Record google_results : Type := mkGoogle {
  g_valid : bool;
  g_issues : list string;
  g_warnings : list string;
  rich_results : bool
}.

(** [results['valid'] = False; results['issues'].append(msg)] *)

Definition g_fail (msg : string) (r : google_results) : google_results :=
  mkGoogle false (g_issues r ++ [msg]) (g_warnings r) (rich_results r).

(** [results['rich_results'] = b; results['warnings'].append(msg)] *)

Definition g_eligibility (b : bool) (msg : string) (r : google_results)
  : google_results :=
  mkGoogle (g_valid r) (g_issues r) (g_warnings r ++ [msg]) b.

Definition initial_google : google_results := mkGoogle true [] [] true.

(** [f"Question {i+1} ..."] *)

Definition google_msg (i : nat) (rest : string) : string :=
  "Question " ++ string_of_nat (i + 1) ++ rest.

(** [a or b], where evaluating [b] may raise *)

Definition or_else (a : bool) (b : result bool) : result bool :=
  if a then Ok true else b.

(** The body of the loop over [enumerate(main_entity)] *)

Definition google_check_entity (i : nat) (entity : value)
  : stateful google_results unit :=
  if negb (is_dict entity) then
    modify (g_fail (google_msg i " is not properly formatted"))
    (* continue *)
  else
    ty <~ lift (py_get entity "@type" VNone) ;;
    when (ne_str ty "Question")
         (modify (g_fail (google_msg i " has invalid type"))) ;;;
    name <~ lift (py_get entity "name" VNone) ;;
    when (negb (truthy name))
         (modify (g_fail (google_msg i " missing question text"))) ;;;
    answer <~ lift (py_get entity "acceptedAnswer" (VDict [])) ;;
    bad_answer <~
      lift (or_else (negb (is_dict answer))
              (aty <- py_get answer "@type" VNone ;; Ok (ne_str aty "Answer"))) ;;
    when bad_answer
         (modify (g_fail (google_msg i " has invalid answer format"))) ;;;
    text <~ lift (py_get answer "text" VNone) ;;
    when (negb (truthy text))
         (modify (g_fail (google_msg i " missing answer text"))).

(** The body of the [try] block; each early [return results] ends its
    branch. *)

Definition validate_with_google_body (schema : value)
  : stateful google_results google_results :=
  (* Check for FAQPage support *)
  ty <~ lift (py_get schema "@type" VNone) ;;
  if ne_str ty "FAQPage" then
    modify (g_fail "Schema type not supported for rich results") ;;;
    get
  else
    (* Check minimum requirements *)
    main_entity <~ lift (py_get schema "mainEntity" (VList [])) ;;
    n <~ lift (py_len main_entity) ;;
    if Nat.ltb n 1 then
      modify (g_fail "No questions found") ;;;
      get
    else
      (* Validate each question for Google requirements *)
      elements <~ lift (py_iter main_entity) ;;
      st_for_each (enumerate elements)
                  (fun '(i, entity) => google_check_entity i entity) ;;;
      (* Check for rich results eligibility *)
      results <~ get ;;
      eligible <~
        lift (and_then (g_valid results)
                (n <- py_len main_entity ;; Ok (Nat.leb 3 n))) ;;
      (if eligible
       then modify (g_eligibility true "Schema is eligible for rich results")
       else modify (g_eligibility false
                      "Schema may not be eligible for rich results")) ;;;
      get.

Definition validate_with_google_handler (e : exn)
  : stateful google_results google_results :=
  modify (g_fail ("Validation error: " ++ str_exn e)) ;;;
  get.

Definition validate_with_google (schema : value) : result google_results :=
  run (try_except (validate_with_google_body schema)
                  validate_with_google_handler)
      initial_google.

(** ** Sample documents *)

Definition answer_of (text : string) : value :=
  VDict [("@type", VStr "Answer"); ("text", VStr text)].

Definition question_of (name text : string) : value :=
  VDict [("@type", VStr "Question"); ("name", VStr name);
         ("acceptedAnswer", answer_of text)].

Definition faq_page (entities : list value) : value :=
  VDict [("@context", VStr "https://schema.org"); ("@type", VStr "FAQPage");
         ("mainEntity", VList entities)].

Definition q_services : value :=
  question_of "What services do you offer?"
    "We provide comprehensive dental care including cleanings, fillings, and cosmetic procedures.".

Definition q_schedule : value :=
  question_of "How do I schedule an appointment?"
    "You can schedule an appointment by calling our office or using our online booking system.".

Definition q_hours : value :=
  question_of "What are your office hours?"
    "Our office is open Monday through Friday from 8 AM to 5 PM.".

Definition valid_schema : value := faq_page [q_services; q_schedule; q_hours].

(** ** [SchemaGenerator]

    The generator of [schema_generator.py], whose output the callers
    ([run.py], [app.py]) hand to [SchemaValidator.validate_schema]. *)

(** [d[key] = v] on a dict: the value at an existing key is replaced in
    place, a new key goes last. *)

Fixpoint dict_set (key : string) (v : value) (d : list (string * value))
  : list (string * value) :=
  match d with
  | [] => [(key, v)]
  | (k, x) :: d' =>
      if String.eqb k key then (k, v) :: d' else (k, x) :: dict_set key v d'
  end.

(** [v[key] = x] for a string [key] *)

Definition py_setitem (v : value) (key : string) (x : value) : result value :=
  match v with
  | VDict d => Ok (VDict (dict_set key x d))
  | VList _ =>
      Raise (TypeError "list indices must be integers or slices, not str")
  | _ => Raise (TypeError ("'" ++ type_name v
                           ++ "' object does not support item assignment"))
  end.

Definition is_list (v : value) : bool :=
  match v with VList _ => true | _ => false end.

(** [sep.join(v)]: every item must be a string. *)

Fixpoint join_items (i : nat) (l : list value) : result (list string) :=
  match l with
  | [] => Ok []
  | VStr s :: l' => rest <- join_items (S i) l' ;; Ok (s :: rest)
  | x :: _ =>
      Raise (TypeError ("sequence item " ++ string_of_nat i
                        ++ ": expected str instance, " ++ type_name x
                        ++ " found"))
  end.

Definition py_join (sep : string) (v : value) : result string :=
  match py_iter v with
  | Ok items => strs <- join_items 0 items ;; Ok (String.concat sep strs)
  | Raise _ => Raise (TypeError "can only join an iterable")
  end.

Module SchemaGenerator.

(** [generate_schema] raises [ValueError] itself and lets every other
    exception through ([except Exception: ...; raise]). *)

Inductive raised : Type :=
| ValueError (msg : string)
| Builtin (e : exn).

Inductive outcome (A : Type) : Type :=
| Returned (a : A)
| Raised (e : raised).

Arguments Returned {A} a.
Arguments Raised {A} e.

Definition schema_template : list (string * value) :=
  [("@context", VStr "https://schema.org"); ("@type", VStr "FAQPage");
   ("mainEntity", VList [])].

Definition _create_question_entity (faq : value) : result value :=
  question <- py_getitem faq "question" ;;
  answer <- py_getitem faq "answer" ;;
  let entity :=
    [("@type", VStr "Question"); ("name", question);
     ("acceptedAnswer", VDict [("@type", VStr "Answer"); ("text", answer)])] in
  (* Add category if available *)
  category <- py_get faq "category" VNone ;;
  entity <-
    (if truthy category then
       name <- py_getitem faq "category" ;;
       Ok (dict_set "about"
             (VDict [("@type", VStr "Thing"); ("name", name)]) entity)
     else Ok entity) ;;
  (* Add keywords if available *)
  keywords <- py_get faq "keywords" VNone ;;
  if truthy keywords then
    items <- py_getitem faq "keywords" ;;
    joined <- py_join ", " items ;;
    Ok (VDict (dict_set "keywords" (VStr joined) entity))
  else Ok (VDict entity).

(** The methods are called as [generator.f(arg, **kwargs)]: [self] and the
    one named parameter are bound positionally, so a keyword of either name
    is rejected before the body runs, with the first such keyword of
    [kwargs] in the message. *)

Definition bind_keywords (fname : string) (params : list string)
           (kwargs : list (string * value)) : result unit :=
  match find (fun kv => existsb (String.eqb (fst kv)) params) kwargs with
  | Some (k, _) =>
      Raise (TypeError ("SchemaGenerator." ++ fname
                        ++ "() got multiple values for argument '" ++ k
                        ++ "'"))
  | None => Ok tt
  end.

(** [**kwargs] is the dict of the keyword arguments; [now] is the text of
    [datetime.now().isoformat()] at the time of the call. *)

Definition generate_schema (faqs : value) (kwargs : list (string * value))
           (now : string) : outcome value :=
  match bind_keywords "generate_schema" ["self"; "faqs"] kwargs with
  | Raise e => Raised (Builtin e)
  | Ok _ =>
      if negb (truthy faqs)
      then Raised (ValueError "No FAQs provided for schema generation")
      else
        match
          (* Create base schema *)
          let schema := schema_template in
          (* Add main entity items *)
          items <- py_iter faqs ;;
          main_entities <- map_result _create_question_entity items ;;
          let schema := dict_set "mainEntity" (VList main_entities) schema in
          (* Add optional metadata *)
          let kwarg key :=
            match lookup key kwargs with Some x => x | None => VNone end in
          let schema :=
            if truthy (kwarg "title")
            then dict_set "name" (kwarg "title") schema else schema in
          let schema :=
            if truthy (kwarg "description")
            then dict_set "description" (kwarg "description") schema
            else schema in
          let schema :=
            if truthy (kwarg "url")
            then dict_set "url" (kwarg "url") schema else schema in
          (* Add generation timestamp *)
          let schema := dict_set "dateCreated" (VStr now) schema in
          _ <- py_len faqs ;;
          Ok (VDict schema)
        with
        | Ok schema => Returned schema
        | Raise e => Raised (Builtin e)
        end
  end.

(** *** [SchemaGenerator.validate_schema] *)

Record report : Type := mkReport {
  v_valid : bool;
  v_issues : list string;
  v_warnings : list string
}.

(** [results['issues'].append(msg); results['valid'] = False] *)

Definition v_fail (msg : string) (r : report) : report :=
  mkReport false (v_issues r ++ [msg]) (v_warnings r).

Definition v_warning (msg : string) (r : report) : report :=
  mkReport (v_valid r) (v_issues r) (v_warnings r ++ [msg]).

Definition initial_report : report := mkReport true [] [].

(** [f"Entity {i} ..."] *)

Definition entity_msg (i : nat) (rest : string) : string :=
  "Entity " ++ string_of_nat i ++ rest.

(** The body of the loop over [enumerate(main_entities)] *)

Definition check_entity (i : nat) (entity : value) : stateful report unit :=
  if negb (is_dict entity) then
    modify (v_fail (entity_msg i " is not a dictionary"))
    (* continue *)
  else
    ty <~ lift (py_get entity "@type" VNone) ;;
    when (ne_str ty "Question")
         (modify (v_fail (entity_msg i " has invalid @type"))) ;;;
    has_name <~ lift (py_in "name" entity) ;;
    when (negb has_name)
         (modify (v_fail (entity_msg i " missing 'name' field"))) ;;;
    has_answer <~ lift (py_in "acceptedAnswer" entity) ;;
    if negb has_answer then
      modify (v_fail (entity_msg i " missing 'acceptedAnswer' field"))
    else
      answer <~ lift (py_getitem entity "acceptedAnswer") ;;
      if negb (is_dict answer) then
        modify (v_fail (entity_msg i " acceptedAnswer is not a dictionary"))
      else
        aty <~ lift (py_get answer "@type" VNone) ;;
        if ne_str aty "Answer" then
          modify (v_fail (entity_msg i " acceptedAnswer has invalid @type"))
        else
          has_text <~ lift (py_in "text" answer) ;;
          when (negb has_text)
               (modify (v_fail (entity_msg i
                                  " acceptedAnswer missing 'text' field"))).

(** The body of the [try] block *)

Definition validate_schema_body (schema : value) : stateful report report :=
  (* Check required fields *)
  has_context <~ lift (py_in "@context" schema) ;;
  when (negb has_context) (modify (v_fail "Missing @context field")) ;;;
  has_type <~ lift (py_in "@type" schema) ;;
  when (negb has_type) (modify (v_fail "Missing @type field")) ;;;
  ty <~ lift (py_get schema "@type" VNone) ;;
  when (ne_str ty "FAQPage")
       (modify (v_fail "Invalid @type, should be 'FAQPage'")) ;;;
  has_main <~ lift (py_in "mainEntity" schema) ;;
  when (negb has_main) (modify (v_fail "Missing mainEntity field")) ;;;
  (* Validate mainEntity structure *)
  main_entities <~ lift (py_get schema "mainEntity" (VList [])) ;;
  when (negb (is_list main_entities))
       (modify (v_fail "mainEntity must be a list")) ;;;
  (* Validate each question entity *)
  elements <~ lift (py_iter main_entities) ;;
  st_for_each (enumerate elements)
              (fun '(i, entity) => check_entity i entity) ;;;
  (* Check for warnings *)
  n <~ lift (py_len main_entities) ;;
  when (Nat.ltb n 3)
       (modify (v_warning "Schema has fewer than 3 questions")) ;;;
  n <~ lift (py_len main_entities) ;;
  when (Nat.ltb 10 n)
       (modify (v_warning
                  "Schema has more than 10 questions (may be too long)")) ;;;
  get.

(** The [except Exception as e] block *)

Definition validate_schema_handler (e : exn) : stateful report report :=
  modify (fun r => mkReport false (v_issues r) (v_warnings r)) ;;;
  modify (fun r =>
            mkReport (v_valid r)
                     (v_issues r
                      ++ [("Validation error: " ++ str_exn e)%string])
                     (v_warnings r)) ;;;
  get.

Definition validate_schema (schema : value) : result report :=
  run (try_except (validate_schema_body schema) validate_schema_handler)
      initial_report.

(** *** [add_metadata]

    [schema] is updated in place and returned; the result stands for the
    object the caller passed in. *)

Definition add_metadata (schema : value) (metadata : list (string * value))
  : result value :=
  _ <- bind_keywords "add_metadata" ["self"; "schema"] metadata ;;
  let field key :=
    match lookup key metadata with Some x => x | None => VNone end in
  schema <-
    (if has_key "title" metadata
     then py_setitem schema "name" (field "title") else Ok schema) ;;
  schema <-
    (if has_key "description" metadata
     then py_setitem schema "description" (field "description")
     else Ok schema) ;;
  schema <-
    (if has_key "url" metadata
     then py_setitem schema "url" (field "url") else Ok schema) ;;
  schema <-
    (if has_key "author" metadata
     then py_setitem schema "author"
            (VDict [("@type", VStr "Person"); ("name", field "author")])
     else Ok schema) ;;
  schema <-
    (if has_key "publisher" metadata
     then py_setitem schema "publisher"
            (VDict [("@type", VStr "Organization");
                    ("name", field "publisher")])
     else Ok schema) ;;
  if has_key "dateModified" metadata
  then py_setitem schema "dateModified" (field "dateModified")
  else Ok schema.

End SchemaGenerator.

(** * Properties *)

(** ** The string and set primitives on samples *)

Example split_example :
  str_split "  What  are your	hours? " = ["What"; "are"; "your"; "hours?"].
Proof. reflexivity. Qed.

Example strip_example : str_strip "  a b  " = "a b".
Proof. reflexivity. Qed.

Example lower_example : str_lower "What Are YOU?" = "what are you?".
Proof. reflexivity. Qed.

Example string_of_nat_example :
  (string_of_nat 0, string_of_nat 12) = ("0", "12").
Proof. reflexivity. Qed.

Example set_example :
  py_set [VStr "a"; VBool true; VInt 1; VStr "a"; VNone]
  = Ok [VStr "a"; VBool true; VNone].
Proof. reflexivity. Qed.

(** ** Reasoning principles for the two monads *)

Lemma bind_ok {A B : Type} (c : result A) (k : A -> result B) (r : B) :
  bind c k = Ok r -> exists a, c = Ok a /\ k a = Ok r.
Proof. destruct c; simpl; intros H; [eauto | discriminate]. Qed.

Lemma for_each_inv {A S : Type} (P : S -> Prop) (l : list A)
      (body : A -> S -> result S) :
  (forall x s s', body x s = Ok s' -> P s -> P s') ->
  forall s r, for_each l body s = Ok r -> P s -> P r.
Proof.
  intros Hbody. induction l as [|x l IH]; simpl; intros s r H Hs.
  - injection H as <-. exact Hs.
  - apply bind_ok in H as (s' & Hx & H). eauto.
Qed.

Lemma map_result_length {A B : Type} (f : A -> result B) (l : list A) ys :
  map_result f l = Ok ys -> List.length ys = List.length l.
Proof.
  revert ys. induction l as [|x l IH]; simpl; intros ys H.
  - injection H as <-. reflexivity.
  - apply bind_ok in H as (y & _ & H). apply bind_ok in H as (ys' & H' & H).
    injection H as <-. simpl. f_equal. eauto.
Qed.

Ltac inv_bind H :=
  let a := fresh "a" in
  let Ha := fresh "H" a in
  apply bind_ok in H as (a & Ha & H).

(** ** Strings *)

Lemma append_inj_l (p a b : string) : (p ++ a = p ++ b)%string -> a = b.
Proof.
  induction p as [|c p IH]; simpl; intros H; [exact H|].
  injection H as H. auto.
Qed.

Lemma question_msg_inj (i : nat) (a b : string) :
  question_msg i a = question_msg i b -> a = b.
Proof.
  unfold question_msg. intros H.
  repeat apply append_inj_l in H. exact H.
Qed.

Lemma in_question_msgs (i : nat) (x : string) (l : list string) :
  In (question_msg i x) (map (question_msg i) l) <-> In x l.
Proof.
  rewrite in_map_iff. split.
  - intros (y & Hy & Hin). apply question_msg_inj in Hy. now subst.
  - intros Hin. eauto.
Qed.

(** ** The findings of the question-entity check

    On a mapping the check never raises, and what it appends is the
    concatenation of what its four blocks find. *)

Section EntityFindings.

Variable d : list (string * value).

Definition field_or_none (key : string) (m : list (string * value)) : value :=
  match lookup key m with Some x => x | None => VNone end.

Definition missing_rests : list string :=
  flat_map (fun field =>
              if has_key field d then []
              else [("Missing required field '" ++ field ++ "'")%string])
           ["@type"; "name"; "acceptedAnswer"].

Definition type_rests : list string :=
  if ne_str (field_or_none "@type" d) "Question"
  then ["@type must be 'Question'"] else [].

Definition text_findings (empty short long : string) (lo hi : nat)
           (v : value) : list string * list string :=
  match v with
  | VStr s =>
      if String.eqb (str_strip s) "" then ([empty], [])
      else if Nat.ltb (String.length s) lo then ([], [short])
      else if Nat.ltb hi (String.length s) then ([], [long])
      else ([], [])
  | _ => ([empty], [])
  end.

Definition name_findings : list string * list string :=
  match lookup "name" d with
  | Some v => text_findings "'name' must be a non-empty string"
                "Question is very short" "Question is very long" 10 200 v
  | None => ([], [])
  end.

Definition answer_findings : list string * list string :=
  match lookup "acceptedAnswer" d with
  | Some (VDict a) =>
      let ty := if ne_str (field_or_none "@type" a) "Answer"
                then ["acceptedAnswer @type must be 'Answer'"] else [] in
      match lookup "text" a with
      | Some v =>
          let f := text_findings "acceptedAnswer text must be non-empty"
                     "Answer is very short" "Answer is very long" 20 1000 v in
          (ty ++ fst f, snd f)
      | None => (ty ++ ["acceptedAnswer missing 'text' field"], [])
      end
  | Some _ => (["acceptedAnswer must be a dictionary"], [])
  | None => ([], [])
  end.

Definition add_findings (i : nat) (f : list string * list string)
           (r : entity_results) : entity_results :=
  mkEntity (e_issues r ++ map (question_msg i) (fst f))
           (e_warnings r ++ map (question_msg i) (snd f)).

Ltac findings_eq :=
  unfold add_findings, e_issue, e_warning;
  cbn [e_issues e_warnings fst snd map app];
  rewrite ?map_app, ?app_nil_r, <- ?app_assoc;
  cbn [e_issues e_warnings fst snd map app];
  try reflexivity;
  match goal with r : entity_results |- _ => destruct r; reflexivity end.

Lemma entity_dict_findings (i : nat) :
  _validate_question_entity (VDict d) i
  = Ok (mkEntity
          (map (question_msg i)
               (missing_rests ++ type_rests ++ fst name_findings
                ++ fst answer_findings))
          (map (question_msg i)
               (snd name_findings ++ snd answer_findings))).
Proof.
  unfold _validate_question_entity.
  cbn [for_each py_in bind py_get py_getitem].
  fold (field_or_none "@type" d).
  match goal with
  | |- bind (if _ then _ else Ok ?R1) ?K = _ =>
      assert (HR1 : R1 = mkEntity (map (question_msg i)
                                       (missing_rests ++ type_rests)) []);
      [ | assert (HK : forall r,
                     K r = Ok (add_findings i answer_findings r)) ]
  end.
  - unfold missing_rests, type_rests. cbn [flat_map].
    destruct (has_key "@type" d), (has_key "name" d),
      (has_key "acceptedAnswer" d),
      (ne_str (field_or_none "@type" d) "Question");
      reflexivity.
  - clear HR1. intros r. unfold answer_findings, has_key, text_findings.
    destruct (lookup "acceptedAnswer" d) as [[| | | | |a]|];
      cbn [bind negb is_dict py_get py_in py_getitem]; try findings_eq.
    fold (field_or_none "@type" a). unfold has_key.
    destruct (ne_str (field_or_none "@type" a) "Answer");
      (destruct (lookup "text" a) as [[| | |s| |]|];
       cbn [bind negb]; try findings_eq);
      (destruct (String.eqb (str_strip s) "");
       [|destruct (Nat.ltb (String.length s) 20);
         [|destruct (Nat.ltb 1000 (String.length s))]]);
      findings_eq.
  - rewrite HR1. clear HR1. unfold name_findings, has_key, text_findings.
    destruct (lookup "name" d) as [[| | |s| |]|]; cbn [bind];
      rewrite HK; try findings_eq.
    destruct (String.eqb (str_strip s) "");
      [|destruct (Nat.ltb (String.length s) 10);
        [|destruct (Nat.ltb 200 (String.length s))]];
      findings_eq.
Qed.

(** Which block a message can come from *)

Lemma in_missing_rests (x : string) :
  In x missing_rests ->
  x = "Missing required field '@type'"
  \/ x = "Missing required field 'name'"
  \/ x = "Missing required field 'acceptedAnswer'".
Proof.
  unfold missing_rests. cbn [flat_map].
  destruct (has_key "@type" d), (has_key "name" d),
    (has_key "acceptedAnswer" d); simpl; intuition auto.
Qed.

Lemma in_text_findings_issue empty short long lo hi v x :
  In x (fst (text_findings empty short long lo hi v)) -> x = empty.
Proof.
  unfold text_findings.
  destruct v as [| | |s| |]; simpl; try (intuition congruence).
  destruct (String.eqb (str_strip s) ""); [simpl; intuition congruence|].
  destruct (Nat.ltb (String.length s) lo); [simpl; tauto|].
  destruct (Nat.ltb hi (String.length s)); simpl; tauto.
Qed.

Lemma in_text_findings_warning empty short long lo hi s x :
  str_strip s <> "" ->
  In x (snd (text_findings empty short long lo hi (VStr s))) <->
  (x = short /\ String.length s < lo)
  \/ (x = long /\ lo <= String.length s /\ hi < String.length s).
Proof.
  intros Hs. unfold text_findings.
  destruct (String.eqb_spec (str_strip s) ""); [contradiction|].
  destruct (Nat.ltb_spec (String.length s) lo).
  - simpl. intuition (subst; auto; lia).
  - destruct (Nat.ltb_spec hi (String.length s)); simpl;
      intuition (subst; auto; lia).
Qed.

Lemma in_text_findings_warning_any empty short long lo hi v x :
  In x (snd (text_findings empty short long lo hi v)) ->
  x = short \/ x = long.
Proof.
  unfold text_findings.
  destruct v as [| | |s| |]; simpl; try tauto.
  destruct (String.eqb (str_strip s) ""); [simpl; tauto|].
  destruct (Nat.ltb (String.length s) lo); [simpl; intuition auto|].
  destruct (Nat.ltb hi (String.length s)); simpl; intuition auto.
Qed.

Lemma in_name_issues (x : string) :
  In x (fst name_findings) -> x = "'name' must be a non-empty string".
Proof.
  unfold name_findings. destruct (lookup "name" d); [|simpl; tauto].
  apply in_text_findings_issue.
Qed.

Lemma in_answer_issues (x : string) :
  In x (fst answer_findings) ->
  x = "acceptedAnswer must be a dictionary"
  \/ x = "acceptedAnswer @type must be 'Answer'"
  \/ x = "acceptedAnswer missing 'text' field"
  \/ x = "acceptedAnswer text must be non-empty".
Proof.
  unfold answer_findings.
  destruct (lookup "acceptedAnswer" d) as [[| | | | |a]|];
    try (simpl; intuition auto; fail).
  destruct (lookup "text" a) as [v|]; cbn [fst];
    rewrite in_app_iff; intros [H|H].
  - destruct (ne_str _ _); simpl in H; intuition auto.
  - apply in_text_findings_issue in H. auto.
  - destruct (ne_str _ _); simpl in H; intuition auto.
  - simpl in H. intuition auto.
Qed.

Lemma in_name_warnings (x : string) :
  In x (snd name_findings) ->
  x = "Question is very short" \/ x = "Question is very long".
Proof.
  unfold name_findings. destruct (lookup "name" d); [|simpl; tauto].
  apply in_text_findings_warning_any.
Qed.

Lemma in_answer_warnings (x : string) :
  In x (snd answer_findings) ->
  x = "Answer is very short" \/ x = "Answer is very long".
Proof.
  unfold answer_findings.
  destruct (lookup "acceptedAnswer" d) as [[| | | | |a]|];
    try (simpl; tauto).
  destruct (lookup "text" a) as [v|]; cbn [snd]; [|simpl; tauto].
  apply in_text_findings_warning_any.
Qed.

Lemma type_rests_spec :
  In "@type must be 'Question'" type_rests <->
  lookup "@type" d <> Some (VStr "Question").
Proof.
  unfold type_rests, field_or_none, ne_str, eq_str.
  destruct (lookup "@type" d) as [[| | |t| |]|]; simpl;
    try (intuition congruence).
  destruct (String.eqb_spec t "Question"); simpl.
  - subst. intuition congruence.
  - intuition congruence.
Qed.

End EntityFindings.

(** ** The question-entity sub-check *)

(** An entity without [@type], otherwise well formed. *)

Definition untyped_question : value :=
  VDict [("name", VStr "What services do you offer?");
         ("acceptedAnswer", answer_of "We provide comprehensive dental care.")].

(** C4, as stated, fails: an entity that lacks [@type] is given the
    type-mismatch issue on top of the missing-field issue, because
    [entity.get('@type')] is [None], which differs from ['Question']. *)
Lemma missing_type_reported_twice :
  _validate_question_entity untyped_question 0
  = Ok {| e_issues := ["Question 0: Missing required field '@type'";
                       "Question 0: @type must be 'Question'"];
          e_warnings := [] |}.
Proof. vm_compute. reflexivity. Qed.

(** C4, amended: on a mapping entity the issue "@type must be 'Question'" is
    raised exactly when the entity's [@type] is absent or is not the string
    "Question"; an entity that lacks [@type] receives both the
    missing-required-field issue for it and the type-mismatch issue. *)
Theorem entity_type_issue (d : list (string * value)) (i : nat) :
  exists r,
    _validate_question_entity (VDict d) i = Ok r
    /\ (In (question_msg i "@type must be 'Question'") (e_issues r)
        <-> lookup "@type" d <> Some (VStr "Question"))
    /\ (lookup "@type" d = None ->
        In (question_msg i "Missing required field '@type'") (e_issues r)
        /\ In (question_msg i "@type must be 'Question'") (e_issues r)).
Proof.
  eexists. split; [apply entity_dict_findings|]. cbn [e_issues].
  assert (Hiff : In "@type must be 'Question'"
                    (missing_rests d ++ type_rests d ++ fst (name_findings d)
                     ++ fst (answer_findings d))
                 <-> lookup "@type" d <> Some (VStr "Question")).
  { rewrite !in_app_iff, type_rests_spec. split; [|tauto].
    intros [H|[H|[H|H]]]; [exfalso|exact H|exfalso|exfalso].
    - apply in_missing_rests in H. intuition discriminate.
    - apply in_name_issues in H. discriminate.
    - apply in_answer_issues in H. intuition discriminate. }
  split.
  - rewrite in_question_msgs. exact Hiff.
  - intros Hnone. rewrite !in_question_msgs. split.
    + rewrite in_app_iff. left. unfold missing_rests, has_key.
      cbn [flat_map]. rewrite Hnone. simpl. auto.
    + apply Hiff. congruence.
Qed.

Lemma entity_type_issue_witness :
  exists r,
    _validate_question_entity untyped_question 3 = Ok r
    /\ In (question_msg 3 "Missing required field '@type'") (e_issues r)
    /\ In (question_msg 3 "@type must be 'Question'") (e_issues r).
Proof.
  destruct (entity_type_issue
              [("name", VStr "What services do you offer?");
               ("acceptedAnswer",
                answer_of "We provide comprehensive dental care.")] 3)
    as (r & Hr & _ & Hboth).
  exists r. split; [exact Hr|]. apply Hboth. reflexivity.
Defined.

(** C8: the length warnings use strict comparisons.  For a mapping entity
    whose [name] is a string that is not blank, "Question is very short" is
    among the warnings exactly when the name has fewer than 10 characters
    and "Question is very long" exactly when it has more than 200, so names
    of length 10 or 200 get neither; likewise an answer text that is a
    non-blank string gets "Answer is very short" exactly below 20 characters
    and "Answer is very long" exactly above 1000.  Both hold of the same
    result, so a name warning and an answer warning fire independently. *)
Theorem entity_length_warnings (d : list (string * value)) (i : nat) :
  exists r,
    _validate_question_entity (VDict d) i = Ok r
    /\ (forall s,
           lookup "name" d = Some (VStr s) -> str_strip s <> "" ->
           (In (question_msg i "Question is very short") (e_warnings r)
            <-> String.length s < 10)
           /\ (In (question_msg i "Question is very long") (e_warnings r)
               <-> 200 < String.length s))
    /\ (forall a t,
           lookup "acceptedAnswer" d = Some (VDict a) ->
           lookup "text" a = Some (VStr t) -> str_strip t <> "" ->
           (In (question_msg i "Answer is very short") (e_warnings r)
            <-> String.length t < 20)
           /\ (In (question_msg i "Answer is very long") (e_warnings r)
               <-> 1000 < String.length t)).
Proof.
  eexists. split; [apply entity_dict_findings|]. cbn [e_warnings]. split.
  - intros s Hname Hs. rewrite !in_question_msgs, !in_app_iff.
    assert (Hans : forall x, In x (snd (answer_findings d)) ->
                             x = "Answer is very short"
                             \/ x = "Answer is very long")
      by apply in_answer_warnings.
    unfold name_findings. rewrite Hname.
    rewrite !in_text_findings_warning by exact Hs.
    split; split; intros H.
    + destruct H as [[[_ H]|[H _]]|H]; [exact H|discriminate|].
      apply Hans in H. intuition discriminate.
    + left. left. split; [reflexivity|exact H].
    + destruct H as [[[H _]|[_ [_ H]]]|H]; [discriminate|exact H|].
      apply Hans in H. intuition discriminate.
    + left. right. split; [reflexivity|lia].
  - intros a t Hanswer Htext Ht. rewrite !in_question_msgs, !in_app_iff.
    assert (Hname : forall x, In x (snd (name_findings d)) ->
                              x = "Question is very short"
                              \/ x = "Question is very long")
      by apply in_name_warnings.
    unfold answer_findings. rewrite Hanswer, Htext. cbn [snd].
    rewrite !in_text_findings_warning by exact Ht.
    split; split; intros H.
    + destruct H as [H|[[_ H]|[H _]]]; [|exact H|discriminate].
      apply Hname in H. intuition discriminate.
    + right. left. split; [reflexivity|exact H].
    + destruct H as [H|[[H _]|[_ [_ H]]]]; [|discriminate|exact H].
      apply Hname in H. intuition discriminate.
    + right. right. split; [reflexivity|lia].
Qed.

(** The sample of S3: a 5-character name and a 1500-character answer. *)

Definition long_text : string :=
  string_of_list_ascii (repeat "a"%char 1500).

Definition short_and_long : list (string * value) :=
  [("@type", VStr "Question"); ("name", VStr "What?");
   ("acceptedAnswer", answer_of long_text)].

Lemma entity_length_warnings_witness :
  exists r,
    _validate_question_entity (VDict short_and_long) 0 = Ok r
    /\ In (question_msg 0 "Question is very short") (e_warnings r)
    /\ In (question_msg 0 "Answer is very long") (e_warnings r).
Proof.
  destruct (entity_length_warnings short_and_long 0) as (r & Hr & Hn & Ha).
  exists r. split; [exact Hr|]. split.
  - apply (Hn "What?"); [reflexivity|discriminate|simpl; lia].
  - apply (Ha [("@type", VStr "Answer"); ("text", VStr long_text)] long_text);
      [reflexivity|reflexivity|vm_compute; discriminate|].
    vm_compute. apply Nat.leb_le. vm_compute. reflexivity.
Defined.

Example boundary_lengths_get_no_warning :
  _validate_question_entity
    (question_of "1234567890" "12345678901234567890") 0
  = Ok {| e_issues := []; e_warnings := [] |}.
Proof. vm_compute. reflexivity. Qed.

(** ** The structural pass *)

Lemma entity_non_mapping_raises (v : value) (i : nat) :
  is_dict v = false -> exists e, _validate_question_entity v i = Raise e.
Proof.
  intros Hv. unfold _validate_question_entity.
  destruct v; try discriminate Hv;
    cbn [for_each py_in py_get bind type_name]; eauto.
Qed.

(** The loop over [enumerate(main_entity)] of the structural pass *)

Definition entity_loop (start : nat) (l : list value)
           (results : structure_results) : result structure_results :=
  for_each (enumerate_from start l)
    (fun '(i, entity) results =>
       entity_results <- _validate_question_entity entity i ;;
       Ok (s_extend results entity_results))
    results.

Lemma entity_loop_raises (l : list value) :
  existsb (fun v => negb (is_dict v)) l = true ->
  forall start results, exists e, entity_loop start l results = Raise e.
Proof.
  unfold entity_loop.
  induction l as [|x l IH]; [discriminate|].
  cbn [existsb]. intros H start results. cbn [enumerate_from for_each].
  destruct (is_dict x) eqn:Hx.
  - destruct x; try discriminate Hx.
    rewrite entity_dict_findings. cbn [bind]. apply IH. exact H.
  - destruct (entity_non_mapping_raises x start Hx) as (e & He).
    rewrite He. cbn [bind]. eauto.
Qed.

(** Whenever one element of a [mainEntity] list is not a mapping, the
    structural pass raises: the exception leaves the pass and takes the
    findings of the pass with it. *)
Lemma structure_raises_on_non_mapping (d : list (string * value))
      (l : list value) :
  lookup "mainEntity" d = Some (VList l) ->
  existsb (fun v => negb (is_dict v)) l = true ->
  exists e, _validate_structure (VDict d) = Raise e.
Proof.
  intros Hmain Hbad. unfold _validate_structure.
  cbn [for_each py_in bind py_getitem]. unfold has_key. rewrite Hmain.
  destruct (lookup "@context" d), (lookup "@type" d);
    cbn [and_then bind negb];
    (destruct l as [|x l]; [discriminate Hbad|]);
    cbn [List.length Nat.eqb]; apply (entity_loop_raises (x :: l) Hbad).
Qed.

Definition page_with_stray_entity : value :=
  faq_page [q_services; VStr "not a dictionary"].

(** C5: on a [mainEntity] element that is not a mapping the structural pass
    raises ([entity.get] on a string): no issue tagged "Question 1" is
    recorded, the exception leaves the pass, and the orchestrator reports one
    generic issue in place of all structural findings.  The sibling entry
    point [validate_with_google] guards the same situation with
    [isinstance(entity, dict)] and records an issue for that entity. *)
Theorem stray_entity_crashes_structure :
  _validate_structure page_with_stray_entity
  = Raise (AttributeError "str" "get")
  /\ validate_schema page_with_stray_entity
     = Ok {| valid := false;
             issues := ["Validation error: 'str' object has no attribute 'get'"];
             warnings := []; suggestions := []; google_validation := VNone |}
  /\ validate_with_google page_with_stray_entity
     = Ok {| g_valid := false;
             g_issues := ["Question 2 is not properly formatted"];
             g_warnings := ["Schema may not be eligible for rich results"];
             rich_results := false |}.
Proof. repeat split; vm_compute; reflexivity. Qed.

(** [valid] is cleared only together with an appended issue. *)

Definition structure_consistent (r : structure_results) : Prop :=
  s_issues r = [] -> s_valid r = true.

Lemma consistent_fail r msg : structure_consistent (s_fail r msg).
Proof.
  unfold structure_consistent. simpl. intros H.
  destruct (s_issues r); discriminate H.
Qed.

Lemma consistent_warning r msg :
  structure_consistent r -> structure_consistent (s_warning r msg).
Proof. unfold structure_consistent. simpl. auto. Qed.

Lemma consistent_extend r er :
  structure_consistent r -> structure_consistent (s_extend r er).
Proof.
  unfold structure_consistent. simpl. intros H Happ.
  apply app_eq_nil in Happ as [Hr _]. auto.
Qed.

Create HintDb consistent.

#[local] Hint Resolve consistent_fail consistent_warning consistent_extend
  : consistent.

Lemma structure_valid_consistent (schema : value) (st : structure_results) :
  _validate_structure schema = Ok st -> structure_consistent st.
Proof.
  unfold _validate_structure. intros H.
  apply bind_ok in H as (r1 & Hfields & H).
  assert (Hr1 : structure_consistent r1).
  { eapply (for_each_inv structure_consistent);
      [|exact Hfields|intros _; reflexivity].
    intros field s s' Hbody Hs.
    apply bind_ok in Hbody as (present & _ & Hbody).
    injection Hbody as <-. destruct (negb present); auto with consistent. }
  apply bind_ok in H as (has_context & _ & H).
  apply bind_ok in H as (bad_context & _ & H).
  apply bind_ok in H as (has_type & _ & H).
  apply bind_ok in H as (bad_type & _ & H).
  apply bind_ok in H as (has_main & _ & H).
  match type of H with
  | context [for_each _ _ ?r] => assert (Hr2 : structure_consistent r)
  end.
  { destruct bad_type, bad_context; auto with consistent. }
  destruct has_main.
  - apply bind_ok in H as (main_entity & _ & H).
    destruct main_entity as [| | | |l|];
      try (injection H as <-; auto with consistent).
    destruct (Nat.eqb (List.length l) 0).
    + injection H as <-. auto with consistent.
    + eapply (for_each_inv structure_consistent); [|exact H|exact Hr2].
      intros [i entity] s s' Hbody Hs.
      apply bind_ok in Hbody as (er & _ & Hbody).
      injection Hbody as <-. auto with consistent.
  - injection H as <-. exact Hr2.
Qed.

(** ** The orchestrator *)

(** C1: [validate_schema] returns a report for every input value and never
    raises.  When a pass raises, the handler returns the report as it stood,
    with [valid] cleared and the single issue "Validation error: ..."
    appended; otherwise the report built by the body is returned. *)
Theorem validate_schema_total (schema : value) :
  (exists r, validate_schema schema = Ok r)
  /\ match validate_schema_body schema initial_report with
     | (s, Raise e) =>
         validate_schema schema
         = Ok {| valid := false;
                 issues := issues s
                           ++ [("Validation error: " ++ str_exn e)%string];
                 warnings := warnings s;
                 suggestions := suggestions s;
                 google_validation := google_validation s |}
     | (_, Ok r) => validate_schema schema = Ok r
     end.
Proof.
  unfold validate_schema, run, try_except.
  destruct (validate_schema_body schema initial_report) as [s [r|e]];
    cbn; eauto.
Qed.

Example validate_empty_mapping :
  validate_schema (VDict [])
  = Ok {| valid := false;
          issues := ["Missing required field: @context";
                     "Missing required field: @type";
                     "Missing required field: mainEntity"];
          warnings :=
            ["FAQ pages should have at least 3 questions for best SEO results"];
          suggestions :=
            ["Consider adding a 'name' field for the FAQ page";
             "Consider adding a 'description' field for better SEO"];
          google_validation := VNone |}.
Proof. vm_compute. reflexivity. Qed.

Example validate_null_fields :
  validate_schema (VDict [("@context", VNone); ("@type", VNone);
                          ("mainEntity", VNone)])
  = Ok {| valid := false;
          issues := ["@type must be 'FAQPage'"; "mainEntity must be a list";
                     "Validation error: 'NoneType' object is not iterable"];
          warnings := ["@context should be 'https://schema.org'"];
          suggestions := []; google_validation := VNone |}.
Proof. vm_compute. reflexivity. Qed.

(** C2: the report of [validate_schema] has [valid] true exactly when its
    [issues] are empty; [warnings] and [suggestions] have no part in it. *)
Theorem valid_iff_no_issues (schema : value) :
  exists r,
    validate_schema schema = Ok r
    /\ valid r = negb (nonempty (issues r)).
Proof.
  unfold validate_schema, run, try_except, validate_schema_body,
    validate_schema_handler, st_bind, lift, modify, get, when, st_ret.
  destruct (_validate_structure schema) as [st|e] eqn:Hst; cbn.
  2: { eexists. split; [reflexivity|]. reflexivity. }
  destruct (_validate_content schema) as [c|e]; cbn.
  2: { eexists. split; [reflexivity|]. cbn.
       destruct (s_issues st); reflexivity. }
  destruct (_validate_seo_practices schema) as [o|e]; cbn.
  2: { eexists. split; [reflexivity|]. cbn.
       destruct (s_issues st ++ c_issues c); reflexivity. }
  destruct (nonempty (s_issues st ++ c_issues c)) eqn:Hne; cbn;
    (eexists; split; [reflexivity|]); cbn; rewrite Hne; cbn; [reflexivity|].
  apply (structure_valid_consistent _ _ Hst).
  destruct (s_issues st); [reflexivity|discriminate Hne].
Qed.

(** ** Sets of hashable values *)

Lemma py_eq_sym (a b : value) : py_eq a b = py_eq b a.
Proof.
  destruct a as [|x|n|s| |], b as [|y|m|t| |]; simpl; try reflexivity.
  - destruct x, y; reflexivity.
  - apply Z.eqb_sym.
  - apply String.eqb_sym.
Qed.

(** On strings [==] is exact, case included. *)

Lemma py_eq_strings (s t : string) : py_eq (VStr s) (VStr t) = true <-> s = t.
Proof. simpl. apply String.eqb_eq. Qed.

(** Some two elements at distinct positions are equal. *)

Definition has_equal_pair (l : list value) : Prop :=
  exists i j a b,
    i < j /\ nth_error l i = Some a /\ nth_error l j = Some b
    /\ py_eq a b = true.

Fixpoint has_dupb (l : list value) : bool :=
  match l with
  | [] => false
  | x :: l' => existsb (py_eq x) l' || has_dupb l'
  end.

Lemma has_dupb_spec (l : list value) :
  has_dupb l = true <-> has_equal_pair l.
Proof.
  unfold has_equal_pair. induction l as [|x l IH]; simpl.
  - split; [discriminate|].
    intros (i & j & a & b & _ & Hi & _). destruct i; discriminate Hi.
  - rewrite orb_true_iff, IH, existsb_exists. split.
    + intros [(y & Hin & Heq)|(i & j & a & b & Hlt & Hi & Hj & Heq)].
      * apply In_nth_error in Hin as (j & Hj).
        exists 0, (S j), x, y. repeat split; auto. lia.
      * exists (S i), (S j), a, b. repeat split; auto. lia.
    + intros (i & j & a & b & Hlt & Hi & Hj & Heq).
      destruct j as [|j]; [lia|]. simpl in Hj.
      destruct i as [|i]; simpl in Hi.
      * injection Hi as ->. left. exists b. split; [|exact Heq].
        eapply nth_error_In; eauto.
      * right. exists i, j, a, b. repeat split; auto. lia.
Qed.

Lemma set_from_length (l : list value) :
  forall acc s, set_from acc l = Ok s ->
                List.length s <= List.length acc + List.length l.
Proof.
  induction l as [|x l IH]; simpl; intros acc s H.
  - injection H as <-. lia.
  - destruct (hashable x); [|discriminate].
    apply IH in H. destruct (existsb (py_eq x) acc); [lia|].
    rewrite length_app in H. simpl in H. lia.
Qed.

Lemma set_from_full (l : list value) :
  forall acc s,
    set_from acc l = Ok s ->
    (List.length s = List.length acc + List.length l
     <-> has_dupb l = false
         /\ forallb (fun x => negb (existsb (py_eq x) acc)) l = true).
Proof.
  induction l as [|x l IH]; simpl; intros acc s H.
  - injection H as <-. split; [auto|lia].
  - destruct (hashable x); [|discriminate].
    destruct (existsb (py_eq x) acc) eqn:Hin.
    + apply set_from_length in H. simpl.
      split; [lia|]. intros [_ Hf]. discriminate Hf.
    + apply IH in H. rewrite length_app in H. simpl in H. simpl.
      rewrite orb_false_iff.
      assert (Hsplit :
                forallb (fun y => negb (existsb (py_eq y) (acc ++ [x]))) l = true
                <-> existsb (py_eq x) l = false
                    /\ forallb (fun y => negb (existsb (py_eq y) acc)) l = true).
      { clear. induction l as [|y l IHl]; simpl; [tauto|].
        rewrite !andb_true_iff, orb_false_iff, IHl, existsb_app. simpl.
        rewrite orb_false_r, negb_orb, andb_true_iff, (py_eq_sym y x).
        rewrite !negb_true_iff. tauto. }
      rewrite Hsplit in H. split.
      * intros Hlen. assert (Hl : List.length s
                                  = List.length acc + 1 + List.length l) by lia.
        apply H in Hl. tauto.
      * intros Hnodup. assert (Hl : List.length s
                                    = List.length acc + 1 + List.length l)
          by (apply H; tauto).
        lia.
Qed.

(** [len(l) != len(set(l))] holds exactly when two elements of [l] are
    equal. *)
Lemma py_set_shorter_iff (l s : list value) :
  py_set l = Ok s ->
  (negb (Nat.eqb (List.length l) (List.length s)) = true
   <-> has_equal_pair l).
Proof.
  unfold py_set. intros H. rewrite <- has_dupb_spec.
  apply set_from_full in H.
  rewrite negb_true_iff, Nat.eqb_neq.
  assert (Hall : forallb (fun x : value => negb (existsb (py_eq x) [])) l
                 = true)
    by (clear; induction l; simpl; auto).
  rewrite Hall in H. simpl in H. destruct (has_dupb l).
  - split; [reflexivity|]. intros _ Heq. symmetry in Heq.
    apply H in Heq. destruct Heq as [Hf _]. discriminate Hf.
  - split; [|discriminate]. intros Hneq. exfalso. apply Hneq.
    symmetry. apply H. auto.
Qed.

(** A set of strings has as many elements as the strings are distinct. *)

Lemma existsb_py_eq_strings (x : string) (acc : list string) :
  existsb (py_eq (VStr x)) (map VStr acc) = true <-> In x acc.
Proof.
  rewrite existsb_exists. split.
  - intros (v & Hin & Heq). apply in_map_iff in Hin as (y & <- & Hy).
    apply py_eq_strings in Heq. now subst.
  - intros Hin. exists (VStr x). split; [now apply in_map|].
    now apply py_eq_strings.
Qed.

Lemma set_from_strings (l : list string) :
  forall acc s,
    NoDup acc ->
    set_from (map VStr acc) (map VStr l) = Ok s ->
    exists ds, s = map VStr ds /\ NoDup ds
               /\ forall x, In x ds <-> In x acc \/ In x l.
Proof.
  induction l as [|x l IH]; simpl; intros acc s Hnd H.
  - injection H as <-. exists acc. repeat split; auto; tauto.
  - destruct (existsb (py_eq (VStr x)) (map VStr acc)) eqn:Hin.
    + apply existsb_py_eq_strings in Hin.
      apply IH in H as (ds & -> & Hds & Hmem); [|exact Hnd].
      exists ds. repeat split; auto.
      * intros Hx. apply Hmem in Hx. tauto.
      * intros [Hx|[<-|Hx]]; apply Hmem; auto.
    + assert (Hnot : ~ In x acc).
      { intros Hx. apply existsb_py_eq_strings in Hx. congruence. }
      change [VStr x] with (map VStr [x]) in H. rewrite <- map_app in H.
      apply IH in H as (ds & -> & Hds & Hmem).
      * exists ds. repeat split; auto.
        -- intros Hx. apply Hmem in Hx. rewrite in_app_iff in Hx.
           simpl in Hx. tauto.
        -- intros Hx. apply Hmem. rewrite in_app_iff. simpl. tauto.
      * apply NoDup_app; [exact Hnd|repeat constructor; auto|].
        intros y Hy [<-|[]]. contradiction.
Qed.

Lemma py_set_strings_length (l : list string) (s : list value) :
  py_set (map VStr l) = Ok s ->
  List.length s = List.length (nodup string_dec l).
Proof.
  intros H. apply (set_from_strings l [] s (NoDup_nil _)) in H
    as (ds & -> & Hds & Hmem).
  rewrite length_map. apply Nat.le_antisymm; apply NoDup_incl_length.
  - exact Hds.
  - intros x Hx. apply nodup_In. apply Hmem in Hx.
    destruct Hx as [[]|Hx]. exact Hx.
  - apply NoDup_nodup.
  - intros x Hx. apply nodup_In in Hx. apply Hmem. right. exact Hx.
Qed.

(** ** The content-quality pass *)

(** What the comprehension over [main_entity] collects for one mapping *)

Definition name_or_empty (entity : value) : value :=
  match entity with
  | VDict d => match lookup "name" d with Some x => x | None => VStr "" end
  | _ => VStr ""
  end.

Lemma question_names_spec (v : value) (elements : list value) :
  py_iter v = Ok elements ->
  question_names v = Ok (map name_or_empty (filter is_dict elements)).
Proof.
  intros Hiter. unfold question_names. rewrite Hiter. cbn [bind].
  clear Hiter. induction elements as [|x l IH]; [reflexivity|].
  destruct x; cbn [filter is_dict]; try exact IH.
  cbn [map_result py_get bind map name_or_empty]. rewrite IH. reflexivity.
Qed.

Lemma length_list_ascii (s : string) :
  List.length (list_ascii_of_string s) = String.length s.
Proof. induction s; simpl; congruence. Qed.

Lemma py_len_iter (v : value) (elements : list value) (n : nat) :
  py_iter v = Ok elements -> py_len v = Ok n -> n = List.length elements.
Proof.
  destruct v; simpl; intros Hi Hn; try discriminate;
    injection Hi as <-; injection Hn as <-;
    rewrite ?length_map, ?length_list_ascii; reflexivity.
Qed.

Lemma map_result_split (questions : list value) (tokens : list (list string)) :
  map_result py_split questions = Ok tokens ->
  exists names, questions = map VStr names /\ tokens = map str_split names.
Proof.
  revert tokens. induction questions as [|q l IH]; simpl; intros tokens H.
  - injection H as <-. exists []. auto.
  - apply bind_ok in H as (ws & Hq & H).
    apply bind_ok in H as (rest & Hrest & H). injection H as <-.
    destruct q; try discriminate Hq. injection Hq as <-.
    destruct (IH _ Hrest) as (names & -> & ->).
    exists (s :: names). auto.
Qed.

(** The starters: the first token of every question that has one *)

Definition starters_of (names : list string) : list string :=
  map (hd "") (filter nonempty (map str_split names)).

Definition duplicate_warning : string := "Duplicate questions found".

Definition vary_suggestion : string :=
  "Consider varying question starters for better diversity".

Lemma question_msg_not_vary (i : nat) (rest : string) :
  question_msg i rest <> vary_suggestion.
Proof. discriminate. Qed.

Lemma content_inversion (schema : value) (r : content_results) :
  _validate_content schema = Ok r ->
  exists main_entity elements questions distinct,
    py_get schema "mainEntity" (VList []) = Ok main_entity
    /\ py_iter main_entity = Ok elements
    /\ question_names main_entity = Ok questions
    /\ py_set questions = Ok distinct
    /\ c_warnings r
       = (if negb (Nat.eqb (List.length questions) (List.length distinct))
          then [duplicate_warning] else [])
    /\ (if Nat.leb 3 (List.length elements)
        then exists names ds,
            questions = map VStr names
            /\ py_set (map VStr (starters_of names)) = Ok ds
            /\ (In vary_suggestion (c_suggestions r)
                <-> below_fraction (List.length ds) 7 10
                                   (List.length (starters_of names)) = true)
        else ~ In vary_suggestion (c_suggestions r)).
Proof.
  unfold _validate_content. intros H.
  apply bind_ok in H as (main_entity & Hmain & H).
  apply bind_ok in H as (questions & Hq & H).
  apply bind_ok in H as (distinct & Hset & H).
  apply bind_ok in H as (n & Hlen & H).
  apply bind_ok in H as (r1 & Hdiv & H).
  apply bind_ok in H as (elements & Hiter & H).
  exists main_entity, elements, questions, distinct.
  repeat (split; [assumption|]).
  assert (Hloop : c_warnings r = c_warnings r1
                  /\ (In vary_suggestion (c_suggestions r)
                      <-> In vary_suggestion (c_suggestions r1))).
  { eapply (for_each_inv
              (fun s => c_warnings s = c_warnings r1
                        /\ (In vary_suggestion (c_suggestions s)
                            <-> In vary_suggestion (c_suggestions r1))));
      [|exact H|split; [reflexivity|tauto]].
    clear. intros [i entity] s s' Hbody [Hw Hs].
    assert (Hstep : s' = s
                    \/ s' = c_suggestion s
                              (question_msg (i + 1)
                                 "Consider expanding the answer for better value")).
    { apply bind_ok in Hbody as (has_answer & _ & Hbody).
      destruct has_answer; [|injection Hbody as <-; auto].
      apply bind_ok in Hbody as (answer & _ & Hbody).
      apply bind_ok in Hbody as (has_text & _ & Hbody).
      destruct has_text; [|injection Hbody as <-; auto].
      apply bind_ok in Hbody as (text & _ & Hbody).
      apply bind_ok in Hbody as (size & _ & Hbody).
      injection Hbody as <-. destruct (Nat.ltb size 50); auto. }
    destruct Hstep as [->| ->]; [auto|]. cbn [c_suggestion c_warnings c_suggestions].
    split; [exact Hw|]. rewrite in_app_iff, Hs. split; [|tauto].
    intros [Hin|[Heq|[]]]; [exact Hin|].
    exfalso. exact (question_msg_not_vary _ _ Heq). }
  destruct Hloop as [Hw Hs].
  rewrite (py_len_iter _ _ _ Hiter Hlen) in Hdiv.
  set (r0 := if negb (Nat.eqb (List.length questions) (List.length distinct))
             then c_warning (mkContent [] [] []) "Duplicate questions found"
             else mkContent [] [] []) in *.
  assert (Hr0w : c_warnings r0
                 = if negb (Nat.eqb (List.length questions)
                                    (List.length distinct))
                   then [duplicate_warning] else [])
    by (unfold r0; destruct (negb _); reflexivity).
  assert (Hr0s : c_suggestions r0 = [])
    by (unfold r0; destruct (negb _); reflexivity).
  destruct (Nat.leb 3 (List.length elements)).
  - apply bind_ok in Hdiv as (elements' & _ & Hdiv).
    apply bind_ok in Hdiv as (question_words & _ & Hdiv).
    apply bind_ok in Hdiv as (tokens & Htokens & Hdiv).
    apply bind_ok in Hdiv as (ds & Hds & Hdiv).
    apply map_result_split in Htokens as (names & -> & ->).
    fold (starters_of names) in Hds, Hdiv. injection Hdiv as <-.
    split.
    + rewrite Hw. destruct (below_fraction _ _ _ _); exact Hr0w.
    + exists names, ds. split; [reflexivity|]. split; [exact Hds|].
      rewrite Hs. destruct (below_fraction _ _ _ _);
        cbn [c_suggestion c_suggestions]; rewrite Hr0s; simpl.
      * split; auto.
      * split; [tauto|discriminate].
  - injection Hdiv as <-. split; [rewrite Hw; exact Hr0w|].
    rewrite Hs, Hr0s. simpl. tauto.
Qed.

(** *** Duplicate questions *)

Definition hours_in_two_cases : list value :=
  [question_of "What are your hours?"
     "We are open Monday through Friday from 8 AM to 5 PM, all year.";
   question_of "what are your hours?"
     "We are open Monday through Friday from 8 AM to 5 PM, all year."].

(** C3, as stated, fails: two questions that are equal up to letter case are
    not reported, because the source compares [len(questions)] with
    [len(set(questions))], and set membership is exact string equality. *)
Lemma duplicate_check_is_case_sensitive :
  question_names (VList hours_in_two_cases)
  = Ok [VStr "What are your hours?"; VStr "what are your hours?"]
  /\ str_lower "What are your hours?" = str_lower "what are your hours?"
  /\ exists r,
      _validate_content (faq_page hours_in_two_cases) = Ok r
      /\ ~ In "Duplicate questions found" (c_warnings r).
Proof.
  split; [reflexivity|]. split; [reflexivity|].
  eexists. split; [vm_compute; reflexivity|]. simpl. tauto.
Qed.

(** C3, amended: whenever the content pass returns, the warning "Duplicate
    questions found" is emitted if and only if two of the collected names
    (an absent name collected as the empty string) at distinct positions are
    equal under Python's [==], which on strings is exact, case-sensitive
    equality; it is then the only warning of the pass, emitted once however
    many pairs are equal. *)
Theorem duplicate_warning_iff (schema : value) (r : content_results) :
  _validate_content schema = Ok r ->
  exists main_entity questions,
    py_get schema "mainEntity" (VList []) = Ok main_entity
    /\ question_names main_entity = Ok questions
    /\ (has_equal_pair questions ->
        c_warnings r = ["Duplicate questions found"])
    /\ (~ has_equal_pair questions -> c_warnings r = []).
Proof.
  intros H.
  apply content_inversion in H
    as (main_entity & elements & questions & distinct
        & Hmain & _ & Hq & Hset & Hw & _).
  exists main_entity, questions. split; [exact Hmain|]. split; [exact Hq|].
  apply py_set_shorter_iff in Hset. rewrite Hw.
  destruct (negb (Nat.eqb (List.length questions) (List.length distinct))).
  - split; [reflexivity|]. intros Hno. exfalso. apply Hno, Hset. reflexivity.
  - split; [|reflexivity]. intros Hpair. apply Hset in Hpair. discriminate.
Qed.

Definition hours_three_times : list value :=
  [question_of "What are your hours?" "From 8 AM to 5 PM.";
   question_of "What are your hours?" "From 8 AM to 5 PM.";
   question_of "What are your hours?" "From 8 AM to 5 PM."].

Lemma duplicate_warning_iff_witness :
  exists r,
    _validate_content (faq_page hours_three_times) = Ok r
    /\ c_warnings r = ["Duplicate questions found"].
Proof.
  assert (Hrun : _validate_content (faq_page hours_three_times)
                 = Ok {| c_issues := [];
                         c_warnings := ["Duplicate questions found"];
                         c_suggestions :=
                           ["Consider varying question starters for better diversity";
                            "Question 1: Consider expanding the answer for better value";
                            "Question 2: Consider expanding the answer for better value";
                            "Question 3: Consider expanding the answer for better value"] |})
    by (vm_compute; reflexivity).
  eexists. split; [exact Hrun|].
  destruct (duplicate_warning_iff _ _ Hrun)
    as (main_entity & questions & Hmain & Hq & Hdup & _).
  apply Hdup.
  injection Hmain as <-. injection Hq as <-.
  exists 0, 1, (VStr "What are your hours?"), (VStr "What are your hours?").
  repeat split. lia.
Defined.

(** *** Question starters *)

Definition has_question_text (entity : value) : bool :=
  match entity with
  | VDict d =>
      match lookup "name" d with
      | Some (VStr s) => negb (String.eqb (str_strip s) "")
      | _ => false
      end
  | _ => false
  end.

Definition two_questions_and_a_stub : list value :=
  [question_of "What is covered by the plan?"
     "The plan covers routine care, emergencies and two cleanings a year.";
   question_of "What is excluded from the plan?"
     "The plan excludes cosmetic procedures and orthodontic treatment.";
   VDict [("@type", VStr "Question")]].

(** C6, as stated, fails: the diversity check is guarded by
    [len(main_entity) >= 3], the number of elements, not by the number of
    entities that have question text.  With two such entities and a third
    element without a name the check runs and the suggestion is made. *)
Lemma starter_check_counts_all_elements :
  List.length (filter has_question_text two_questions_and_a_stub) = 2
  /\ exists r,
      _validate_content (faq_page two_questions_and_a_stub) = Ok r
      /\ In "Consider varying question starters for better diversity"
            (c_suggestions r).
Proof.
  split; [reflexivity|].
  eexists. split; [vm_compute; reflexivity|]. simpl. auto.
Qed.

(** C6, amended: whenever the content pass returns, the diversity check runs
    exactly when [mainEntity] has at least 3 elements, whether or not they
    carry question text.  It then splits each collected question on
    whitespace, takes the first token in its authored case of every question
    that has a token, and suggests varying the starters if and only if the
    number of distinct starters is strictly below 70% of the number of
    starters. *)
Theorem starter_diversity (schema : value) (r : content_results) :
  _validate_content schema = Ok r ->
  exists main_entity elements questions,
    py_get schema "mainEntity" (VList []) = Ok main_entity
    /\ py_iter main_entity = Ok elements
    /\ question_names main_entity = Ok questions
    /\ (List.length elements < 3 ->
        ~ In "Consider varying question starters for better diversity"
             (c_suggestions r))
    /\ (3 <= List.length elements ->
        exists names,
          questions = map VStr names
          /\ (In "Consider varying question starters for better diversity"
                 (c_suggestions r)
              <-> 10 * List.length (nodup string_dec (starters_of names))
                  < 7 * List.length (starters_of names))).
Proof.
  intros H.
  apply content_inversion in H
    as (main_entity & elements & questions & distinct
        & Hmain & Hiter & Hq & _ & _ & Hdiv).
  exists main_entity, elements, questions.
  repeat (split; [assumption|]).
  destruct (Nat.leb_spec 3 (List.length elements)) as [Hge|Hlt].
  - split; [lia|]. intros _.
    destruct Hdiv as (names & ds & -> & Hds & Hiff).
    exists names. split; [reflexivity|].
    apply py_set_strings_length in Hds. rewrite <- Hds.
    fold vary_suggestion. rewrite Hiff. unfold below_fraction.
    apply Nat.ltb_lt.
  - split; [intros _; exact Hdiv|lia].
Qed.

Lemma starter_diversity_witness :
  exists r,
    _validate_content valid_schema = Ok r
    /\ In "Consider varying question starters for better diversity"
          (c_suggestions r).
Proof.
  assert (Hrun : _validate_content valid_schema
                 = Ok {| c_issues := []; c_warnings := [];
                         c_suggestions :=
                           ["Consider varying question starters for better diversity"] |})
    by (vm_compute; reflexivity).
  eexists. split; [exact Hrun|].
  destruct (starter_diversity _ _ Hrun)
    as (main_entity & elements & questions & Hmain & Hiter & Hq & _ & Hrun3).
  injection Hmain as <-. injection Hiter as <-. injection Hq as <-.
  destruct Hrun3 as (names & Hnames & Hiff); [simpl; lia|].
  apply Hiff.
  assert (Hn : names = ["What services do you offer?";
                        "How do I schedule an appointment?";
                        "What are your office hours?"]).
  { destruct names as [|a [|b [|c [|]]]]; try discriminate Hnames.
    injection Hnames as <- <- <-. reflexivity. }
  rewrite Hn. vm_compute. lia.
Defined.

(** *** Entities without a name *)


(** Shapes on which the content pass cannot raise: a name, where a mapping
    has one, is a string, and so is the text of an answer mapping. *)

Definition string_or_absent (v : option value) : bool :=
  match v with
  | Some (VStr _) | None => true
  | Some _ => false
  end.

Definition well_typed_entity (entity : value) : bool :=
  match entity with
  | VDict d =>
      string_or_absent (lookup "name" d)
      && match lookup "acceptedAnswer" d with
         | Some (VDict a) => string_or_absent (lookup "text" a)
         | _ => true
         end
  | _ => true
  end.

Lemma set_from_hashable (l : list value) :
  forallb hashable l = true -> forall acc, exists s, set_from acc l = Ok s.
Proof.
  induction l as [|x l IH]; simpl; intros H acc; [eauto|].
  apply andb_true_iff in H as [Hx Hl]. rewrite Hx. apply IH, Hl.
Qed.

Lemma forallb_hashable_strings (names : list string) :
  forallb hashable (map VStr names) = true.
Proof. induction names; simpl; auto. Qed.

Lemma well_typed_names (l : list value) :
  forallb well_typed_entity l = true ->
  exists names, map name_or_empty (filter is_dict l) = map VStr names.
Proof.
  induction l as [|x l IH]; simpl; intros H; [exists []; reflexivity|].
  apply andb_true_iff in H as [Hx Hl].
  destruct (IH Hl) as (names & Hnames).
  destruct x as [| | | | |d]; simpl; eauto.
  rewrite Hnames. simpl in Hx. apply andb_true_iff in Hx as [Hx _].
  destruct (lookup "name" d) as [[| | |s| |]|]; try discriminate Hx.
  - exists (s :: names). reflexivity.
  - exists (EmptyString :: names). reflexivity.
Qed.

Lemma map_result_split_strings (names : list string) :
  map_result py_split (map VStr names) = Ok (map str_split names).
Proof.
  induction names as [|s names IH]; simpl; [reflexivity|].
  rewrite IH. reflexivity.
Qed.

Lemma lowering_loop_returns (l : list value) :
  forallb well_typed_entity l = true ->
  forall question_words,
  exists ws,
    for_each l
      (fun entity question_words =>
         has_name <- and_then (is_dict entity) (py_in "name" entity) ;;
         if has_name then
           name <- py_getitem entity "name" ;;
           lowered <- py_lower name ;;
           Ok (question_words ++ str_split lowered)
         else Ok question_words)
      question_words
    = Ok ws.
Proof.
  induction l as [|x l IH]; simpl; intros H question_words; [eauto|].
  apply andb_true_iff in H as [Hx Hl].
  destruct x as [| | | | |d]; simpl; try (apply IH; exact Hl).
  simpl in Hx. apply andb_true_iff in Hx as [Hx _]. unfold has_key.
  destruct (lookup "name" d) as [[| | |s| |]|]; try discriminate Hx;
    simpl; apply IH; exact Hl.
Qed.

Lemma answer_loop_returns (l : list value) :
  forallb well_typed_entity l = true ->
  forall start results,
  exists r,
    for_each (enumerate_from start l)
      (fun '(i, entity) results =>
         has_answer <-
           and_then (is_dict entity) (py_in "acceptedAnswer" entity) ;;
         if has_answer then
           answer <- py_getitem entity "acceptedAnswer" ;;
           has_text <- and_then (is_dict answer) (py_in "text" answer) ;;
           if has_text then
             text <- py_getitem answer "text" ;;
             size <- py_len text ;;
             Ok (if Nat.ltb size 50
                 then c_suggestion results
                        (question_msg (i + 1)
                           "Consider expanding the answer for better value")
                 else results)
           else Ok results
         else Ok results)
      results
    = Ok r.
Proof.
  induction l as [|x l IH]; simpl; intros H start results; [eauto|].
  apply andb_true_iff in H as [Hx Hl].
  destruct x as [| | | | |d]; simpl; try (apply IH; exact Hl).
  simpl in Hx. apply andb_true_iff in Hx as [_ Hx]. unfold has_key.
  destruct (lookup "acceptedAnswer" d) as [[| | | | |a]|]; simpl;
    try (apply IH; exact Hl).
  unfold has_key.
  destruct (lookup "text" a) as [[| | |s| |]|]; try discriminate Hx;
    simpl; apply IH; exact Hl.
Qed.

(** On a list of well-typed entities the content pass returns. *)
Lemma content_returns (d : list (string * value)) (l : list value) :
  lookup "mainEntity" d = Some (VList l) ->
  forallb well_typed_entity l = true ->
  exists r, _validate_content (VDict d) = Ok r.
Proof.
  intros Hmain Hl. unfold _validate_content.
  cbn [py_get bind]. rewrite Hmain.
  rewrite (question_names_spec (VList l) l eq_refl). cbn [bind].
  destruct (well_typed_names l Hl) as (names & ->).
  destruct (set_from_hashable _ (forallb_hashable_strings names) [])
    as (distinct & Hset).
  unfold py_set at 1. rewrite Hset. cbn [bind py_len py_iter].
  match goal with
  | |- exists r, bind ?c _ = _ => assert (Hdiv : exists r1, c = Ok r1)
  end.
  { destruct (Nat.leb 3 (List.length l)); [|eauto].
    cbn [bind].
    destruct (lowering_loop_returns l Hl []) as (ws & ->). cbn [bind].
    rewrite map_result_split_strings. cbn [bind].
    destruct (set_from_hashable _
                (forallb_hashable_strings
                   (map (hd "") (filter nonempty (map str_split names)))) [])
      as (ds & Hds).
    unfold py_set. rewrite Hds. cbn [bind]. eauto. }
  destruct Hdiv as (r1 & ->). cbn [bind].
  apply (answer_loop_returns l Hl 0).
Qed.







(** ** A document without [mainEntity] *)

Lemma seo_without_main_entity (d : list (string * value)) :
  lookup "mainEntity" d = None ->
  exists r,
    _validate_seo_practices (VDict d) = Ok r
    /\ o_warnings r
       = ["FAQ pages should have at least 3 questions for best SEO results"].
Proof.
  intros Hmain. unfold _validate_seo_practices.
  cbn [py_in py_get bind]. rewrite Hmain.
  cbn [py_len List.length Nat.ltb Nat.leb bind].
  rewrite (question_names_spec (VList []) [] eq_refl).
  cbn [bind map filter nonempty].
  eexists. split; [reflexivity|].
  destruct (negb (has_key "name" d)), (negb (has_key "description" d));
    reflexivity.
Qed.

Lemma content_without_main_entity (d : list (string * value)) :
  lookup "mainEntity" d = None ->
  _validate_content (VDict d) = Ok (mkContent [] [] []).
Proof.
  intros Hmain. unfold _validate_content.
  cbn [py_get bind]. rewrite Hmain. reflexivity.
Qed.

Lemma structure_without_main_entity (d : list (string * value)) :
  lookup "mainEntity" d = None ->
  exists st,
    _validate_structure (VDict d) = Ok st
    /\ In "Missing required field: mainEntity" (s_issues st).
Proof.
  intros Hmain. unfold _validate_structure.
  cbn [for_each py_in bind py_getitem]. unfold has_key. rewrite Hmain.
  destruct (lookup "@context" d) as [c|], (lookup "@type" d) as [t|];
    cbn [and_then bind negb];
    (eexists; split; [reflexivity|]);
    repeat match goal with
           | |- context [if ?b then _ else _] => destruct b
           end;
    cbn [s_fail s_warning s_issues app]; auto 8 using in_eq, in_cons.
Qed.

(** C10: when [mainEntity] is absent, the SEO pass takes the entity list to
    be empty and emits exactly the warning "FAQ pages should have at least 3
    questions for best SEO results", while the structural pass reports
    "Missing required field: mainEntity"; both reach the report of
    [validate_schema]. *)
Theorem absent_main_entity (d : list (string * value)) :
  lookup "mainEntity" d = None ->
  (exists seo,
      _validate_seo_practices (VDict d) = Ok seo
      /\ o_warnings seo
         = ["FAQ pages should have at least 3 questions for best SEO results"])
  /\ (exists st,
         _validate_structure (VDict d) = Ok st
         /\ In "Missing required field: mainEntity" (s_issues st))
  /\ (exists r,
         validate_schema (VDict d) = Ok r
         /\ In "Missing required field: mainEntity" (issues r)
         /\ In "FAQ pages should have at least 3 questions for best SEO results"
               (warnings r)).
Proof.
  intros Hmain.
  destruct (seo_without_main_entity d Hmain) as (seo & Hseo & Hwarn).
  destruct (structure_without_main_entity d Hmain) as (st & Hst & Hissue).
  split; [eauto|]. split; [eauto|].
  unfold validate_schema, run, try_except, validate_schema_body,
    st_bind, lift, modify, get, when, st_ret.
  rewrite Hst, (content_without_main_entity d Hmain), Hseo. cbn.
  rewrite !app_nil_r.
  destruct (nonempty (s_issues st)); cbn;
    (eexists; split; [reflexivity|]); cbn; rewrite ?app_nil_r;
    (split; [exact Hissue|]); rewrite Hwarn, in_app_iff; simpl; auto.
Qed.

Lemma absent_main_entity_witness :
  exists r,
    validate_schema (VDict [("@type", VStr "FAQPage")]) = Ok r
    /\ In "Missing required field: mainEntity" (issues r)
    /\ In "FAQ pages should have at least 3 questions for best SEO results"
          (warnings r).
Proof.
  destruct (absent_main_entity [("@type", VStr "FAQPage")]) as (_ & _ & H).
  - reflexivity.
  - exact H.
Defined.

(** ** The platform-eligibility check *)

Section GoogleLoop.

(** A computation that leaves [warnings] and [rich_results] alone,
    whether it returns or raises *)

Definition keeps_eligibility {A : Type} (c : stateful google_results A)
  : Prop :=
  forall s s' res,
    c s = (s', res) ->
    g_warnings s' = g_warnings s /\ rich_results s' = rich_results s.

Lemma keeps_lift {A : Type} (c : result A) : keeps_eligibility (lift c).
Proof. intros s s' res H. injection H as <- _. auto. Qed.

Lemma keeps_ret {A : Type} (a : A) : keeps_eligibility (st_ret a).
Proof. intros s s' res H. injection H as <- _. auto. Qed.

Lemma keeps_fail (msg : string) : keeps_eligibility (modify (g_fail msg)).
Proof. intros s s' res H. injection H as <- _. auto. Qed.

Lemma keeps_when (b : bool) (c : stateful google_results unit) :
  keeps_eligibility c -> keeps_eligibility (when b c).
Proof. destruct b; simpl; auto using keeps_ret. Qed.

Lemma keeps_bind {A B : Type} (c : stateful google_results A)
      (k : A -> stateful google_results B) :
  keeps_eligibility c -> (forall a, keeps_eligibility (k a)) ->
  keeps_eligibility (st_bind c k).
Proof.
  intros Hc Hk s s' res H. unfold st_bind in H.
  destruct (c s) as [s1 [a|e]] eqn:Hcs.
  - destruct (Hc _ _ _ Hcs) as [Hw Hr].
    destruct (Hk a _ _ _ H) as [Hw' Hr']. split; congruence.
  - injection H as <- _. eauto.
Qed.

Lemma keeps_for_each {A : Type} (l : list A)
      (body : A -> stateful google_results unit) :
  (forall x, keeps_eligibility (body x)) ->
  keeps_eligibility (st_for_each l body).
Proof.
  intros Hbody. induction l as [|x l IH]; simpl.
  - apply keeps_ret.
  - apply keeps_bind; auto.
Qed.

Lemma keeps_check_entity (i : nat) (entity : value) :
  keeps_eligibility (google_check_entity i entity).
Proof.
  unfold google_check_entity.
  destruct (negb (is_dict entity)); [apply keeps_fail|].
  repeat first
         [ apply keeps_bind; [|intros ?]
         | apply keeps_lift
         | apply keeps_when
         | apply keeps_fail ].
Qed.

End GoogleLoop.

(** An entity that meets every requirement of the loop *)

Definition google_ready (entity : value) : bool :=
  match entity with
  | VDict d =>
      eq_str (field_or_none "@type" d) "Question"
      && truthy (field_or_none "name" d)
      && match lookup "acceptedAnswer" d with
         | Some (VDict a) =>
             eq_str (field_or_none "@type" a) "Answer"
             && truthy (field_or_none "text" a)
         | _ => false
         end
  | _ => false
  end.

Lemma google_ready_check (i : nat) (entity : value) (s : google_results) :
  google_ready entity = true -> google_check_entity i entity s = (s, Ok tt).
Proof.
  destruct entity as [| | | | |d]; try discriminate. simpl.
  intros H. apply andb_true_iff in H as [H Hanswer].
  apply andb_true_iff in H as [Hty Hname].
  unfold google_check_entity, st_bind, lift, when, ne_str.
  cbn [is_dict negb py_get]. fold (field_or_none "@type" d).
  fold (field_or_none "name" d). rewrite Hty, Hname. cbn [negb st_ret].
  destruct (lookup "acceptedAnswer" d) as [[| | | | |a]|];
    try discriminate Hanswer.
  apply andb_true_iff in Hanswer as [Haty Htext].
  cbn [is_dict negb or_else py_get bind].
  fold (field_or_none "@type" a). fold (field_or_none "text" a).
  rewrite Haty, Htext. reflexivity.
Qed.

(** C7, as stated, fails: on the early [return results] for a document that
    is not an FAQPage no eligibility warning is appended, and [rich_results]
    is left at its initial [True] although [valid] is false. *)
Lemma short_circuit_skips_eligibility :
  exists r,
    validate_with_google (VDict []) = Ok r
    /\ g_valid r = false
    /\ rich_results r <> (g_valid r && Nat.leb 3 0)
    /\ List.length (g_warnings r) <> 1.
Proof.
  eexists. split; [vm_compute; reflexivity|]. simpl.
  repeat split; discriminate.
Qed.

(** C7, amended: when the document is an FAQPage whose [mainEntity] has at
    least one element and the checks run without an internal error,
    [validate_with_google] returns [rich_results] equal to
    [valid and entity count >= 3] and its only warning is the one
    informational message that states eligibility either way; on the two
    short-circuit returns (wrong page type, no question) no warning is
    appended.  In particular a document with two entities that meet every
    requirement yields [valid = true], [rich_results = false] and the
    warning "Schema may not be eligible for rich results". *)
Theorem google_eligibility (d : list (string * value)) :
  (forall main_entity n s r,
      lookup "@type" d = Some (VStr "FAQPage") ->
      py_get (VDict d) "mainEntity" (VList []) = Ok main_entity ->
      py_len main_entity = Ok n -> 1 <= n ->
      validate_with_google_body (VDict d) initial_google = (s, Ok r) ->
      validate_with_google (VDict d) = Ok r
      /\ rich_results r = g_valid r && Nat.leb 3 n
      /\ g_warnings r
         = [if rich_results r
            then "Schema is eligible for rich results"
            else "Schema may not be eligible for rich results"])
  /\ (forall main_entity,
         lookup "@type" d <> Some (VStr "FAQPage")
         \/ (py_get (VDict d) "mainEntity" (VList []) = Ok main_entity
             /\ py_len main_entity = Ok 0) ->
         exists r,
           validate_with_google (VDict d) = Ok r
           /\ g_valid r = false /\ g_warnings r = [])
  /\ (forall e1 e2,
         lookup "@type" d = Some (VStr "FAQPage") ->
         lookup "mainEntity" d = Some (VList [e1; e2]) ->
         google_ready e1 = true -> google_ready e2 = true ->
         validate_with_google (VDict d)
         = Ok {| g_valid := true; g_issues := [];
                 g_warnings := ["Schema may not be eligible for rich results"];
                 rich_results := false |}).
Proof.
  split; [|split].
  - intros main_entity n s r Hty Hmain Hlen Hn Hbody.
    split; [unfold validate_with_google, run, try_except;
            rewrite Hbody; reflexivity|].
    revert Hbody.
    unfold validate_with_google_body, st_bind, lift, ne_str.
    cbn [py_get]. rewrite Hty. cbn [eq_str String.eqb Ascii.eqb Bool.eqb negb].
    cbn [py_get] in Hmain. injection Hmain as Hmain. rewrite Hmain, Hlen.
    destruct (Nat.ltb_spec n 1) as [Hlt|_]; [lia|].
    destruct (py_iter main_entity) as [elements|e]; [|discriminate].
    destruct (st_for_each (enumerate elements)
                (fun '(i, entity) => google_check_entity i entity)
                initial_google) as [s1 [[]|e]] eqn:Hloop; [|discriminate].
    apply keeps_for_each in Hloop as [Hw Hr];
      [|intros [i entity]; apply keeps_check_entity].
    cbn [g_warnings rich_results initial_google] in Hw, Hr.
    unfold get, modify. cbn [and_then bind].
    destruct (g_valid s1) eqn:Hvalid; cbn [and_then bind];
      [destruct (Nat.leb 3 n)|]; intros H; injection H as _ <-;
      cbn [g_eligibility rich_results g_valid g_warnings];
      rewrite Hw, Hvalid; auto.
  - intros main_entity Hshort.
    unfold validate_with_google, run, try_except, validate_with_google_body,
      st_bind, lift.
    cbn [py_get].
    destruct (ne_str match lookup "@type" d with
                     | Some x => x
                     | None => VNone
                     end "FAQPage") eqn:Hne.
    + eexists. split; [reflexivity|]. auto.
    + destruct Hshort as [Hty|[Hmain Hlen]].
      * exfalso. apply Hty. unfold ne_str, eq_str in Hne.
        destruct (lookup "@type" d) as [[| | |t| |]|]; try discriminate Hne.
        apply negb_false_iff, String.eqb_eq in Hne. now subst.
      * cbn [py_get] in Hmain. injection Hmain as Hmain.
        rewrite Hmain, Hlen. eexists. split; [reflexivity|]. auto.
  - intros e1 e2 Hty Hmain H1 H2.
    unfold validate_with_google, run, try_except, validate_with_google_body,
      st_bind, lift, ne_str.
    cbn [py_get]. rewrite Hty, Hmain.
    cbn [eq_str String.eqb Ascii.eqb Bool.eqb negb py_len List.length Nat.ltb
         Nat.leb py_iter enumerate enumerate_from st_for_each].
    unfold st_bind. rewrite (google_ready_check 0 e1 _ H1).
    rewrite (google_ready_check 1 e2 _ H2). reflexivity.
Qed.

Lemma google_eligibility_witness :
  validate_with_google (faq_page [q_services; q_hours])
  = Ok {| g_valid := true; g_issues := [];
          g_warnings := ["Schema may not be eligible for rich results"];
          rich_results := false |}
  /\ exists r,
      validate_with_google valid_schema = Ok r
      /\ rich_results r = true
      /\ g_warnings r = ["Schema is eligible for rich results"].
Proof.
  split.
  - destruct (google_eligibility
                [("@context", VStr "https://schema.org");
                 ("@type", VStr "FAQPage");
                 ("mainEntity", VList [q_services; q_hours])])
      as (_ & _ & Htwo).
    apply (Htwo q_services q_hours); reflexivity.
  - destruct (google_eligibility
                [("@context", VStr "https://schema.org");
                 ("@type", VStr "FAQPage");
                 ("mainEntity", VList [q_services; q_schedule; q_hours])])
      as (Hrun & _ & _).
    pose (r := {| g_valid := true; g_issues := [];
                  g_warnings := ["Schema is eligible for rich results"];
                  rich_results := true |}).
    destruct (Hrun (VList [q_services; q_schedule; q_hours]) 3 r r)
      as (Hv & Hr & Hw).
    + reflexivity.
    + reflexivity.
    + reflexivity.
    + lia.
    + vm_compute. reflexivity.
    + exists r. split; [exact Hv|]. split; [reflexivity|exact Hw].
Defined.


(** * Further properties *)

(** ** The structural pass in closed form *)

Definition top_issues (d : list (string * value)) : list string :=
  (if has_key "@context" d then [] else ["Missing required field: @context"])
  ++ (if has_key "@type" d then [] else ["Missing required field: @type"])
  ++ (if has_key "mainEntity" d then []
      else ["Missing required field: mainEntity"])
  ++ match lookup "@type" d with
     | Some t => if ne_str t "FAQPage" then ["@type must be 'FAQPage'"] else []
     | None => []
     end
  ++ match lookup "mainEntity" d with
     | Some (VList []) => ["mainEntity cannot be empty"]
     | Some (VList _) => []
     | Some _ => ["mainEntity must be a list"]
     | None => []
     end.

Definition top_warnings (d : list (string * value)) : list string :=
  match lookup "@context" d with
  | Some c => if ne_str c "https://schema.org"
              then ["@context should be 'https://schema.org'"] else []
  | None => []
  end.

Definition top_results (d : list (string * value)) : structure_results :=
  mkStructure (negb (nonempty (top_issues d))) (top_issues d) (top_warnings d).

Lemma structure_dict_top (d : list (string * value)) :
  _validate_structure (VDict d)
  = match lookup "mainEntity" d with
    | Some (VList (e :: l)) => entity_loop 0 (e :: l) (top_results d)
    | _ => Ok (top_results d)
    end.
Proof.
  unfold _validate_structure, top_results, top_issues, top_warnings,
    entity_loop, enumerate.
  cbn [for_each py_in bind py_getitem]. unfold has_key.
  destruct (lookup "@context" d) as [c|], (lookup "@type" d) as [t|],
    (lookup "mainEntity" d) as [[| | | |[|e l]|]|];
    cbn [and_then bind negb];
    try destruct (ne_str c "https://schema.org");
    try destruct (ne_str t "FAQPage");
    reflexivity.
Qed.

(** What the check of a mapping entity returns *)

Definition entity_report (i : nat) (d : list (string * value))
  : entity_results :=
  mkEntity
    (map (question_msg i)
         (missing_rests d ++ type_rests d ++ fst (name_findings d)
          ++ fst (answer_findings d)))
    (map (question_msg i)
         (snd (name_findings d) ++ snd (answer_findings d))).

Fixpoint loop_issues (start : nat) (l : list value) : list string :=
  match l with
  | [] => []
  | VDict d :: l' => e_issues (entity_report start d) ++ loop_issues (S start) l'
  | _ :: l' => loop_issues (S start) l'
  end.

Fixpoint loop_warnings (start : nat) (l : list value) : list string :=
  match l with
  | [] => []
  | VDict d :: l' =>
      e_warnings (entity_report start d) ++ loop_warnings (S start) l'
  | _ :: l' => loop_warnings (S start) l'
  end.

Lemma entity_loop_dicts (l : list value) :
  forallb is_dict l = true ->
  forall start r,
    entity_loop start l r
    = Ok (mkStructure (s_valid r) (s_issues r ++ loop_issues start l)
                      (s_warnings r ++ loop_warnings start l)).
Proof.
  unfold entity_loop. induction l as [|x l IH]; intros Hl start r.
  - simpl. rewrite !app_nil_r. destruct r; reflexivity.
  - simpl in Hl. apply andb_true_iff in Hl as [Hx Hl].
    destruct x; try discriminate Hx.
    cbn [enumerate_from for_each]. rewrite entity_dict_findings.
    cbn [bind]. rewrite (IH Hl). unfold s_extend, entity_report.
    cbn [s_valid s_issues s_warnings e_issues e_warnings loop_issues
         loop_warnings].
    rewrite <- !app_assoc. reflexivity.
Qed.

Lemma forallb_is_dict_or_not (l : list value) :
  forallb is_dict l = true \/ existsb (fun v => negb (is_dict v)) l = true.
Proof.
  induction l as [|x l [IH|IH]]; simpl; auto.
  - destruct (is_dict x); simpl; auto.
  - right. rewrite IH. apply orb_true_r.
Qed.

(** ** Well-formed documents *)

Definition nonblank_string (v : option value) : bool :=
  match v with
  | Some (VStr s) => negb (String.eqb (str_strip s) "")
  | _ => false
  end.

Definition well_formed_answer (v : option value) : bool :=
  match v with
  | Some (VDict a) =>
      eq_str (field_or_none "@type" a) "Answer"
      && nonblank_string (lookup "text" a)
  | _ => false
  end.

Definition well_formed_question (entity : value) : bool :=
  match entity with
  | VDict d =>
      eq_str (field_or_none "@type" d) "Question"
      && nonblank_string (lookup "name" d)
      && well_formed_answer (lookup "acceptedAnswer" d)
  | _ => false
  end.

Definition well_formed_page (schema : value) : bool :=
  match schema with
  | VDict d =>
      has_key "@context" d
      && eq_str (field_or_none "@type" d) "FAQPage"
      && match lookup "mainEntity" d with
         | Some (VList (e :: l)) => forallb well_formed_question (e :: l)
         | _ => false
         end
  | _ => false
  end.

Lemma text_issue_nil empty short long lo hi (v : value) :
  fst (text_findings empty short long lo hi v) = []
  <-> nonblank_string (Some v) = true.
Proof.
  unfold text_findings, nonblank_string.
  destruct v as [| | |s| |]; simpl; try (split; discriminate).
  destruct (String.eqb (str_strip s) ""); simpl; [split; discriminate|].
  destruct (Nat.ltb (String.length s) lo); [simpl; tauto|].
  destruct (Nat.ltb hi (String.length s)); simpl; tauto.
Qed.

Lemma entity_issues_nil (i : nat) (d : list (string * value)) :
  e_issues (entity_report i d) = [] <-> well_formed_question (VDict d) = true.
Proof.
  unfold entity_report. cbn [e_issues well_formed_question].
  rewrite !andb_true_iff. split.
  - intros H. apply map_eq_nil in H.
    apply app_eq_nil in H as [Hmiss H]. apply app_eq_nil in H as [Hty H].
    apply app_eq_nil in H as [Hname Hans].
    unfold missing_rests, has_key in Hmiss. cbn [flat_map] in Hmiss.
    unfold type_rests, ne_str in Hty.
    unfold name_findings in Hname. unfold answer_findings in Hans.
    repeat split.
    + destruct (eq_str (field_or_none "@type" d) "Question");
        [reflexivity|discriminate Hty].
    + destruct (lookup "name" d) as [v|].
      * apply text_issue_nil in Hname. exact Hname.
      * destruct (lookup "@type" d); discriminate Hmiss.
    + unfold well_formed_answer.
      destruct (lookup "acceptedAnswer" d) as [[| | | | |a]|];
        try discriminate Hans.
      * unfold ne_str in Hans.
        destruct (lookup "text" a) as [v|]; cbn [fst] in Hans;
          apply app_eq_nil in Hans as [Haty Htext]; [|discriminate Htext].
        apply text_issue_nil in Htext. rewrite Htext.
        destruct (eq_str (field_or_none "@type" a) "Answer");
          [reflexivity|discriminate Haty].
      * destruct (lookup "@type" d), (lookup "name" d); discriminate Hmiss.
  - intros [[Hty Hname] Hans].
    assert (Hmiss : missing_rests d = []).
    { unfold missing_rests, has_key. cbn [flat_map].
      unfold field_or_none in Hty. unfold well_formed_answer in Hans.
      destruct (lookup "@type" d); [|discriminate Hty].
      destruct (lookup "name" d); [|discriminate Hname].
      destruct (lookup "acceptedAnswer" d); [reflexivity|discriminate Hans]. }
    assert (Htr : type_rests d = [])
      by (unfold type_rests, ne_str; rewrite Hty; reflexivity).
    assert (Hnf : fst (name_findings d) = []).
    { unfold name_findings. destruct (lookup "name" d) as [v|];
        [apply text_issue_nil; exact Hname|reflexivity]. }
    assert (Haf : fst (answer_findings d) = []).
    { unfold answer_findings, well_formed_answer in *.
      destruct (lookup "acceptedAnswer" d) as [[| | | | |a]|];
        try discriminate Hans.
      apply andb_true_iff in Hans as [Haty Htext]. unfold ne_str.
      rewrite Haty. destruct (lookup "text" a) as [v|];
        [|discriminate Htext].
      cbn [fst negb app]. apply text_issue_nil. exact Htext. }
    rewrite Hmiss, Htr, Hnf, Haf. reflexivity.
Qed.

Lemma well_formed_is_dict (l : list value) :
  forallb well_formed_question l = true -> forallb is_dict l = true.
Proof.
  induction l as [|x l IH]; simpl; [auto|].
  intros H. apply andb_true_iff in H as [Hx Hl].
  rewrite (IH Hl). destruct x; try discriminate Hx. reflexivity.
Qed.

Lemma loop_issues_nil (l : list value) :
  forallb is_dict l = true ->
  forall start,
    loop_issues start l = [] <-> forallb well_formed_question l = true.
Proof.
  induction l as [|x l IH]; intros Hl start; [simpl; tauto|].
  simpl in Hl. apply andb_true_iff in Hl as [Hx Hl].
  destruct x as [| | | | |d]; try discriminate Hx.
  cbn [loop_issues forallb]. rewrite andb_true_iff.
  rewrite <- (IH Hl (S start)), <- (entity_issues_nil start d). split.
  - intros H. apply app_eq_nil in H. exact H.
  - intros [-> ->]. reflexivity.
Qed.

Lemma top_issues_nil (d : list (string * value)) :
  top_issues d = []
  <-> has_key "@context" d = true
      /\ eq_str (field_or_none "@type" d) "FAQPage" = true
      /\ exists e l, lookup "mainEntity" d = Some (VList (e :: l)).
Proof.
  unfold top_issues, has_key, field_or_none, ne_str.
  destruct (lookup "@context" d) as [c|], (lookup "@type" d) as [t|];
    try destruct (eq_str t "FAQPage");
    destruct (lookup "mainEntity" d) as [[| | | |[|e l]|]|]; simpl;
    first
      [ split; [intros _; repeat split; eauto|reflexivity]
      | split;
        [discriminate
        |intros (H1 & H2 & e' & l' & H3);
         first [discriminate H1|discriminate H2|discriminate H3]] ].
Qed.

Lemma structure_complete (d : list (string * value)) :
  well_formed_page (VDict d) = true ->
  exists st,
    _validate_structure (VDict d) = Ok st
    /\ s_valid st = true /\ s_issues st = [].
Proof.
  cbn [well_formed_page]. intros H.
  apply andb_true_iff in H as [H Hmain]. apply andb_true_iff in H as [Hc Ht].
  rewrite structure_dict_top.
  destruct (lookup "mainEntity" d) as [[| | | |[|e l]|]|] eqn:Hl;
    try discriminate Hmain.
  assert (Htop : top_issues d = [])
    by (apply top_issues_nil; rewrite Hl; eauto).
  rewrite (entity_loop_dicts _ (well_formed_is_dict _ Hmain)).
  eexists. split; [reflexivity|]. unfold top_results.
  cbn [s_valid s_issues]. rewrite Htop. split; [reflexivity|].
  apply (loop_issues_nil _ (well_formed_is_dict _ Hmain)). exact Hmain.
Qed.

Lemma structure_sound (schema : value) (st : structure_results) :
  _validate_structure schema = Ok st ->
  s_issues st = [] ->
  well_formed_page schema = true.
Proof.
  intros H Hi. destruct schema as [| | |s|l|d];
    try discriminate H.
  - exfalso. unfold _validate_structure in H.
    cbn [for_each py_in bind py_getitem] in H.
    destruct (str_contains "@context" s), (str_contains "@type" s),
      (str_contains "mainEntity" s);
      cbn [and_then bind negb] in H; try discriminate H;
      injection H as <-; discriminate Hi.
  - exfalso. unfold _validate_structure in H.
    cbn [for_each py_in bind py_getitem] in H.
    destruct (existsb (fun x => eq_str x "@context") l),
      (existsb (fun x => eq_str x "@type") l),
      (existsb (fun x => eq_str x "mainEntity") l);
      cbn [and_then bind negb] in H; try discriminate H;
      injection H as <-; discriminate Hi.
  - rewrite structure_dict_top in H. cbn [well_formed_page].
    destruct (lookup "mainEntity" d) as [[| | | |[|e l]|]|] eqn:Hl;
      try (injection H as <-; cbn [top_results s_issues] in Hi;
           apply top_issues_nil in Hi as (_ & _ & e' & l' & Hm);
           rewrite Hl in Hm; discriminate Hm).
    destruct (forallb_is_dict_or_not (e :: l)) as [Hd|Hd].
    + rewrite (entity_loop_dicts _ Hd) in H. injection H as <-.
      cbn [s_issues top_results] in Hi. apply app_eq_nil in Hi as [Htop Hloop].
      apply top_issues_nil in Htop as (Hc & Ht & _). rewrite Hc, Ht.
      apply (loop_issues_nil _ Hd) in Hloop. exact Hloop.
    + destruct (entity_loop_raises _ Hd 0 (top_results d)) as (e0 & He).
      rewrite He in H. discriminate H.
Qed.

(** ** The content and SEO passes on well-formed entities *)

Lemma content_no_issues (schema : value) (c : content_results) :
  _validate_content schema = Ok c -> c_issues c = [].
Proof.
  unfold _validate_content. intros H.
  apply bind_ok in H as (main_entity & _ & H).
  apply bind_ok in H as (questions & _ & H).
  apply bind_ok in H as (distinct & _ & H).
  apply bind_ok in H as (n & _ & H).
  apply bind_ok in H as (r1 & Hdiv & H).
  apply bind_ok in H as (elements & _ & H).
  assert (Hr1 : c_issues r1 = []).
  { destruct (Nat.leb 3 n).
    - apply bind_ok in Hdiv as (elements' & _ & Hdiv).
      apply bind_ok in Hdiv as (question_words & _ & Hdiv).
      apply bind_ok in Hdiv as (tokens & _ & Hdiv).
      apply bind_ok in Hdiv as (ds & _ & Hdiv).
      injection Hdiv as <-.
      destruct (below_fraction _ _ _ _), (negb _); reflexivity.
    - injection Hdiv as <-. destruct (negb _); reflexivity. }
  eapply (for_each_inv (fun s => c_issues s = [])); [|exact H|exact Hr1].
  clear. intros [i entity] s s' Hbody Hs.
  apply bind_ok in Hbody as (has_answer & _ & Hbody).
  destruct has_answer; [|injection Hbody as <-; exact Hs].
  apply bind_ok in Hbody as (answer & _ & Hbody).
  apply bind_ok in Hbody as (has_text & _ & Hbody).
  destruct has_text; [|injection Hbody as <-; exact Hs].
  apply bind_ok in Hbody as (text & _ & Hbody).
  apply bind_ok in Hbody as (size & _ & Hbody).
  injection Hbody as <-. destruct (Nat.ltb size 50); exact Hs.
Qed.

Lemma well_formed_is_well_typed (l : list value) :
  forallb well_formed_question l = true ->
  forallb well_typed_entity l = true.
Proof.
  induction l as [|x l IH]; simpl; [auto|].
  intros H. apply andb_true_iff in H as [Hx Hl]. rewrite (IH Hl).
  destruct x as [| | | | |d]; try discriminate Hx.
  cbn [well_formed_question] in Hx.
  apply andb_true_iff in Hx as [Hx Hans].
  apply andb_true_iff in Hx as [_ Hname].
  cbn [well_typed_entity]. unfold well_formed_answer in Hans.
  destruct (lookup "name" d) as [[| | |s| |]|]; try discriminate Hname.
  destruct (lookup "acceptedAnswer" d) as [[| | | | |a]|];
    try discriminate Hans.
  apply andb_true_iff in Hans as [_ Htext].
  destruct (lookup "text" a) as [[| | |t| |]|]; try discriminate Htext.
  reflexivity.
Qed.

(** The count of the questions that start with a common pattern *)

Definition pattern_loop (questions : list value) (count : nat) : result nat :=
  for_each questions
    (fun q count =>
       for_each common_patterns
         (fun pattern count =>
            lowered <- py_lower q ;;
            Ok (if startswith lowered pattern then S count else count))
         count)
    count.

Lemma pattern_loop_strings (names : list string) :
  forall count, exists total, pattern_loop (map VStr names) count = Ok total.
Proof.
  unfold pattern_loop. induction names as [|s names IH]; intros count.
  - simpl. eauto.
  - cbn [map for_each common_patterns py_lower bind]. apply IH.
Qed.

Lemma seo_returns (d : list (string * value)) (l : list value) :
  lookup "mainEntity" d = Some (VList l) ->
  forallb well_typed_entity l = true ->
  exists o, _validate_seo_practices (VDict d) = Ok o.
Proof.
  intros Hmain Hl. unfold _validate_seo_practices.
  cbn [py_in py_get bind]. rewrite Hmain. cbn [py_len bind].
  rewrite (question_names_spec (VList l) l eq_refl). cbn [bind].
  destruct (well_typed_names l Hl) as (names & ->).
  destruct (nonempty (map VStr names)); [|eauto].
  destruct (pattern_loop_strings names 0) as (total & Htotal).
  unfold pattern_loop in Htotal. rewrite Htotal. cbn [bind]. eauto.
Qed.

(** ** How the orchestrator merges the passes *)

Lemma validate_schema_merge (schema : value) st c o :
  _validate_structure schema = Ok st ->
  _validate_content schema = Ok c ->
  _validate_seo_practices schema = Ok o ->
  validate_schema schema
  = Ok {| valid := if nonempty (s_issues st ++ c_issues c)
                   then false else s_valid st;
          issues := s_issues st ++ c_issues c;
          warnings := (s_warnings st ++ c_warnings c) ++ o_warnings o;
          suggestions := c_suggestions c ++ o_suggestions o;
          google_validation := VNone |}.
Proof.
  intros Hst Hc Ho.
  unfold validate_schema, run, try_except, validate_schema_body,
    st_bind, lift, modify, get, when, st_ret.
  rewrite Hst, Hc, Ho. cbn.
  destruct (nonempty (s_issues st ++ c_issues c)); reflexivity.
Qed.

Lemma validate_schema_valid_inv (schema : value) (r : report) :
  validate_schema schema = Ok r ->
  valid r = true ->
  exists st c o,
    _validate_structure schema = Ok st
    /\ _validate_content schema = Ok c
    /\ _validate_seo_practices schema = Ok o
    /\ s_issues st ++ c_issues c = [].
Proof.
  intros H Hv.
  destruct (_validate_structure schema) as [st|e] eqn:Hst.
  2: { unfold validate_schema, run, try_except, validate_schema_body,
         st_bind, lift in H. rewrite Hst in H. cbn in H.
       injection H as <-. discriminate Hv. }
  destruct (_validate_content schema) as [c|e] eqn:Hc.
  2: { unfold validate_schema, run, try_except, validate_schema_body,
         st_bind, lift, modify in H. rewrite Hst, Hc in H. cbn in H.
       injection H as <-. discriminate Hv. }
  destruct (_validate_seo_practices schema) as [o|e] eqn:Ho.
  2: { unfold validate_schema, run, try_except, validate_schema_body,
         st_bind, lift, modify in H. rewrite Hst, Hc, Ho in H. cbn in H.
       injection H as <-. discriminate Hv. }
  rewrite (validate_schema_merge _ _ _ _ Hst Hc Ho) in H.
  injection H as <-. cbn [valid] in Hv.
  exists st, c, o. repeat (split; [reflexivity|]).
  destruct (s_issues st ++ c_issues c); [reflexivity|discriminate Hv].
Qed.

Lemma well_formed_passes (schema : value) :
  well_formed_page schema = true ->
  exists st c o,
    _validate_structure schema = Ok st
    /\ _validate_content schema = Ok c
    /\ _validate_seo_practices schema = Ok o
    /\ s_valid st = true /\ s_issues st = [] /\ c_issues c = [].
Proof.
  intros H. destruct schema as [| | | | |d]; try discriminate H.
  destruct (structure_complete d H) as (st & Hst & Hv & Hi).
  cbn [well_formed_page] in H.
  apply andb_true_iff in H as [_ Hmain].
  destruct (lookup "mainEntity" d) as [[| | | |[|e l]|]|] eqn:Hl;
    try discriminate Hmain.
  apply well_formed_is_well_typed in Hmain.
  destruct (content_returns d (e :: l) Hl Hmain) as (c & Hc).
  destruct (seo_returns d (e :: l) Hl Hmain) as (o & Ho).
  exists st, c, o. repeat (split; [assumption|]).
  apply (content_no_issues _ _ Hc).
Qed.

(** The report says [valid] exactly for a well-formed FAQPage: the
    document is a mapping with [@context] present and [@type] "FAQPage",
    and [mainEntity] is a non-empty list of mappings, each of [@type]
    "Question" with a non-blank string [name] and an [acceptedAnswer]
    mapping of [@type] "Answer" with a non-blank string [text]. *)
Theorem valid_iff_well_formed (schema : value) :
  exists r,
    validate_schema schema = Ok r
    /\ (valid r = true <-> well_formed_page schema = true).
Proof.
  destruct (validate_schema schema) as [r|e] eqn:Hr.
  2: { exfalso. revert Hr. unfold validate_schema, run, try_except.
       destruct (validate_schema_body schema initial_report) as [s [a|e0]];
         discriminate. }
  exists r. split; [reflexivity|]. split.
  - intros Hv.
    destruct (validate_schema_valid_inv _ _ Hr Hv)
      as (st & c & o & Hst & _ & _ & Hnil).
    apply app_eq_nil in Hnil as [Hnil _].
    exact (structure_sound _ _ Hst Hnil).
  - intros Hwf.
    destruct (well_formed_passes _ Hwf)
      as (st & c & o & Hst & Hc & Ho & Hv & Hi & Hci).
    rewrite (validate_schema_merge _ _ _ _ Hst Hc Ho) in Hr.
    injection Hr as <-. cbn [valid]. rewrite Hi, Hci. exact Hv.
Qed.

Lemma valid_iff_well_formed_witness :
  exists r, validate_schema valid_schema = Ok r /\ valid r = true.
Proof.
  destruct (valid_iff_well_formed valid_schema) as (r & Hr & Hiff).
  exists r. split; [exact Hr|]. apply Hiff. reflexivity.
Defined.

(** When no pass raises, the report is the ordered merge of the passes: its
    issues are exactly those of the structural pass (the content and SEO
    checks never invalidate a document), its warnings are the structural,
    content and SEO warnings in that order, and its suggestions the content
    suggestions followed by the SEO ones. *)
Theorem report_merges_passes (schema : value) st c o :
  _validate_structure schema = Ok st ->
  _validate_content schema = Ok c ->
  _validate_seo_practices schema = Ok o ->
  exists r,
    validate_schema schema = Ok r
    /\ issues r = s_issues st
    /\ warnings r = s_warnings st ++ c_warnings c ++ o_warnings o
    /\ suggestions r = c_suggestions c ++ o_suggestions o.
Proof.
  intros Hst Hc Ho.
  rewrite (validate_schema_merge _ _ _ _ Hst Hc Ho).
  eexists. split; [reflexivity|]. cbn [issues warnings suggestions].
  rewrite (content_no_issues _ _ Hc), app_nil_r, <- app_assoc. auto.
Qed.

Lemma report_merges_passes_witness :
  exists r,
    validate_schema valid_schema = Ok r
    /\ issues r = []
    /\ suggestions r
       = ["Consider varying question starters for better diversity";
          "Consider adding a 'name' field for the FAQ page";
          "Consider adding a 'description' field for better SEO"].
Proof.
  destruct (report_merges_passes valid_schema
              (mkStructure true [] [])
              (mkContent [] []
                 ["Consider varying question starters for better diversity"])
              (mkSeo []
                 ["Consider adding a 'name' field for the FAQ page";
                  "Consider adding a 'description' field for better SEO"]))
    as (r & Hr & Hi & _ & Hs).
  - vm_compute. reflexivity.
  - vm_compute. reflexivity.
  - vm_compute. reflexivity.
  - exists r. split; [exact Hr|]. split; [exact Hi|exact Hs].
Defined.

(** ** Positions in the diagnostics *)

Lemma loop_warnings_in (l : list value) :
  forall i d start x,
    nth_error l i = Some (VDict d) ->
    In x (e_warnings (entity_report (start + i) d)) ->
    In x (loop_warnings start l).
Proof.
  induction l as [|y l IH]; intros i d start x Hnth Hin.
  - destruct i; discriminate Hnth.
  - destruct i as [|i].
    + injection Hnth as ->. rewrite Nat.add_0_r in Hin.
      cbn [loop_warnings]. apply in_or_app. left. exact Hin.
    + simpl in Hnth. rewrite Nat.add_succ_r in Hin.
      assert (Hrest : In x (loop_warnings (S start) l))
        by (apply (IH i d (S start) x Hnth); exact Hin).
      destruct y; cbn [loop_warnings]; try exact Hrest.
      apply in_or_app. right. exact Hrest.
Qed.

(** The body of the answer-quality loop of the content pass *)

Definition answer_body : nat * value -> content_results -> result content_results :=
  fun '(i, entity) results =>
    has_answer <- and_then (is_dict entity) (py_in "acceptedAnswer" entity) ;;
    if has_answer then
      answer <- py_getitem entity "acceptedAnswer" ;;
      has_text <- and_then (is_dict answer) (py_in "text" answer) ;;
      if has_text then
        text <- py_getitem answer "text" ;;
        size <- py_len text ;;
        Ok (if Nat.ltb size 50
            then c_suggestion results
                   (question_msg (i + 1)
                      "Consider expanding the answer for better value")
            else results)
      else Ok results
    else Ok results.

Lemma answer_body_keeps (x : string) (p : nat * value) s s' :
  answer_body p s = Ok s' ->
  In x (c_suggestions s) -> In x (c_suggestions s').
Proof.
  destruct p as [i entity]. unfold answer_body. intros Hbody Hin.
  apply bind_ok in Hbody as (has_answer & _ & Hbody).
  destruct has_answer; [|injection Hbody as <-; exact Hin].
  apply bind_ok in Hbody as (answer & _ & Hbody).
  apply bind_ok in Hbody as (has_text & _ & Hbody).
  destruct has_text; [|injection Hbody as <-; exact Hin].
  apply bind_ok in Hbody as (text & _ & Hbody).
  apply bind_ok in Hbody as (size & _ & Hbody).
  injection Hbody as <-. destruct (Nat.ltb size 50); [|exact Hin].
  cbn [c_suggestion c_suggestions]. apply in_or_app. left. exact Hin.
Qed.

Lemma answer_loop_suggests (l : list value) :
  forall i e a t start r0 r,
    nth_error l i = Some (VDict e) ->
    lookup "acceptedAnswer" e = Some (VDict a) ->
    lookup "text" a = Some (VStr t) ->
    String.length t < 50 ->
    for_each (enumerate_from start l) answer_body r0 = Ok r ->
    In (question_msg (start + i + 1)
          "Consider expanding the answer for better value")
       (c_suggestions r).
Proof.
  induction l as [|y l IH]; intros i e a t start r0 r Hnth Ha Ht Hlen H.
  - destruct i; discriminate Hnth.
  - cbn [enumerate_from for_each] in H.
    apply bind_ok in H as (r1 & Hy & H).
    destruct i as [|i].
    + injection Hnth as ->. rewrite Nat.add_0_r.
      eapply (for_each_inv
                (fun s => In (question_msg (start + 1)
                                "Consider expanding the answer for better value")
                             (c_suggestions s)));
        [|exact H|].
      * intros p s s' Hbody Hin. eapply answer_body_keeps; eauto.
      * unfold answer_body in Hy.
        cbn [is_dict and_then py_in py_getitem bind] in Hy.
        unfold has_key in Hy. rewrite Ha in Hy.
        cbn [is_dict and_then py_in py_getitem bind] in Hy.
        unfold has_key in Hy. rewrite Ht in Hy. cbn [bind py_len] in Hy.
        apply Nat.ltb_lt in Hlen. rewrite Hlen in Hy. injection Hy as <-.
        cbn [c_suggestion c_suggestions]. apply in_or_app. right.
        simpl. auto.
    + simpl in Hnth. replace (start + S i + 1) with (S start + i + 1) by lia.
      apply (IH i e a t (S start) r1 r Hnth Ha Ht Hlen H).
Qed.

Lemma entity_numbering
      (d e a : list (string * value)) (l : list value) (i : nat)
      (t : string) st c :
  lookup "mainEntity" d = Some (VList l) ->
  nth_error l i = Some (VDict e) ->
  lookup "acceptedAnswer" e = Some (VDict a) ->
  lookup "text" a = Some (VStr t) ->
  str_strip t <> "" ->
  String.length t < 20 ->
  _validate_structure (VDict d) = Ok st ->
  _validate_content (VDict d) = Ok c ->
  In (question_msg i "Answer is very short") (s_warnings st)
  /\ In (question_msg (i + 1)
           "Consider expanding the answer for better value")
        (c_suggestions c).
Proof.
  intros Hmain Hnth Ha Ht Hblank Hlen Hst Hc. split.
  - rewrite structure_dict_top, Hmain in Hst.
    destruct l as [|e0 l']; [destruct i; discriminate Hnth|].
    destruct (forallb_is_dict_or_not (e0 :: l')) as [Hd|Hd].
    + rewrite (entity_loop_dicts _ Hd) in Hst. injection Hst as <-.
      cbn [s_warnings]. apply in_or_app. right.
      apply (loop_warnings_in _ i e 0 _ Hnth).
      unfold entity_report. cbn [e_warnings Nat.add].
      apply in_question_msgs, in_or_app. right.
      unfold answer_findings. rewrite Ha, Ht. cbn [snd].
      apply in_text_findings_warning; [exact Hblank|]. left. auto.
    + destruct (entity_loop_raises _ Hd 0 (top_results d)) as (e1 & He).
      rewrite He in Hst. discriminate Hst.
  - unfold _validate_content in Hc.
    apply bind_ok in Hc as (main_entity & Hget & Hc).
    cbn [py_get] in Hget. rewrite Hmain in Hget. injection Hget as <-.
    apply bind_ok in Hc as (questions & _ & Hc).
    apply bind_ok in Hc as (distinct & _ & Hc).
    apply bind_ok in Hc as (n & _ & Hc).
    apply bind_ok in Hc as (r1 & _ & Hc).
    apply bind_ok in Hc as (elements & Hiter & Hc).
    injection Hiter as <-.
    apply (answer_loop_suggests l i e a t 0 r1 c Hnth Ha Ht); [lia|exact Hc].
Qed.

Lemma structure_returns_on_mappings (d : list (string * value))
      (l : list value) :
  lookup "mainEntity" d = Some (VList l) ->
  forallb is_dict l = true ->
  exists st, _validate_structure (VDict d) = Ok st.
Proof.
  intros Hmain Hd. rewrite structure_dict_top, Hmain.
  destruct l as [|e0 l']; [eauto|].
  rewrite (entity_loop_dicts _ Hd). eauto.
Qed.

(** The structural pass numbers the entities from 0 and the content pass
    from 1.  When every element of [mainEntity] is a mapping whose name and
    answer text, where present, are strings, both passes return, and for
    the entity at position [i] whose answer text is a non-blank string
    shorter than 20 characters the structural pass warns "Question i:
    Answer is very short" while the content pass suggests "Question i+1:
    Consider expanding the answer for better value". *)
Theorem passes_number_entities_differently
        (d e a : list (string * value)) (l : list value) (i : nat)
        (t : string) :
  lookup "mainEntity" d = Some (VList l) ->
  forallb is_dict l = true ->
  forallb well_typed_entity l = true ->
  nth_error l i = Some (VDict e) ->
  lookup "acceptedAnswer" e = Some (VDict a) ->
  lookup "text" a = Some (VStr t) ->
  str_strip t <> "" ->
  String.length t < 20 ->
  exists st c,
    _validate_structure (VDict d) = Ok st
    /\ _validate_content (VDict d) = Ok c
    /\ In (question_msg i "Answer is very short") (s_warnings st)
    /\ In (question_msg (i + 1)
             "Consider expanding the answer for better value")
          (c_suggestions c).
Proof.
  intros Hmain Hd Hty Hnth Ha Ht Hblank Hlen.
  destruct (structure_returns_on_mappings d l Hmain Hd) as (st & Hst).
  destruct (content_returns d l Hmain Hty) as (c & Hc).
  exists st, c. split; [exact Hst|]. split; [exact Hc|].
  exact (entity_numbering d e a l i t st c Hmain Hnth Ha Ht Hblank Hlen
           Hst Hc).
Qed.

Definition page_with_terse_answer : list (string * value) :=
  [("@context", VStr "https://schema.org"); ("@type", VStr "FAQPage");
   ("mainEntity",
    VList [q_services; question_of "Are you open on Sundays?" "No, we are not."])].

Lemma passes_number_entities_differently_witness :
  exists st c,
    _validate_structure (VDict page_with_terse_answer) = Ok st
    /\ _validate_content (VDict page_with_terse_answer) = Ok c
    /\ In "Question 1: Answer is very short" (s_warnings st)
    /\ In "Question 2: Consider expanding the answer for better value"
          (c_suggestions c).
Proof.
  apply (passes_number_entities_differently
           page_with_terse_answer
           [("@type", VStr "Question"); ("name", VStr "Are you open on Sundays?");
            ("acceptedAnswer", answer_of "No, we are not.")]
           [("@type", VStr "Answer"); ("text", VStr "No, we are not.")]
           [q_services; question_of "Are you open on Sundays?" "No, we are not."]
           1 "No, we are not.").
  - reflexivity.
  - reflexivity.
  - reflexivity.
  - reflexivity.
  - reflexivity.
  - reflexivity.
  - discriminate.
  - simpl. lia.
Defined.

(** ** Question patterns in the SEO pass *)

Lemma prefix_clash (p q s : string) :
  String.prefix p s = true -> String.prefix q s = true ->
  String.prefix p q = false -> String.prefix q p = false -> False.
Proof.
  revert p q. induction s as [|c s IH]; intros p q Hp Hq Hpq Hqp.
  - destruct p; [destruct q; discriminate|discriminate].
  - destruct p as [|a p]; [destruct q; discriminate|].
    destruct q as [|b q]; [discriminate|].
    simpl in Hp, Hq, Hpq, Hqp.
    destruct (ascii_dec a c) as [->|]; [|discriminate].
    destruct (ascii_dec b c) as [->|]; [|discriminate].
    destruct (ascii_dec c c) as [_|Hn]; [|contradiction].
    exact (IH p q Hp Hq Hpq Hqp).
Qed.

(** The question starts, in any letter case, with one of the six words. *)

Definition starts_with_common (q : string) : bool :=
  existsb (startswith (str_lower q)) common_patterns.

Lemma common_pattern_count (s : string) (count : nat) :
  for_each common_patterns
    (fun pattern count =>
       lowered <- py_lower (VStr s) ;;
       Ok (if startswith lowered pattern then S count else count))
    count
  = Ok (count + if starts_with_common s then 1 else 0).
Proof.
  unfold starts_with_common, startswith.
  cbn [for_each common_patterns py_lower bind existsb].
  destruct (String.prefix "what" (str_lower s)) eqn:H1,
    (String.prefix "how" (str_lower s)) eqn:H2,
    (String.prefix "when" (str_lower s)) eqn:H3,
    (String.prefix "where" (str_lower s)) eqn:H4,
    (String.prefix "why" (str_lower s)) eqn:H5,
    (String.prefix "who" (str_lower s)) eqn:H6;
    cbn [orb];
    try (f_equal; lia);
    exfalso;
    match goal with
    | Ha : String.prefix ?p ?t = true, Hb : String.prefix ?q ?t = true |- _ =>
        lazymatch p with
        | q => fail
        | _ => exact (prefix_clash p q t Ha Hb eq_refl eq_refl)
        end
    end.
Qed.

Lemma pattern_loop_count (names : list string) :
  forall count,
    pattern_loop (map VStr names) count
    = Ok (count + List.length (filter starts_with_common names)).
Proof.
  unfold pattern_loop. induction names as [|s names IH]; intros count.
  - simpl. f_equal. lia.
  - cbn [map for_each]. rewrite common_pattern_count. cbn [bind].
    rewrite IH. cbn [filter]. f_equal.
    destruct (starts_with_common s); simpl; lia.
Qed.

(** On a document whose [mainEntity] is a list with string names, the SEO
    pass returns.  It warns about the count exactly below 3 and above 10
    entities, and it suggests more common question patterns if and only if
    there is a question and fewer than half of the questions start, in any
    letter case, with what, how, when, where, why or who. *)
Theorem seo_findings (d : list (string * value)) (l : list value)
        (names : list string) :
  lookup "mainEntity" d = Some (VList l) ->
  question_names (VList l) = Ok (map VStr names) ->
  exists r,
    _validate_seo_practices (VDict d) = Ok r
    /\ o_warnings r
       = (if Nat.ltb (List.length l) 3
          then ["FAQ pages should have at least 3 questions for best SEO results"]
          else if Nat.ltb 10 (List.length l)
          then ["Consider limiting to 10 questions to avoid overwhelming users"]
          else [])
    /\ (In "Consider using more common question patterns (What, How, When, etc.)"
           (o_suggestions r)
        <-> names <> []
            /\ 2 * List.length (filter starts_with_common names)
               < List.length names).
Proof.
  intros Hmain Hq. unfold _validate_seo_practices.
  cbn [py_in py_get bind]. rewrite Hmain. cbn [py_len bind]. rewrite Hq.
  cbn [bind].
  set (r0 := if Nat.ltb (List.length l) 3 then _ else _).
  assert (Hw : o_warnings r0
               = if Nat.ltb (List.length l) 3
                 then ["FAQ pages should have at least 3 questions for best SEO results"]
                 else if Nat.ltb 10 (List.length l)
                 then ["Consider limiting to 10 questions to avoid overwhelming users"]
                 else []).
  { unfold r0. destruct (Nat.ltb (List.length l) 3);
      [|destruct (Nat.ltb 10 (List.length l))];
      destruct (negb (has_key "name" d)), (negb (has_key "description" d));
      reflexivity. }
  assert (Hs : ~ In "Consider using more common question patterns (What, How, When, etc.)"
                    (o_suggestions r0)).
  { unfold r0. destruct (Nat.ltb (List.length l) 3);
      [|destruct (Nat.ltb 10 (List.length l))];
      destruct (negb (has_key "name" d)), (negb (has_key "description" d));
      simpl; intuition discriminate. }
  clearbody r0.
  destruct names as [|s names].
  - cbn [map nonempty]. exists r0. split; [reflexivity|]. split; [exact Hw|].
    split; [intros H; contradiction|intros [H _]; congruence].
  - cbn [nonempty map].
    pose proof (pattern_loop_count (s :: names) 0) as Hcount.
    unfold pattern_loop in Hcount. cbn [map] in Hcount. rewrite Hcount.
    cbn [bind Nat.add].
    change (VStr s :: map VStr names) with (map VStr (s :: names)).
    unfold below_fraction. rewrite length_map.
    eexists. split; [reflexivity|].
    destruct (Nat.ltb_spec
                (2 * List.length (filter starts_with_common (s :: names)))
                (1 * List.length (s :: names))) as [Hlt|Hge];
      cbn [o_suggestion o_warnings o_suggestions];
      (split; [exact Hw|]).
    + rewrite in_app_iff. split; [|simpl; auto].
      intros _. split; [discriminate|lia].
    + split; [intros H; contradiction|intros [_ H]; lia].
Qed.

Definition yes_no_page : list (string * value) :=
  [("@context", VStr "https://schema.org"); ("@type", VStr "FAQPage");
   ("mainEntity",
    VList [question_of "Is this a good question?" "Yes, this is a good question.";
           question_of "Are you open today?" "Yes, we are open today."])].

Lemma seo_findings_witness :
  exists r,
    _validate_seo_practices (VDict yes_no_page) = Ok r
    /\ In "Consider using more common question patterns (What, How, When, etc.)"
          (o_suggestions r).
Proof.
  destruct (seo_findings
              yes_no_page
              [question_of "Is this a good question?"
                 "Yes, this is a good question.";
               question_of "Are you open today?" "Yes, we are open today."]
              ["Is this a good question?"; "Are you open today?"]
              eq_refl eq_refl)
    as (r & Hr & _ & Hiff).
  exists r. split; [exact Hr|]. apply Hiff.
  split; [discriminate|vm_compute; lia].
Defined.

(** ** Invariants of a [try] body *)

Section Preservation.

Context {S : Type} (P : S -> Prop).

(** The computation keeps [P] on the state, whether it returns or raises. *)

Definition preserves {A : Type} (c : stateful S A) : Prop :=
  forall s s' res, c s = (s', res) -> P s -> P s'.

Lemma preserves_lift {A : Type} (c : result A) : preserves (lift c).
Proof. intros s s' res H. injection H as <- _. auto. Qed.

Lemma preserves_ret {A : Type} (a : A) : preserves (st_ret a).
Proof. intros s s' res H. injection H as <- _. auto. Qed.

Lemma preserves_get : preserves get.
Proof. intros s s' res H. injection H as <- _. auto. Qed.

Lemma preserves_modify (f : S -> S) :
  (forall s, P s -> P (f s)) -> preserves (modify f).
Proof. intros Hf s s' res H. injection H as <- _. auto. Qed.

Lemma preserves_when (b : bool) (c : stateful S unit) :
  preserves c -> preserves (when b c).
Proof. destruct b; simpl; auto using preserves_ret. Qed.

Lemma preserves_bind {A B : Type} (c : stateful S A) (k : A -> stateful S B) :
  preserves c -> (forall a, preserves (k a)) -> preserves (st_bind c k).
Proof.
  intros Hc Hk s s' res H Hs. unfold st_bind in H.
  destruct (c s) as [s1 [a|e]] eqn:Hcs.
  - eapply Hk; eauto.
  - injection H as <- _. eauto.
Qed.

Lemma preserves_for_each {A : Type} (l : list A) (body : A -> stateful S unit) :
  (forall x, preserves (body x)) -> preserves (st_for_each l body).
Proof.
  intros Hbody. induction l as [|x l IH]; simpl.
  - apply preserves_ret.
  - apply preserves_bind; auto.
Qed.

(** The computation returns the state it ends in. *)

Definition returns_state (c : stateful S S) : Prop :=
  forall s s' r, c s = (s', Ok r) -> r = s'.

Lemma returns_state_get : returns_state get.
Proof. intros s s' r H. injection H as <- <-. reflexivity. Qed.

Lemma returns_state_bind {A : Type} (c : stateful S A) (k : A -> stateful S S) :
  (forall a, returns_state (k a)) -> returns_state (st_bind c k).
Proof.
  intros Hk s s' r H. unfold st_bind in H.
  destruct (c s) as [s1 [a|e]]; [eapply Hk; eauto|discriminate].
Qed.

End Preservation.

Ltac preserves_steps :=
  repeat first
         [ apply preserves_bind; [|intros ?]
         | apply preserves_lift
         | apply preserves_get
         | apply preserves_ret
         | apply preserves_when
         | apply preserves_for_each; intros [? ?]
         | match goal with
           | |- preserves _ (if ?b then _ else _) => destruct b
           end ].

Ltac returns_state_steps :=
  repeat first
         [ apply returns_state_get
         | apply returns_state_bind; intros ?
         | match goal with
           | |- returns_state (if ?b then _ else _) => destruct b
           end ].

(** ** The platform-eligibility report *)

Definition google_consistent (r : google_results) : Prop :=
  g_valid r = negb (nonempty (g_issues r)).

Lemma google_consistent_fail (msg : string) (r : google_results) :
  google_consistent (g_fail msg r).
Proof.
  unfold google_consistent, g_fail. cbn [g_valid g_issues].
  destruct (g_issues r); reflexivity.
Qed.

Lemma google_check_consistent (i : nat) (entity : value) :
  preserves google_consistent (google_check_entity i entity).
Proof.
  unfold google_check_entity. preserves_steps;
    apply preserves_modify; intros; apply google_consistent_fail.
Qed.

Lemma google_body_consistent (schema : value) :
  preserves google_consistent (validate_with_google_body schema).
Proof.
  unfold validate_with_google_body. preserves_steps;
    try apply google_check_consistent;
    apply preserves_modify; intros s Hs;
    try apply google_consistent_fail; exact Hs.
Qed.

Lemma google_body_returns_state (schema : value) :
  returns_state (validate_with_google_body schema).
Proof. unfold validate_with_google_body. returns_state_steps. Qed.

(** The report of [validate_with_google] has [valid] true exactly when its
    [issues] are empty, on every path: the two early returns, the normal
    exit and the exception handler. *)
Theorem google_valid_iff_no_issues (schema : value) :
  exists r,
    validate_with_google schema = Ok r
    /\ g_valid r = negb (nonempty (g_issues r)).
Proof.
  unfold validate_with_google, run, try_except.
  destruct (validate_with_google_body schema initial_google)
    as [s [r|e]] eqn:Hbody.
  - exists r. split; [reflexivity|].
    rewrite (google_body_returns_state _ _ _ _ Hbody).
    apply (google_body_consistent _ _ _ _ Hbody). reflexivity.
  - eexists. split; [reflexivity|]. apply google_consistent_fail.
Qed.

Definition google_loop (start : nat) (l : list value)
  : stateful google_results unit :=
  st_for_each (enumerate_from start l)
              (fun '(i, entity) => google_check_entity i entity).

Lemma google_loop_ready (l : list value) :
  forallb google_ready l = true ->
  forall start s, google_loop start l s = (s, Ok tt).
Proof.
  unfold google_loop. induction l as [|x l IH]; intros Hl start s.
  - reflexivity.
  - simpl in Hl. apply andb_true_iff in Hl as [Hx Hl].
    cbn [enumerate_from st_for_each]. unfold st_bind.
    rewrite (google_ready_check start x s Hx). apply IH. exact Hl.
Qed.

Lemma google_body_ready (d : list (string * value)) (e : value)
      (l : list value) :
  lookup "@type" d = Some (VStr "FAQPage") ->
  lookup "mainEntity" d = Some (VList (e :: l)) ->
  forallb google_ready (e :: l) = true ->
  snd (validate_with_google_body (VDict d) initial_google)
  = Ok {| g_valid := true; g_issues := [];
          g_warnings :=
            [if Nat.leb 3 (List.length (e :: l))
             then "Schema is eligible for rich results"
             else "Schema may not be eligible for rich results"];
          rich_results := Nat.leb 3 (List.length (e :: l)) |}.
Proof.
  intros Hty Hmain Hready.
  unfold validate_with_google_body, st_bind, lift, ne_str.
  cbn [py_get]. rewrite Hty, Hmain.
  cbn [eq_str String.eqb Ascii.eqb Bool.eqb negb py_len py_iter].
  change (Nat.ltb (List.length (e :: l)) 1) with false. cbn iota.
  unfold enumerate.
  pose proof (google_loop_ready (e :: l) Hready 0 initial_google) as Hloop.
  unfold google_loop in Hloop. rewrite Hloop.
  cbn [get initial_google g_valid and_then bind].
  destruct (Nat.leb 3 (List.length (e :: l))); reflexivity.
Qed.

(** A document of type FAQPage whose entities all meet the requirements of
    the check (type "Question", a non-empty name, an answer mapping of type
    "Answer" with non-empty text) is reported valid without issues, and it
    is eligible for rich results exactly when it has at least 3 entities;
    the single warning says which. *)
Theorem google_ready_page (d : list (string * value)) (e : value)
        (l : list value) :
  lookup "@type" d = Some (VStr "FAQPage") ->
  lookup "mainEntity" d = Some (VList (e :: l)) ->
  forallb google_ready (e :: l) = true ->
  validate_with_google (VDict d)
  = Ok {| g_valid := true; g_issues := [];
          g_warnings :=
            [if Nat.leb 3 (List.length (e :: l))
             then "Schema is eligible for rich results"
             else "Schema may not be eligible for rich results"];
          rich_results := Nat.leb 3 (List.length (e :: l)) |}.
Proof.
  intros Hty Hmain Hready.
  pose proof (google_body_ready d e l Hty Hmain Hready) as Hbody.
  unfold validate_with_google, run, try_except.
  destruct (validate_with_google_body (VDict d) initial_google)
    as [s [r|e0]]; cbn [snd] in Hbody |- *.
  - exact Hbody.
  - discriminate Hbody.
Qed.

Lemma google_ready_page_witness :
  validate_with_google valid_schema
  = Ok {| g_valid := true; g_issues := [];
          g_warnings := ["Schema is eligible for rich results"];
          rich_results := true |}.
Proof.
  apply (google_ready_page
           [("@context", VStr "https://schema.org");
            ("@type", VStr "FAQPage");
            ("mainEntity", VList [q_services; q_schedule; q_hours])]
           q_services [q_schedule; q_hours]); reflexivity.
Defined.

(** An element whose answer cannot make the check raise: not a mapping, or
    a mapping whose [acceptedAnswer] is absent or a mapping *)

Definition answer_is_probed_safely (entity : value) : bool :=
  match entity with
  | VDict d =>
      match lookup "acceptedAnswer" d with
      | Some (VDict _) | None => true
      | Some _ => false
      end
  | _ => true
  end.

Lemma google_check_returns (i : nat) (entity : value) (s : google_results) :
  answer_is_probed_safely entity = true ->
  exists s', google_check_entity i entity s = (s', Ok tt).
Proof.
  intros Hsafe. unfold google_check_entity.
  destruct entity as [| | | | |d]; cbn [is_dict negb]; try (unfold modify; eauto).
  cbn [answer_is_probed_safely] in Hsafe.
  unfold st_bind, lift, when, modify, st_ret. cbn [py_get].
  destruct (ne_str _ "Question"), (negb (truthy _));
    destruct (lookup "acceptedAnswer" d) as [[| | | | |a]|];
    try discriminate Hsafe;
    cbn [is_dict negb or_else py_get bind lookup];
    repeat match goal with
           | |- context [if ?b then _ else _] => destruct b
           end; eauto.
Qed.

Definition issues_grew (s0 s : google_results) : Prop :=
  forall x, In x (g_issues s0) -> In x (g_issues s).

Lemma issues_grew_fail (s0 : google_results) (msg : string) (s : google_results) :
  issues_grew s0 s -> issues_grew s0 (g_fail msg s).
Proof.
  unfold issues_grew. intros H x Hx. cbn [g_fail g_issues].
  apply in_or_app. left. auto.
Qed.

Lemma google_check_grows (s0 : google_results) (i : nat) (entity : value) :
  preserves (issues_grew s0) (google_check_entity i entity).
Proof.
  unfold google_check_entity. preserves_steps;
    apply preserves_modify; intros; apply issues_grew_fail; assumption.
Qed.

Lemma google_loop_reports (l : list value) :
  forallb answer_is_probed_safely l = true ->
  forall i v start s,
    nth_error l i = Some v -> is_dict v = false ->
    exists s',
      google_loop start l s = (s', Ok tt)
      /\ In (google_msg (start + i) " is not properly formatted")
            (g_issues s').
Proof.
  unfold google_loop.
  induction l as [|x l IH]; intros Hl i v start s Hnth Hv.
  - destruct i; discriminate Hnth.
  - simpl in Hl. apply andb_true_iff in Hl as [Hx Hl].
    cbn [enumerate_from st_for_each]. unfold st_bind at 1.
    destruct i as [|i].
    + injection Hnth as ->. rewrite Nat.add_0_r.
      unfold google_check_entity at 1. rewrite Hv. cbn [negb modify].
      destruct (st_for_each (enumerate_from (S start) l)
                  (fun '(i, entity) => google_check_entity i entity)
                  (g_fail (google_msg start " is not properly formatted") s))
        as [s' res] eqn:Hrest.
      assert (Hgrow : issues_grew
                        (g_fail (google_msg start " is not properly formatted") s)
                        s').
      { eapply (preserves_for_each
                  (issues_grew
                     (g_fail (google_msg start " is not properly formatted") s)));
          [|exact Hrest|intros x Hin; exact Hin].
        intros [j e]. apply google_check_grows. }
      assert (Hok : exists s'', google_loop (S start) l
                                  (g_fail (google_msg start
                                             " is not properly formatted") s)
                                = (s'', Ok tt)).
      { clear -Hl. generalize (S start) as k.
        generalize (g_fail (google_msg start " is not properly formatted") s)
          as s1.
        unfold google_loop.
        induction l as [|y l IHl]; intros s1 k; [simpl; unfold st_ret; eauto|].
        simpl in Hl. apply andb_true_iff in Hl as [Hy Hl].
        cbn [enumerate_from st_for_each]. unfold st_bind.
        destruct (google_check_returns k y s1 Hy) as (s2 & ->).
        apply IHl. exact Hl. }
      destruct Hok as (s'' & Hok). unfold google_loop in Hok.
      rewrite Hok in Hrest. injection Hrest as <- <-.
      exists s''. split; [reflexivity|].
      apply Hgrow. cbn [g_fail g_issues]. apply in_or_app. right.
      simpl. auto.
    + simpl in Hnth.
      destruct (google_check_returns start x s Hx) as (s1 & ->).
      replace (start + S i) with (S start + i) by lia.
      apply (IH Hl i v (S start) s1 Hnth Hv).
Qed.

(** Elements of [mainEntity] that are not mappings do not stop the
    eligibility check: provided no mapping entity has an [acceptedAnswer]
    that is not a mapping, the check runs to its end, the element at
    position [i] is reported as "Question i+1 is not properly formatted",
    and the report is invalid, not eligible, with the one warning saying
    so. *)
Theorem google_reports_non_mappings (d : list (string * value))
        (l : list value) (i : nat) (v : value) :
  lookup "@type" d = Some (VStr "FAQPage") ->
  lookup "mainEntity" d = Some (VList l) ->
  forallb answer_is_probed_safely l = true ->
  nth_error l i = Some v -> is_dict v = false ->
  exists r,
    validate_with_google (VDict d) = Ok r
    /\ In (google_msg i " is not properly formatted") (g_issues r)
    /\ g_valid r = false
    /\ rich_results r = false
    /\ g_warnings r = ["Schema may not be eligible for rich results"].
Proof.
  intros Hty Hmain Hsafe Hnth Hv.
  destruct (google_loop_reports l Hsafe i v 0 initial_google Hnth Hv)
    as (s' & Hloop & Hin).
  assert (Hkeep : g_warnings s' = [] /\ rich_results s' = true).
  { unfold google_loop in Hloop.
    apply keeps_for_each in Hloop; [exact Hloop|].
    intros [j e]. apply keeps_check_entity. }
  assert (Hcons : google_consistent s').
  { unfold google_loop in Hloop.
    eapply (preserves_for_each google_consistent);
      [|exact Hloop|reflexivity].
    intros [j e]. apply google_check_consistent. }
  assert (Hvalid : g_valid s' = false).
  { rewrite Hcons. destruct (g_issues s'); [contradiction|reflexivity]. }
  destruct Hkeep as [Hw Hr].
  unfold validate_with_google, run, try_except, validate_with_google_body,
    st_bind, lift, ne_str.
  cbn [py_get]. rewrite Hty, Hmain.
  cbn [eq_str String.eqb Ascii.eqb Bool.eqb negb py_len py_iter].
  destruct l as [|x l]; [destruct i; discriminate Hnth|].
  change (Nat.ltb (List.length (x :: l)) 1) with false. cbn iota.
  unfold google_loop in Hloop. unfold enumerate. rewrite Hloop.
  cbn [get and_then bind]. rewrite Hvalid. cbn [and_then modify snd].
  eexists. split; [reflexivity|].
  cbn [g_eligibility g_issues g_valid rich_results g_warnings].
  rewrite Hw. auto.
Qed.

Lemma google_reports_non_mappings_witness :
  exists r,
    validate_with_google page_with_stray_entity = Ok r
    /\ In "Question 2 is not properly formatted" (g_issues r)
    /\ g_valid r = false.
Proof.
  destruct (google_reports_non_mappings
              [("@context", VStr "https://schema.org");
               ("@type", VStr "FAQPage");
               ("mainEntity", VList [q_services; VStr "not a dictionary"])]
              [q_services; VStr "not a dictionary"] 1
              (VStr "not a dictionary"))
    as (r & Hr & Hin & Hv & _); try reflexivity.
  exists r. split; [exact Hr|]. split; [exact Hin|exact Hv].
Defined.

(** ** The schema generator *)

Lemma lookup_dict_set_eq (key : string) (v : value) (d : list (string * value)) :
  lookup key (dict_set key v d) = Some v.
Proof.
  induction d as [|[k x] d IH]; simpl.
  - rewrite String.eqb_refl. reflexivity.
  - destruct (String.eqb k key) eqn:Hk; simpl; rewrite Hk; auto.
Qed.

Lemma lookup_dict_set_ne (k key : string) (v : value)
      (d : list (string * value)) :
  k <> key -> lookup k (dict_set key v d) = lookup k d.
Proof.
  intros Hne. induction d as [|[k' x] d IH]; simpl.
  - destruct (String.eqb_spec key k); [congruence|reflexivity].
  - destruct (String.eqb_spec k' key) as [->|Hk]; simpl.
    + destruct (String.eqb_spec key k); [congruence|reflexivity].
    + destruct (String.eqb k' k); auto.
Qed.

Lemma map_result_nth {A B : Type} (f : A -> result B) (l : list A) :
  forall ys i x,
    map_result f l = Ok ys -> nth_error l i = Some x ->
    exists y, nth_error ys i = Some y /\ f x = Ok y.
Proof.
  induction l as [|a l IH]; intros ys i x H Hnth.
  - destruct i; discriminate Hnth.
  - simpl in H. apply bind_ok in H as (y & Hy & H).
    apply bind_ok in H as (rest & Hrest & H). injection H as <-.
    destruct i as [|i]; simpl in Hnth.
    + injection Hnth as ->. exists y. auto.
    + simpl. eauto.
Qed.

(** What a created entity holds, whatever optional fields were added *)

Lemma create_question_entity_inv (faq entity : value) :
  SchemaGenerator._create_question_entity faq = Ok entity ->
  exists e q a,
    entity = VDict e
    /\ py_getitem faq "question" = Ok q
    /\ py_getitem faq "answer" = Ok a
    /\ lookup "@type" e = Some (VStr "Question")
    /\ lookup "name" e = Some q
    /\ lookup "acceptedAnswer" e
       = Some (VDict [("@type", VStr "Answer"); ("text", a)]).
Proof.
  unfold SchemaGenerator._create_question_entity. intros H.
  apply bind_ok in H as (q & Hq & H). apply bind_ok in H as (a & Ha & H).
  apply bind_ok in H as (category & _ & H).
  apply bind_ok in H as (e1 & He1 & H).
  apply bind_ok in H as (keywords & _ & H).
  assert (H1 : lookup "@type" e1 = Some (VStr "Question")
               /\ lookup "name" e1 = Some q
               /\ lookup "acceptedAnswer" e1
                  = Some (VDict [("@type", VStr "Answer"); ("text", a)])).
  { destruct (truthy category).
    - apply bind_ok in He1 as (name & _ & He1). injection He1 as <-.
      repeat split; reflexivity.
    - injection He1 as <-. repeat split; reflexivity. }
  destruct (truthy keywords).
  - apply bind_ok in H as (items & _ & H).
    apply bind_ok in H as (joined & _ & H). injection H as <-.
    eexists _, q, a. split; [reflexivity|].
    rewrite !lookup_dict_set_ne by discriminate. auto.
  - injection H as <-. eexists _, q, a. split; [reflexivity|]. auto.
Qed.

Lemma bind_keywords_ok (fname p : string) (kwargs : list (string * value)) :
  has_key "self" kwargs = false ->
  has_key p kwargs = false ->
  SchemaGenerator.bind_keywords fname ["self"; p] kwargs = Ok tt.
Proof.
  unfold SchemaGenerator.bind_keywords, has_key.
  induction kwargs as [|[k v] kwargs IH]; [reflexivity|].
  cbn [lookup find fst existsb].
  destruct (String.eqb k "self"); [discriminate|].
  destruct (String.eqb k p); [discriminate|]. exact IH.
Qed.

Lemma generate_schema_inv (faqs : value) (kwargs : list (string * value))
      (now : string) (schema : value) :
  SchemaGenerator.generate_schema faqs kwargs now = SchemaGenerator.Returned schema ->
  exists d items entities,
    schema = VDict d
    /\ py_iter faqs = Ok items
    /\ map_result SchemaGenerator._create_question_entity items = Ok entities
    /\ items <> []
    /\ lookup "@context" d = Some (VStr "https://schema.org")
    /\ lookup "@type" d = Some (VStr "FAQPage")
    /\ lookup "mainEntity" d = Some (VList entities)
    /\ lookup "dateCreated" d = Some (VStr now).
Proof.
  unfold SchemaGenerator.generate_schema. intros H.
  destruct (SchemaGenerator.bind_keywords _ _ kwargs); [|discriminate H].
  destruct (truthy faqs) eqn:Htruthy; [|discriminate H]. cbn [negb] in H.
  match type of H with
  | match ?c with _ => _ end = _ => destruct c as [s|e] eqn:Hc
  end; [|discriminate H].
  injection H as <-.
  apply bind_ok in Hc as (items & Hiter & Hc).
  apply bind_ok in Hc as (entities & Hent & Hc).
  apply bind_ok in Hc as (n & _ & Hc). injection Hc as <-.
  eexists _, items, entities. split; [reflexivity|].
  repeat (split; [assumption|]).
  split.
  { intros ->. destruct faqs as [| | |s|l|d]; try discriminate Hiter;
      simpl in Hiter, Htruthy.
    - destruct s; [discriminate Htruthy|discriminate Hiter].
    - injection Hiter as ->. discriminate Htruthy.
    - destruct d; [discriminate Htruthy|discriminate Hiter]. }
  rewrite lookup_dict_set_eq.
  rewrite !(lookup_dict_set_ne _ "dateCreated") by discriminate.
  destruct (truthy match lookup "title" kwargs with
                   | Some x => x
                   | None => VNone
                   end),
    (truthy match lookup "description" kwargs with
            | Some x => x
            | None => VNone
            end),
    (truthy match lookup "url" kwargs with
            | Some x => x
            | None => VNone
            end);
    repeat split; reflexivity.
Qed.

(** A schema that [generate_schema] returns is a mapping with [@context]
    "https://schema.org", [@type] "FAQPage", the time stamp as
    [dateCreated], and one entity per FAQ in the order given: the entity at
    position [i] is a "Question" whose [name] is the FAQ's question and
    whose [acceptedAnswer] is an "Answer" with the FAQ's answer as text. *)
Theorem generated_schema_keeps_faqs (faqs : value)
        (kwargs : list (string * value)) (now : string) (schema : value) :
  SchemaGenerator.generate_schema faqs kwargs now
  = SchemaGenerator.Returned schema ->
  exists d items entities,
    schema = VDict d
    /\ py_iter faqs = Ok items
    /\ lookup "@context" d = Some (VStr "https://schema.org")
    /\ lookup "@type" d = Some (VStr "FAQPage")
    /\ lookup "dateCreated" d = Some (VStr now)
    /\ lookup "mainEntity" d = Some (VList entities)
    /\ List.length entities = List.length items
    /\ 1 <= List.length items
    /\ forall i faq,
        nth_error items i = Some faq ->
        exists e q a,
          nth_error entities i = Some (VDict e)
          /\ py_getitem faq "question" = Ok q
          /\ py_getitem faq "answer" = Ok a
          /\ lookup "@type" e = Some (VStr "Question")
          /\ lookup "name" e = Some q
          /\ lookup "acceptedAnswer" e
             = Some (VDict [("@type", VStr "Answer"); ("text", a)]).
Proof.
  intros H.
  apply generate_schema_inv in H
    as (d & items & entities & -> & Hiter & Hent & Hne & Hc & Ht & Hm & Hd).
  exists d, items, entities. repeat (split; [assumption || reflexivity|]).
  split; [apply (map_result_length _ _ _ Hent)|].
  split; [destruct items; [contradiction|simpl; lia]|].
  intros i faq Hnth.
  destruct (map_result_nth _ _ _ _ _ Hent Hnth) as (entity & Hi & Hcreate).
  apply create_question_entity_inv in Hcreate
    as (e & q & a & -> & Hq & Ha & H1 & H2 & H3).
  exists e, q, a. auto 10.
Qed.

Definition sample_faqs : value :=
  VList [VDict [("question", VStr "What services do you offer?");
                ("answer", VStr "We provide comprehensive dental care including cleanings, fillings, and cosmetic procedures.");
                ("category", VStr "Services");
                ("keywords", VList [VStr "services"; VStr "dental"])];
         VDict [("question", VStr "How do I schedule an appointment?");
                ("answer", VStr "You can schedule an appointment by calling our office or using our online booking system.")]].

Lemma generated_schema_keeps_faqs_witness :
  exists schema d,
    SchemaGenerator.generate_schema sample_faqs [("title", VStr "FAQ")]
                                    "2026-01-01T00:00:00"
    = SchemaGenerator.Returned schema
    /\ schema = VDict d
    /\ lookup "dateCreated" d = Some (VStr "2026-01-01T00:00:00").
Proof.
  assert (Hrun : exists s,
             SchemaGenerator.generate_schema sample_faqs
               [("title", VStr "FAQ")] "2026-01-01T00:00:00"
             = SchemaGenerator.Returned s)
    by (eexists; vm_compute; reflexivity).
  destruct Hrun as (s & Hrun).
  destruct (generated_schema_keeps_faqs _ _ _ _ Hrun)
    as (d & items & entities & Hs & _ & _ & _ & Hd & _).
  exists s, d. split; [exact Hrun|]. split; [exact Hs|exact Hd].
Defined.

(** ** From FAQs to a valid schema *)

Definition is_str (v : value) : bool :=
  match v with VStr _ => true | _ => false end.

(** Keywords, where a FAQ has any, are a list of strings. *)

Definition keywords_ok (v : option value) : bool :=
  match v with
  | None => true
  | Some k =>
      negb (truthy k)
      || match k with
         | VList ks => forallb is_str ks
         | _ => false
         end
  end.

(** A FAQ with a non-blank question and a non-blank answer *)

Definition faq_ready (faq : value) : bool :=
  match faq with
  | VDict f =>
      nonblank_string (lookup "question" f)
      && nonblank_string (lookup "answer" f)
      && keywords_ok (lookup "keywords" f)
  | _ => false
  end.

Lemma join_items_strings (ks : list value) :
  forallb is_str ks = true ->
  forall i, exists strs, join_items i ks = Ok strs.
Proof.
  induction ks as [|k ks IH]; simpl; intros H i; [eauto|].
  apply andb_true_iff in H as [Hk Hks].
  destruct k; try discriminate Hk.
  destruct (IH Hks (S i)) as (strs & ->). simpl. eauto.
Qed.

Lemma create_question_entity_ready (faq : value) :
  faq_ready faq = true ->
  exists e,
    SchemaGenerator._create_question_entity faq = Ok (VDict e)
    /\ well_formed_question (VDict e) = true.
Proof.
  intros Hready.
  assert (Hret : exists entity,
             SchemaGenerator._create_question_entity faq = Ok entity).
  { destruct faq as [| | | | |f]; try discriminate Hready.
    cbn [faq_ready] in Hready.
    apply andb_true_iff in Hready as [Hready Hkw].
    apply andb_true_iff in Hready as [Hq Ha].
    unfold SchemaGenerator._create_question_entity.
    cbn [py_getitem py_get].
    destruct (lookup "question" f) as [q|]; [|discriminate Hq].
    destruct (lookup "answer" f) as [a|]; [|discriminate Ha].
    cbn [bind].
    destruct (lookup "category" f) as [c|]; cbn [truthy bind];
      [destruct (truthy c); cbn [bind]|];
      (destruct (lookup "keywords" f) as [k|]; cbn [truthy bind];
       [|eauto]);
      (destruct (truthy k) eqn:Hk; cbn [bind]; [|eauto]);
      cbn [keywords_ok negb orb] in Hkw; rewrite Hk in Hkw;
      cbn [negb orb] in Hkw;
      (destruct k as [| | | |ks|]; try discriminate Hkw);
      unfold py_join; cbn [py_iter];
      destruct (join_items_strings ks Hkw 0) as (strs & ->);
      cbn [bind]; eauto. }
  destruct Hret as (entity & Hcreate).
  destruct (create_question_entity_inv _ _ Hcreate)
    as (e & q & a & -> & Hq & Ha & Hty & Hname & Hans).
  exists e. split; [exact Hcreate|].
  destruct faq as [| | | | |f]; try discriminate Hready.
  cbn [faq_ready] in Hready.
  apply andb_true_iff in Hready as [Hready _].
  apply andb_true_iff in Hready as [Hrq Hra].
  cbn [py_getitem] in Hq, Ha.
  destruct (lookup "question" f) as [q'|]; [|discriminate Hq].
  destruct (lookup "answer" f) as [a'|]; [|discriminate Ha].
  injection Hq as ->. injection Ha as ->.
  cbn [well_formed_question]. unfold field_or_none.
  rewrite Hty, Hname, Hans. cbn [well_formed_answer field_or_none lookup].
  unfold field_or_none. cbn [lookup String.eqb Ascii.eqb Bool.eqb eq_str].
  rewrite Hrq, Hra. reflexivity.
Qed.

Lemma create_entities_ready (items : list value) :
  forallb faq_ready items = true ->
  exists entities,
    map_result SchemaGenerator._create_question_entity items = Ok entities
    /\ forallb well_formed_question entities = true.
Proof.
  induction items as [|faq items IH]; simpl; intros H; [eauto|].
  apply andb_true_iff in H as [Hfaq Hitems].
  destruct (create_question_entity_ready faq Hfaq) as (e & -> & He).
  destruct (IH Hitems) as (entities & -> & Hent).
  cbn [bind]. exists (VDict e :: entities). split; [reflexivity|].
  cbn [forallb]. rewrite He, Hent. reflexivity.
Qed.

Lemma generated_schema_well_formed (faq : value) (items : list value)
      (kwargs : list (string * value)) (now : string) :
  has_key "self" kwargs = false ->
  has_key "faqs" kwargs = false ->
  forallb faq_ready (faq :: items) = true ->
  exists d entities,
    SchemaGenerator.generate_schema (VList (faq :: items)) kwargs now
    = SchemaGenerator.Returned (VDict d)
    /\ lookup "@type" d = Some (VStr "FAQPage")
    /\ lookup "mainEntity" d = Some (VList entities)
    /\ List.length entities = S (List.length items)
    /\ forallb well_formed_question entities = true
    /\ well_formed_page (VDict d) = true.
Proof.
  intros Hself Hfaqs Hready.
  destruct (create_entities_ready _ Hready) as (entities & Hent & Hwf).
  assert (Hrun : exists schema,
             SchemaGenerator.generate_schema (VList (faq :: items)) kwargs now
             = SchemaGenerator.Returned schema).
  { unfold SchemaGenerator.generate_schema.
    rewrite (bind_keywords_ok _ _ _ Hself Hfaqs).
    cbn [truthy negb py_iter bind]. rewrite Hent. cbn [bind py_len]. eauto. }
  destruct Hrun as (schema & Hrun).
  destruct (generate_schema_inv _ _ _ _ Hrun)
    as (d & items' & entities' & -> & Hiter & Hent' & _ & Hc & Ht & Hm & _).
  injection Hiter as <-. rewrite Hent in Hent'. injection Hent' as <-.
  exists d, entities. split; [exact Hrun|]. split; [exact Ht|].
  split; [exact Hm|].
  pose proof (map_result_length _ _ _ Hent) as Hlen. simpl in Hlen.
  split; [exact Hlen|]. split; [exact Hwf|].
  cbn [well_formed_page]. unfold has_key, field_or_none.
  rewrite Hc, Ht, Hm. destruct entities as [|e es]; [discriminate Hlen|].
  exact Hwf.
Qed.

(** The pipeline of the callers: for a non-empty list of FAQs that each
    have a non-blank question and a non-blank answer (and keywords, if any,
    that are a list of strings), [generate_schema] returns a schema, for
    any keyword arguments other than its own parameter names [self] and
    [faqs] and for any time stamp, and [validate_schema] reports it valid,
    without issues. *)
Theorem generated_schema_is_valid (faq : value) (items : list value)
        (kwargs : list (string * value)) (now : string) :
  has_key "self" kwargs = false ->
  has_key "faqs" kwargs = false ->
  forallb faq_ready (faq :: items) = true ->
  exists schema r,
    SchemaGenerator.generate_schema (VList (faq :: items)) kwargs now
    = SchemaGenerator.Returned schema
    /\ validate_schema schema = Ok r
    /\ valid r = true
    /\ issues r = [].
Proof.
  intros Hself Hfaqs Hready.
  destruct (generated_schema_well_formed faq items kwargs now
              Hself Hfaqs Hready)
    as (d & entities & Hrun & _ & _ & _ & _ & Hwf).
  destruct (well_formed_passes _ Hwf)
    as (st & c & o & Hst & Hc & Ho & Hv & Hi & Hci).
  exists (VDict d). eexists. split; [exact Hrun|].
  split; [apply (validate_schema_merge _ _ _ _ Hst Hc Ho)|].
  cbn [valid issues]. rewrite Hi, Hci. auto.
Qed.

Lemma generated_schema_is_valid_witness :
  exists schema r,
    SchemaGenerator.generate_schema sample_faqs
      [("title", VStr "Frequently asked questions")] "2026-01-01T00:00:00"
    = SchemaGenerator.Returned schema
    /\ validate_schema schema = Ok r
    /\ valid r = true.
Proof.
  destruct (generated_schema_is_valid
              (VDict [("question", VStr "What services do you offer?");
                      ("answer", VStr "We provide comprehensive dental care including cleanings, fillings, and cosmetic procedures.");
                      ("category", VStr "Services");
                      ("keywords", VList [VStr "services"; VStr "dental"])])
              [VDict [("question", VStr "How do I schedule an appointment?");
                      ("answer", VStr "You can schedule an appointment by calling our office or using our online booking system.")]]
              [("title", VStr "Frequently asked questions")]
              "2026-01-01T00:00:00")
    as (schema & r & Hrun & Hr & Hv & _).
  - reflexivity.
  - reflexivity.
  - reflexivity.
  - exists schema, r. split; [exact Hrun|]. split; [exact Hr|exact Hv].
Defined.

Lemma nonblank_is_truthy (v : option value) :
  nonblank_string v = true ->
  truthy (match v with Some x => x | None => VNone end) = true.
Proof.
  destruct v as [[| | |s| |]|]; try discriminate. simpl.
  destruct s; [discriminate|reflexivity].
Qed.

Lemma well_formed_is_google_ready (l : list value) :
  forallb well_formed_question l = true -> forallb google_ready l = true.
Proof.
  induction l as [|x l IH]; simpl; [auto|].
  intros H. apply andb_true_iff in H as [Hx Hl]. rewrite (IH Hl).
  destruct x as [| | | | |d]; try discriminate Hx.
  cbn [well_formed_question] in Hx.
  apply andb_true_iff in Hx as [Hx Hans].
  apply andb_true_iff in Hx as [Hty Hname].
  cbn [google_ready]. rewrite Hty. unfold field_or_none at 1.
  rewrite (nonblank_is_truthy _ Hname).
  unfold well_formed_answer in Hans.
  destruct (lookup "acceptedAnswer" d) as [[| | | | |a]|];
    try discriminate Hans.
  apply andb_true_iff in Hans as [Haty Htext]. rewrite Haty.
  unfold field_or_none. rewrite (nonblank_is_truthy _ Htext). reflexivity.
Qed.

(** The same pipeline through the eligibility check, again for keyword
    arguments other than [self] and [faqs]: the generated schema is
    reported valid without issues, and eligible for rich results exactly
    when at least 3 FAQs were given. *)
Theorem generated_schema_eligibility (faq : value) (items : list value)
        (kwargs : list (string * value)) (now : string) :
  has_key "self" kwargs = false ->
  has_key "faqs" kwargs = false ->
  forallb faq_ready (faq :: items) = true ->
  exists schema r,
    SchemaGenerator.generate_schema (VList (faq :: items)) kwargs now
    = SchemaGenerator.Returned schema
    /\ validate_with_google schema = Ok r
    /\ g_valid r = true
    /\ g_issues r = []
    /\ rich_results r = Nat.leb 3 (List.length (faq :: items)).
Proof.
  intros Hself Hfaqs Hready.
  destruct (generated_schema_well_formed faq items kwargs now
              Hself Hfaqs Hready)
    as (d & entities & Hrun & Ht & Hm & Hlen & Hwf & _).
  destruct entities as [|e es]; [discriminate Hlen|].
  exists (VDict d). eexists. split; [exact Hrun|].
  pose proof (google_body_ready d e es Ht Hm
                (well_formed_is_google_ready _ Hwf)) as Hbody.
  split.
  { unfold validate_with_google, run, try_except.
    destruct (validate_with_google_body (VDict d) initial_google)
      as [s [r|e0]]; cbn [snd] in Hbody |- *;
      [exact Hbody|discriminate Hbody]. }
  cbn [g_valid g_issues rich_results]. rewrite Hlen. auto.
Qed.

Lemma generated_schema_eligibility_witness :
  exists schema r,
    SchemaGenerator.generate_schema sample_faqs [] "2026-01-01T00:00:00"
    = SchemaGenerator.Returned schema
    /\ validate_with_google schema = Ok r
    /\ rich_results r = false.
Proof.
  destruct (generated_schema_eligibility
              (VDict [("question", VStr "What services do you offer?");
                      ("answer", VStr "We provide comprehensive dental care including cleanings, fillings, and cosmetic procedures.");
                      ("category", VStr "Services");
                      ("keywords", VList [VStr "services"; VStr "dental"])])
              [VDict [("question", VStr "How do I schedule an appointment?");
                      ("answer", VStr "You can schedule an appointment by calling our office or using our online booking system.")]]
              [] "2026-01-01T00:00:00")
    as (schema & r & Hrun & Hr & _ & _ & Hrich).
  - reflexivity.
  - reflexivity.
  - reflexivity.
  - exists schema, r. split; [exact Hrun|]. split; [exact Hr|exact Hrich].
Defined.

(** ** The generator's own validation *)

Definition generator_consistent (r : SchemaGenerator.report) : Prop :=
  SchemaGenerator.v_valid r
  = negb (nonempty (SchemaGenerator.v_issues r)).

Lemma generator_consistent_fail (msg : string) (r : SchemaGenerator.report) :
  generator_consistent (SchemaGenerator.v_fail msg r).
Proof.
  unfold generator_consistent, SchemaGenerator.v_fail.
  cbn [SchemaGenerator.v_valid SchemaGenerator.v_issues].
  destruct (SchemaGenerator.v_issues r); reflexivity.
Qed.

Lemma generator_check_consistent (i : nat) (entity : value) :
  preserves generator_consistent (SchemaGenerator.check_entity i entity).
Proof.
  unfold SchemaGenerator.check_entity. preserves_steps;
    apply preserves_modify; intros; apply generator_consistent_fail.
Qed.

Lemma generator_body_consistent (schema : value) :
  preserves generator_consistent (SchemaGenerator.validate_schema_body schema).
Proof.
  unfold SchemaGenerator.validate_schema_body. preserves_steps;
    try apply generator_check_consistent;
    apply preserves_modify; intros s Hs;
    try apply generator_consistent_fail; exact Hs.
Qed.

Lemma generator_body_returns_state (schema : value) :
  returns_state (SchemaGenerator.validate_schema_body schema).
Proof. unfold SchemaGenerator.validate_schema_body. returns_state_steps. Qed.

(** The report of [SchemaGenerator.validate_schema] has [valid] true
    exactly when its [issues] are empty, for every input and on the
    exception path as well. *)
Theorem generator_valid_iff_no_issues (schema : value) :
  exists r,
    SchemaGenerator.validate_schema schema = Ok r
    /\ SchemaGenerator.v_valid r
       = negb (nonempty (SchemaGenerator.v_issues r)).
Proof.
  unfold SchemaGenerator.validate_schema, run, try_except.
  destruct (SchemaGenerator.validate_schema_body
              schema SchemaGenerator.initial_report)
    as [s [r|e]] eqn:Hbody.
  - exists r. split; [reflexivity|].
    rewrite (generator_body_returns_state _ _ _ _ Hbody).
    apply (generator_body_consistent _ _ _ _ Hbody). reflexivity.
  - eexists. split; [reflexivity|].
    unfold SchemaGenerator.validate_schema_handler, st_bind, modify, get.
    cbn [snd SchemaGenerator.v_valid SchemaGenerator.v_issues].
    destruct (SchemaGenerator.v_issues s); reflexivity.
Qed.

Lemma generator_check_ready (i : nat) (entity : value)
      (s : SchemaGenerator.report) :
  well_formed_question entity = true ->
  SchemaGenerator.check_entity i entity s = (s, Ok tt).
Proof.
  destruct entity as [| | | | |d]; try discriminate.
  cbn [well_formed_question]. intros H.
  apply andb_true_iff in H as [H Hans]. apply andb_true_iff in H as [Hty Hname].
  unfold SchemaGenerator.check_entity, st_bind, lift, when, ne_str.
  cbn [is_dict negb py_get py_in py_getitem]. unfold has_key.
  fold (field_or_none "@type" d). rewrite Hty. cbn [negb st_ret].
  destruct (lookup "name" d) as [n|]; [|discriminate Hname].
  unfold well_formed_answer in Hans.
  destruct (lookup "acceptedAnswer" d) as [[| | | | |a]|];
    try discriminate Hans.
  apply andb_true_iff in Hans as [Haty Htext].
  cbn [negb st_ret is_dict py_get py_in]. unfold has_key.
  fold (field_or_none "@type" a). rewrite Haty. cbn [negb].
  destruct (lookup "text" a); [reflexivity|discriminate Htext].
Qed.

Lemma generator_loop_ready (l : list value) :
  forallb well_formed_question l = true ->
  forall start s,
    st_for_each (enumerate_from start l)
                (fun '(i, entity) => SchemaGenerator.check_entity i entity) s
    = (s, Ok tt).
Proof.
  induction l as [|x l IH]; intros Hl start s; [reflexivity|].
  simpl in Hl. apply andb_true_iff in Hl as [Hx Hl].
  cbn [enumerate_from st_for_each]. unfold st_bind.
  rewrite (generator_check_ready start x s Hx). apply IH. exact Hl.
Qed.

Lemma generator_accepts_well_formed (schema : value) :
  well_formed_page schema = true ->
  exists g,
    SchemaGenerator.validate_schema schema = Ok g
    /\ SchemaGenerator.v_valid g = true
    /\ SchemaGenerator.v_issues g = [].
Proof.
  destruct schema as [| | | | |d]; try discriminate.
  cbn [well_formed_page]. intros H.
  apply andb_true_iff in H as [H Hmain]. apply andb_true_iff in H as [Hc Ht].
  unfold SchemaGenerator.validate_schema, run, try_except,
    SchemaGenerator.validate_schema_body, st_bind, lift, when, ne_str.
  cbn [py_in py_get]. rewrite Hc. fold (field_or_none "@type" d). rewrite Ht.
  unfold has_key, field_or_none in *.
  destruct (lookup "@type" d); [|discriminate Ht].
  destruct (lookup "mainEntity" d) as [[| | | |[|e l]|]|];
    try discriminate Hmain.
  cbn [negb st_ret is_list py_iter py_len]. unfold enumerate.
  rewrite (generator_loop_ready (e :: l) Hmain).
  unfold modify, get, st_ret.
  destruct (Nat.ltb (List.length (e :: l)) 3),
    (Nat.ltb 10 (List.length (e :: l)));
    cbn [snd]; eexists; (split; [reflexivity|]); auto.
Qed.

(** Every document that [SchemaValidator.validate_schema] reports valid is
    reported valid, without issues, by [SchemaGenerator.validate_schema]
    too: the validator is the stricter of the two checks. *)
Theorem validator_valid_implies_generator_valid (schema : value) (r : report) :
  validate_schema schema = Ok r ->
  valid r = true ->
  exists g,
    SchemaGenerator.validate_schema schema = Ok g
    /\ SchemaGenerator.v_valid g = true
    /\ SchemaGenerator.v_issues g = [].
Proof.
  intros Hr Hv.
  destruct (validate_schema_valid_inv _ _ Hr Hv)
    as (st & c & o & Hst & _ & _ & Hnil).
  apply app_eq_nil in Hnil as [Hnil _].
  apply generator_accepts_well_formed.
  exact (structure_sound _ _ Hst Hnil).
Qed.

Lemma validator_valid_implies_generator_valid_witness :
  exists g,
    SchemaGenerator.validate_schema valid_schema = Ok g
    /\ SchemaGenerator.v_valid g = true.
Proof.
  assert (Hrun : exists r, validate_schema valid_schema = Ok r
                           /\ valid r = true)
    by (eexists; split; vm_compute; reflexivity).
  destruct Hrun as (r & Hr & Hv).
  destruct (validator_valid_implies_generator_valid valid_schema r Hr Hv)
    as (g & Hg & Hgv & _).
  exists g. split; [exact Hg|exact Hgv].
Defined.

(** The converse fails: a blank question is accepted by the generator's
    check and rejected by the validator. *)
Example generator_check_is_weaker :
  let page := faq_page [question_of "   " "We provide comprehensive dental care."] in
  (exists g, SchemaGenerator.validate_schema page = Ok g
             /\ SchemaGenerator.v_valid g = true)
  /\ (exists r, validate_schema page = Ok r /\ valid r = false).
Proof.
  split; eexists; (split; [vm_compute; reflexivity|reflexivity]).
Qed.

(** ** Metadata and validity *)

Section SameCoreFields.

Variables d d' : list (string * value).
Hypothesis same_context : lookup "@context" d' = lookup "@context" d.
Hypothesis same_type : lookup "@type" d' = lookup "@type" d.
Hypothesis same_main : lookup "mainEntity" d' = lookup "mainEntity" d.

Lemma structure_depends :
  _validate_structure (VDict d') = _validate_structure (VDict d).
Proof.
  rewrite !structure_dict_top.
  unfold top_results, top_issues, top_warnings, has_key.
  rewrite same_context, same_type, same_main. reflexivity.
Qed.

Lemma content_depends :
  _validate_content (VDict d') = _validate_content (VDict d).
Proof.
  unfold _validate_content. cbn [py_get bind]. rewrite same_main. reflexivity.
Qed.

Lemma seo_depends :
  match _validate_seo_practices (VDict d'), _validate_seo_practices (VDict d) with
  | Ok o', Ok o => o_warnings o' = o_warnings o
  | Raise e', Raise e => e' = e
  | _, _ => False
  end.
Proof.
  unfold _validate_seo_practices. cbn [py_in py_get bind]. rewrite same_main.
  destruct (py_len match lookup "mainEntity" d with
                   | Some x => x
                   | None => VList []
                   end) as [n|e]; cbn [bind]; [|reflexivity].
  destruct (question_names match lookup "mainEntity" d with
                           | Some x => x
                           | None => VList []
                           end) as [qs|e]; cbn [bind]; [|reflexivity].
  assert (Hw : forall b1 b2 b1' b2' : bool,
             o_warnings
               (if Nat.ltb n 3
                then o_warning
                       (if b2 then o_suggestion
                                     (if b1 then o_suggestion (mkSeo [] []) "Consider adding a 'name' field for the FAQ page" else mkSeo [] [])
                                     "Consider adding a 'description' field for better SEO"
                        else if b1 then o_suggestion (mkSeo [] []) "Consider adding a 'name' field for the FAQ page" else mkSeo [] [])
                       "FAQ pages should have at least 3 questions for best SEO results"
                else if Nat.ltb 10 n
                then o_warning
                       (if b2 then o_suggestion
                                     (if b1 then o_suggestion (mkSeo [] []) "Consider adding a 'name' field for the FAQ page" else mkSeo [] [])
                                     "Consider adding a 'description' field for better SEO"
                        else if b1 then o_suggestion (mkSeo [] []) "Consider adding a 'name' field for the FAQ page" else mkSeo [] [])
                       "Consider limiting to 10 questions to avoid overwhelming users"
                else if b2 then o_suggestion
                                  (if b1 then o_suggestion (mkSeo [] []) "Consider adding a 'name' field for the FAQ page" else mkSeo [] [])
                                  "Consider adding a 'description' field for better SEO"
                     else if b1 then o_suggestion (mkSeo [] []) "Consider adding a 'name' field for the FAQ page" else mkSeo [] [])
             = o_warnings
                 (if Nat.ltb n 3
                  then o_warning
                         (if b2' then o_suggestion
                                        (if b1' then o_suggestion (mkSeo [] []) "Consider adding a 'name' field for the FAQ page" else mkSeo [] [])
                                        "Consider adding a 'description' field for better SEO"
                          else if b1' then o_suggestion (mkSeo [] []) "Consider adding a 'name' field for the FAQ page" else mkSeo [] [])
                         "FAQ pages should have at least 3 questions for best SEO results"
                  else if Nat.ltb 10 n
                  then o_warning
                         (if b2' then o_suggestion
                                        (if b1' then o_suggestion (mkSeo [] []) "Consider adding a 'name' field for the FAQ page" else mkSeo [] [])
                                        "Consider adding a 'description' field for better SEO"
                          else if b1' then o_suggestion (mkSeo [] []) "Consider adding a 'name' field for the FAQ page" else mkSeo [] [])
                         "Consider limiting to 10 questions to avoid overwhelming users"
                  else if b2' then o_suggestion
                                     (if b1' then o_suggestion (mkSeo [] []) "Consider adding a 'name' field for the FAQ page" else mkSeo [] [])
                                     "Consider adding a 'description' field for better SEO"
                       else if b1' then o_suggestion (mkSeo [] []) "Consider adding a 'name' field for the FAQ page" else mkSeo [] []))
    by (intros [] [] [] []; destruct (Nat.ltb n 3), (Nat.ltb 10 n);
        reflexivity).
  destruct (nonempty qs); [|apply Hw].
  match goal with
  | |- context [bind ?loop _] => destruct loop as [pc|e]
  end; cbn [bind]; [|reflexivity].
  destruct (below_fraction pc 1 2 (List.length qs));
    cbn [o_suggestion o_warnings]; apply Hw.
Qed.

Lemma report_depends :
  exists r r',
    validate_schema (VDict d) = Ok r
    /\ validate_schema (VDict d') = Ok r'
    /\ valid r' = valid r
    /\ issues r' = issues r
    /\ warnings r' = warnings r.
Proof.
  unfold validate_schema, run, try_except, validate_schema_body,
    validate_schema_handler, st_bind, lift, modify, get, when, st_ret.
  rewrite structure_depends, content_depends.
  pose proof seo_depends as Hseo.
  destruct (_validate_structure (VDict d)) as [st|e1],
    (_validate_content (VDict d)) as [c|e2],
    (_validate_seo_practices (VDict d')) as [o'|e'],
    (_validate_seo_practices (VDict d)) as [o|e];
    try contradiction; try subst e'; cbn;
    try (eexists; eexists; repeat split; reflexivity).
  destruct (nonempty (s_issues st ++ c_issues c)); cbn;
    eexists; eexists; repeat split; cbn; congruence.
Qed.

End SameCoreFields.

Lemma add_metadata_dict (d metadata : list (string * value)) :
  has_key "self" metadata = false ->
  has_key "schema" metadata = false ->
  exists d',
    SchemaGenerator.add_metadata (VDict d) metadata = Ok (VDict d')
    /\ lookup "@context" d' = lookup "@context" d
    /\ lookup "@type" d' = lookup "@type" d
    /\ lookup "mainEntity" d' = lookup "mainEntity" d.
Proof.
  intros Hself Hschema. unfold SchemaGenerator.add_metadata.
  rewrite (bind_keywords_ok _ _ _ Hself Hschema). cbn [bind].
  destruct (has_key "title" metadata), (has_key "description" metadata),
    (has_key "url" metadata), (has_key "author" metadata),
    (has_key "publisher" metadata), (has_key "dateModified" metadata);
    cbn [py_setitem bind];
    (eexists; split; [reflexivity|]);
    rewrite ?lookup_dict_set_ne by discriminate; auto.
Qed.

(** [add_metadata] on a mapping, called with keywords other than its own
    parameter names [self] and [schema], returns, and the metadata it
    stores (name, description, url, author, publisher, dateModified) never
    changes what [validate_schema] decides: validity, issues and warnings
    are the same before and after. *)
Theorem metadata_keeps_validity (d metadata : list (string * value)) :
  has_key "self" metadata = false ->
  has_key "schema" metadata = false ->
  exists d' r r',
    SchemaGenerator.add_metadata (VDict d) metadata = Ok (VDict d')
    /\ validate_schema (VDict d) = Ok r
    /\ validate_schema (VDict d') = Ok r'
    /\ valid r' = valid r
    /\ issues r' = issues r
    /\ warnings r' = warnings r.
Proof.
  intros Hself Hschema.
  destruct (add_metadata_dict d metadata Hself Hschema)
    as (d' & Hadd & Hc & Ht & Hm).
  destruct (report_depends d d' Hc Ht Hm) as (r & r' & Hr & Hr' & H).
  exists d', r, r'. auto.
Qed.

Lemma metadata_keeps_validity_witness :
  exists d' r r',
    SchemaGenerator.add_metadata
      valid_schema
      [("title", VStr "Frequently asked questions");
       ("author", VStr "Front desk")]
    = Ok (VDict d')
    /\ validate_schema valid_schema = Ok r
    /\ validate_schema (VDict d') = Ok r'
    /\ valid r' = valid r
    /\ issues r' = issues r
    /\ warnings r' = warnings r.
Proof.
  apply (metadata_keeps_validity
           [("@context", VStr "https://schema.org");
            ("@type", VStr "FAQPage");
            ("mainEntity", VList [q_services; q_schedule; q_hours])]
           [("title", VStr "Frequently asked questions");
            ("author", VStr "Front desk")]).
  - reflexivity.
  - reflexivity.
Defined.

(** ** Incomplete FAQs *)

Lemma map_result_raises {A B : Type} (f : A -> result B) (l : list A) :
  forall i x,
    nth_error l i = Some x -> (forall y, f x <> Ok y) ->
    exists e, map_result f l = Raise e.
Proof.
  induction l as [|a l IH]; intros i x Hnth Hx.
  - destruct i; discriminate Hnth.
  - simpl. destruct i as [|i]; simpl in Hnth.
    + injection Hnth as ->. destruct (f x) as [y|e]; [|simpl; eauto].
      exfalso. exact (Hx y eq_refl).
    + destruct (f a) as [y|e]; [|simpl; eauto]. cbn [bind].
      destruct (IH i x Hnth Hx) as (e & ->). simpl. eauto.
Qed.

(** [generate_schema] is all or nothing: when one FAQ of the list is a
    mapping without a [question] or without an [answer], the call raises
    (the [KeyError] of the lookup, an earlier FAQ's error or the rejection
    of a keyword propagates) and no partial schema is returned. *)
Theorem generate_rejects_incomplete_faq
        (items : list value) (i : nat) (f : list (string * value))
        (kwargs : list (string * value)) (now : string) :
  nth_error items i = Some (VDict f) ->
  lookup "question" f = None \/ lookup "answer" f = None ->
  exists e,
    SchemaGenerator.generate_schema (VList items) kwargs now
    = SchemaGenerator.Raised (SchemaGenerator.Builtin e).
Proof.
  intros Hnth Hmissing.
  assert (Hfaq : forall y,
             SchemaGenerator._create_question_entity (VDict f) <> Ok y).
  { intros y Hy.
    apply create_question_entity_inv in Hy as (e & q & a & _ & Hq & Ha & _).
    cbn [py_getitem] in Hq, Ha.
    destruct Hmissing as [Hm|Hm]; rewrite Hm in *; discriminate. }
  destruct (map_result_raises _ items i _ Hnth Hfaq) as (e & He).
  unfold SchemaGenerator.generate_schema.
  destruct (SchemaGenerator.bind_keywords _ _ kwargs) as [[]|e0]; [|eauto].
  exists e.
  destruct items as [|x items]; [destruct i; discriminate Hnth|].
  cbn [truthy negb py_iter bind]. rewrite He. reflexivity.
Qed.

Lemma generate_rejects_incomplete_faq_witness :
  SchemaGenerator.generate_schema
    (VList [VDict [("question", VStr "What services do you offer?")]])
    [] "2026-01-01T00:00:00"
  = SchemaGenerator.Raised (SchemaGenerator.Builtin (KeyError "answer")).
Proof.
  destruct (generate_rejects_incomplete_faq
              [VDict [("question", VStr "What services do you offer?")]] 0
              [("question", VStr "What services do you offer?")]
              [] "2026-01-01T00:00:00" eq_refl (or_intror eq_refl))
    as (e & He).
  rewrite He. vm_compute in He. injection He as <-. reflexivity.
Defined.

(** ** An answer that is not a mapping, in the eligibility check *)

Lemma enumerate_from_app {A : Type} (l1 l2 : list A) :
  forall start,
    enumerate_from start (l1 ++ l2)
    = enumerate_from start l1 ++ enumerate_from (start + List.length l1) l2.
Proof.
  induction l1 as [|x l1 IH]; intros start; simpl.
  - rewrite Nat.add_0_r. reflexivity.
  - rewrite IH. replace (S start + List.length l1)
      with (start + S (List.length l1)) by lia. reflexivity.
Qed.

Lemma st_for_each_app {A S : Type} (l1 l2 : list A)
      (body : A -> stateful S unit) (s : S) :
  st_for_each (l1 ++ l2) body s
  = match st_for_each l1 body s with
    | (s1, Ok _) => st_for_each l2 body s1
    | (s1, Raise e) => (s1, Raise e)
    end.
Proof.
  revert s. induction l1 as [|x l1 IH]; intros s; simpl.
  - reflexivity.
  - unfold st_bind. destruct (body x s) as [s1 [[]|e]]; [apply IH|reflexivity].
Qed.

Lemma google_loop_returns (l : list value) :
  forallb answer_is_probed_safely l = true ->
  forall start s, exists s', google_loop start l s = (s', Ok tt).
Proof.
  unfold google_loop. induction l as [|x l IH]; intros Hl start s.
  - simpl. unfold st_ret. eauto.
  - simpl in Hl. apply andb_true_iff in Hl as [Hx Hl].
    cbn [enumerate_from st_for_each]. unfold st_bind.
    destruct (google_check_returns start x s Hx) as (s1 & ->).
    apply IH. exact Hl.
Qed.

Lemma google_check_bad_answer (i : nat) (e : list (string * value))
      (a : value) (s : google_results) :
  lookup "acceptedAnswer" e = Some a -> is_dict a = false ->
  exists s',
    google_check_entity i (VDict e) s
    = (s', Raise (AttributeError (type_name a) "get")).
Proof.
  intros Ha Hdict. unfold google_check_entity.
  cbn [is_dict negb]. unfold st_bind, lift, when, modify, st_ret.
  cbn [py_get]. rewrite Ha.
  destruct (ne_str _ "Question"), (negb (truthy _));
    rewrite Hdict; cbn [negb or_else];
    destruct a; try discriminate Hdict; cbn [py_get type_name]; eauto.
Qed.

(** When a mapping entity of an FAQPage carries an [acceptedAnswer] that is
    not a mapping (and no earlier entity does), the eligibility check fails
    inside on [answer.get]: the handler appends "Validation error: '<type>'
    object has no attribute 'get'" as the last issue and clears [valid], no
    eligibility warning is appended, and [rich_results] keeps its initial
    value [True]. *)
Theorem google_bad_answer_is_internal_error
        (d e : list (string * value)) (before after : list value) (a : value) :
  lookup "@type" d = Some (VStr "FAQPage") ->
  lookup "mainEntity" d = Some (VList (before ++ VDict e :: after)) ->
  forallb answer_is_probed_safely before = true ->
  lookup "acceptedAnswer" e = Some a -> is_dict a = false ->
  exists r earlier,
    validate_with_google (VDict d) = Ok r
    /\ g_valid r = false
    /\ g_issues r
       = earlier ++ [("Validation error: '" ++ type_name a
                      ++ "' object has no attribute 'get'")%string]
    /\ g_warnings r = []
    /\ rich_results r = true.
Proof.
  intros Hty Hmain Hsafe Ha Hdict.
  destruct (google_loop_returns before Hsafe 0 initial_google)
    as (s1 & Hbefore).
  destruct (google_check_bad_answer (List.length before) e a s1 Ha Hdict)
    as (s2 & Hbad).
  assert (Hloop : google_loop 0 (before ++ VDict e :: after) initial_google
                  = (s2, Raise (AttributeError (type_name a) "get"))).
  { unfold google_loop in *. rewrite enumerate_from_app, st_for_each_app.
    rewrite Hbefore. cbn [enumerate_from st_for_each Nat.add].
    unfold st_bind. rewrite Hbad. reflexivity. }
  assert (Hkeep : g_warnings s2 = [] /\ rich_results s2 = true).
  { unfold google_loop in Hloop.
    apply keeps_for_each in Hloop; [exact Hloop|].
    intros [j x]. apply keeps_check_entity. }
  destruct Hkeep as [Hw Hr].
  unfold validate_with_google, run, try_except, validate_with_google_body,
    st_bind, lift, ne_str.
  cbn [py_get]. rewrite Hty, Hmain.
  cbn [eq_str String.eqb Ascii.eqb Bool.eqb negb py_len py_iter].
  assert (Hlen : Nat.ltb (List.length (before ++ VDict e :: after)) 1 = false).
  { apply Nat.ltb_ge. rewrite length_app. simpl. lia. }
  rewrite Hlen. unfold google_loop in Hloop. unfold enumerate.
  rewrite Hloop.
  unfold validate_with_google_handler, st_bind, modify, get.
  cbn [snd]. eexists. exists (g_issues s2).
  split; [reflexivity|]. cbn [g_fail g_valid g_issues g_warnings rich_results].
  cbn [str_exn]. auto.
Qed.

Lemma google_bad_answer_is_internal_error_witness :
  exists r,
    validate_with_google
      (faq_page [q_services;
                 VDict [("@type", VStr "Question");
                        ("name", VStr "What are your office hours?");
                        ("acceptedAnswer", VStr "From 8 AM to 5 PM.")]])
    = Ok r
    /\ g_valid r = false /\ rich_results r = true /\ g_warnings r = [].
Proof.
  destruct (google_bad_answer_is_internal_error
              [("@context", VStr "https://schema.org");
               ("@type", VStr "FAQPage");
               ("mainEntity",
                VList ([q_services]
                         ++ VDict [("@type", VStr "Question");
                                   ("name", VStr "What are your office hours?");
                                   ("acceptedAnswer", VStr "From 8 AM to 5 PM.")]
                         :: []))]
              [("@type", VStr "Question");
               ("name", VStr "What are your office hours?");
               ("acceptedAnswer", VStr "From 8 AM to 5 PM.")]
              [q_services] [] (VStr "From 8 AM to 5 PM."))
    as (r & earlier & Hr & Hv & _ & Hw & Hrich); try reflexivity.
  exists r. split; [exact Hr|]. auto.
Defined.

(** ** The value of [@context] *)

Lemma entity_loop_ignores_warnings (l : list value) :
  forall start r1 r2,
    s_valid r1 = s_valid r2 -> s_issues r1 = s_issues r2 ->
    match entity_loop start l r1, entity_loop start l r2 with
    | Ok a, Ok b => s_valid a = s_valid b /\ s_issues a = s_issues b
    | Raise e1, Raise e2 => e1 = e2
    | _, _ => False
    end.
Proof.
  unfold entity_loop. induction l as [|x l IH]; intros start r1 r2 Hv Hi.
  - simpl. auto.
  - cbn [enumerate_from for_each].
    destruct (_validate_question_entity x start) as [er|e]; cbn [bind];
      [|reflexivity].
    apply IH; cbn [s_extend s_valid s_issues]; congruence.
Qed.

Lemma validity_from_passes (schema schema' : value) :
  match _validate_structure schema', _validate_structure schema with
  | Ok a, Ok b => s_valid a = s_valid b /\ s_issues a = s_issues b
  | Raise e1, Raise e2 => e1 = e2
  | _, _ => False
  end ->
  _validate_content schema' = _validate_content schema ->
  match _validate_seo_practices schema', _validate_seo_practices schema with
  | Ok o', Ok o => o_warnings o' = o_warnings o
  | Raise e', Raise e => e' = e
  | _, _ => False
  end ->
  exists r r',
    validate_schema schema = Ok r
    /\ validate_schema schema' = Ok r'
    /\ valid r' = valid r
    /\ issues r' = issues r.
Proof.
  intros Hst Hc Hseo.
  unfold validate_schema, run, try_except, validate_schema_body,
    validate_schema_handler, st_bind, lift, modify, get, when, st_ret.
  rewrite Hc.
  destruct (_validate_structure schema') as [st'|e1'],
    (_validate_structure schema) as [st|e1],
    (_validate_content schema) as [c|e2],
    (_validate_seo_practices schema') as [o'|e'],
    (_validate_seo_practices schema) as [o|e];
    try contradiction; subst; cbn;
    try (destruct Hst as [Hv Hi]; rewrite ?Hi, ?Hv);
    try (eexists; eexists; repeat split; reflexivity).
  all: try destruct (nonempty (s_issues st ++ c_issues c)); cbn;
    eexists; eexists; (split; [reflexivity|]); (split; [reflexivity|]);
    cbn; split; congruence.
Qed.

(** A present [@context] may hold any value: replacing it changes neither
    [valid] nor [issues] of the report (a value other than
    "https://schema.org" only adds a warning). *)
Theorem context_value_never_invalidates (d : list (string * value))
        (c c' : value) :
  lookup "@context" d = Some c ->
  exists r r',
    validate_schema (VDict d) = Ok r
    /\ validate_schema (VDict (dict_set "@context" c' d)) = Ok r'
    /\ valid r' = valid r
    /\ issues r' = issues r.
Proof.
  intros Hc.
  assert (Ht : lookup "@type" (dict_set "@context" c' d) = lookup "@type" d)
    by (apply lookup_dict_set_ne; discriminate).
  assert (Hm : lookup "mainEntity" (dict_set "@context" c' d)
               = lookup "mainEntity" d)
    by (apply lookup_dict_set_ne; discriminate).
  assert (Hissues : top_issues (dict_set "@context" c' d) = top_issues d).
  { unfold top_issues, has_key.
    rewrite lookup_dict_set_eq, Hc, Ht, Hm. reflexivity. }
  apply validity_from_passes.
  - rewrite !structure_dict_top, Hm. unfold top_results. rewrite Hissues.
    destruct (lookup "mainEntity" d) as [[| | | |[|e l]|]|];
      cbn [s_valid s_issues]; auto.
    apply entity_loop_ignores_warnings; reflexivity.
  - apply content_depends. exact Hm.
  - apply seo_depends. exact Hm.
Qed.

Lemma context_value_never_invalidates_witness :
  exists r',
    validate_schema
      (VDict [("@context", VStr "https://example.com");
              ("@type", VStr "FAQPage");
              ("mainEntity", VList [q_services; q_schedule; q_hours])])
    = Ok r'
    /\ valid r' = true.
Proof.
  destruct (context_value_never_invalidates
              [("@context", VStr "https://schema.org");
               ("@type", VStr "FAQPage");
               ("mainEntity", VList [q_services; q_schedule; q_hours])]
              (VStr "https://schema.org") (VStr "https://example.com") eq_refl)
    as (r & r' & Hr & Hr' & Hv & _).
  exists r'. split; [exact Hr'|]. rewrite Hv.
  vm_compute in Hr. injection Hr as <-. reflexivity.
Defined.
